(** * OmniStack gateway: admission control, result cache, orchestration

    A shallow embedding of three modules of the repository and the
    properties stated about them:

    - [src/api/rate_limiter.py]       (modules [Limiter], [Script],
                                       [LimiterApi])
    - [src/cache/cache_manager.py]    (modules [Cache], [CacheApi])
    - [src/ai_core/service_manager.py] (modules [Orchestrator], [ServiceApi])

    Conventions.  Numbers that are floats in Python or Lua (token counts,
    [time.time()]) are exact rationals [Q] in [Limiter] and [LimiterApi],
    where rounding is not modelled; [Script] has the Lua script over any
    arithmetic, that of binary64 numbers among them, and what is stated
    about the arithmetic of the script is stated there.  A Redis server is a finite map from keys to entries with an optional
    expiry deadline, read against the server clock (milliseconds); the
    limiter and the cache are given a server each.  Whether the server
    answers is an input of every call; when it does not, the client raises.
    Python exceptions carry the exception that was being handled when they
    were raised ([__context__]).  What the code calls but does not define
    is a parameter: the functions of [json], [pickle] and [bytes.decode],
    the built-in [hash], the three analyses, and the objects behind
    [self.cache] and [self.telemetry], of which [analyze_code] uses two
    methods each. *)

From Stdlib Require Import ZArith QArith Lqa String Ascii List.
From Stdlib Require Floats.SpecFloat.
From stdpp Require Import gmap strings pretty.

(** ** Python exceptions and results *)

(** An exception of class [cls]; [Handling] is one raised while [context]
    was being handled, which the interpreter records as its [__context__]. *)
Inductive exn : Type :=
| Exn (cls : string)
| Handling (cls : string) (context : exn).

Definition exn_class (e : exn) : string :=
  match e with
  | Exn c => c
  | Handling c _ => c
  end.

(** [raise_from handled e]: [e] is raised while [handled] is being handled. *)
Definition raise_from (handled e : exn) : exn :=
  Handling (exn_class e) handled.

(** The exception itself followed by its chain of contexts. *)
Fixpoint exn_chain (e : exn) : list exn :=
  match e with
  | Exn _ => [e]
  | Handling _ e' => e :: exn_chain e'
  end.

Definition ConnectionError : exn := Exn "ConnectionError".
Definition ResponseError : exn := Exn "ResponseError".
Definition TypeError : exn := Exn "TypeError".
Definition KeyError : exn := Exn "KeyError".
Definition AttributeError : exn := Exn "AttributeError".
Definition JSONDecodeError : exn := Exn "JSONDecodeError".
Definition UnicodeDecodeError : exn := Exn "UnicodeDecodeError".
Definition UnpicklingError : exn := Exn "UnpicklingError".

Inductive result (A : Type) : Type :=
| Ok (a : A)
| Raise (e : exn).
Arguments Ok {A} a.
Arguments Raise {A} e.

(** Sequencing: an exception skips the rest ([x ← r; k] is stdpp's
    notation for [mbind]). *)
Global Instance result_bind : MBind result := λ A B k r,
  match r with
  | Ok a => k a
  | Raise e => Raise e
  end.

(** [isinstance e classes]: the test an [except (C1, C2, ...)] clause makes.
    Every exception is an [Exception]; of the other classes caught in the
    modelled code none has a subclass among the exceptions that occur. *)
Definition isinstance (e : exn) (classes : list string) : bool :=
  bool_decide ("Exception"%string ∈ classes ∨ exn_class e ∈ classes).

(** ** Rate limiter ([src/api/rate_limiter.py]) *)

Module Limiter.

Local Open Scope Q_scope.

(** *** The server side: hashes with an expiry *)

(** A Redis hash: its fields in insertion order, which is the order
    [HGETALL] replies in for a hash this small, and the deadline set by
    [EXPIRE] (server clock, milliseconds). *)
Record hash_entry : Type := HashEntry {
  fields : list (string * Q);
  deadline : option Z
}.

(** The server takes a key for expired once its clock has passed the
    deadline: at the deadline itself the key is still there. *)
Definition live (srv : Z) (e : hash_entry) : bool :=
  match deadline e with
  | None => true
  | Some d => (srv <=? d)%Z
  end.

(** The entry under [k] as a command sees it at server time [srv]: an
    expired key does not exist. *)
Definition visible (srv : Z) (db : gmap string hash_entry) (k : string)
  : option hash_entry :=
  match db !! k with
  | Some e => if live srv e then Some e else None
  | None => None
  end.

(** Values of the Lua script. *)
Inductive lua : Type :=
| LNil
| LNum (q : Q)
| LStr (s : string).

(** [redis.call('hgetall', k)]: the flat table field1, value1, field2, ... *)
Definition hgetall (srv : Z) (db : gmap string hash_entry) (k : string)
  : list lua :=
  match visible srv db k with
  | Some e => flat_map (λ fv, [LStr (fst fv); LNum (snd fv)]) (fields e)
  | None => []
  end.

(** [self.redis.hgetall(k)] of the Python client: the fields as a dict,
    empty for a missing key; [hget f d] is [d.get(f)]. *)
Definition hgetall_dict (srv : Z) (db : gmap string hash_entry) (k : string)
  : list (string * Q) :=
  match visible srv db k with
  | Some e => fields e
  | None => []
  end.

Fixpoint hget (f : string) (fs : list (string * Q)) : option Q :=
  match fs with
  | [] => None
  | (f', v) :: fs' => if String.eqb f' f then Some v else hget f fs'
  end.

(** [HSET] of one field: replaced in place when present, appended
    otherwise. *)
Fixpoint hset (f : string) (v : Q) (fs : list (string * Q))
  : list (string * Q) :=
  match fs with
  | [] => [(f, v)]
  | (f', v') :: fs' =>
      if String.eqb f' f then (f, v) :: fs' else (f', v') :: hset f v fs'
  end.

(** [redis.call('hmset', k, f1, v1, f2, v2)]: the fields are set from left
    to right; an existing key keeps its deadline, a new one has none. *)
Definition hmset (srv : Z) (db : gmap string hash_entry) (k : string)
    (updates : list (string * Q)) : gmap string hash_entry :=
  let old := match visible srv db k with
             | Some e => e
             | None => HashEntry [] None
             end in
  <[k := HashEntry (fold_left (λ fs fv, hset (fst fv) (snd fv) fs)
                              updates (fields old))
                   (deadline old)]> db.

(** [redis.call('expire', k, seconds)]. *)
Definition expire (srv : Z) (db : gmap string hash_entry) (k : string)
    (seconds : Z) : gmap string hash_entry :=
  match visible srv db k with
  | Some e => <[k := HashEntry (fields e) (Some (srv + 1000 * seconds)%Z)]> db
  | None => db
  end.

(** *** The Lua script of [check_rate_limit] *)

(** [t[i]], indices from 1. *)
Definition index (t : list lua) (i : nat) : lua :=
  nth (i - 1) t LNil.

(** [a or b]. *)
Definition lua_or (a b : lua) : lua :=
  match a with
  | LNil => b
  | _ => a
  end.

(** [tonumber(v)]; stored numbers are kept as numbers, so the only strings
    that reach it are field names, which are not numerals. *)
Definition tonumber (v : lua) : option Q :=
  match v with
  | LNum q => Some q
  | _ => None
  end.

(** [math.min(a, b)]. *)
Definition math_min (a b : Q) : Q :=
  if Qlt_le_dec b a then b else a.

Definition window : Z := 60.

(** The script, run atomically at server time [srv] with [KEYS[1] =
    bucket_key] and [ARGV = now, rate, burst].  [None] is a script error
    (arithmetic on [nil]); otherwise the integer reply and the new
    database. *)
Definition lua_script (srv : Z) (db : gmap string hash_entry)
    (bucket_key : string) (now rate burst : Q)
  : option (Z * gmap string hash_entry) :=
  let bucket := hgetall srv db bucket_key in
  match tonumber (lua_or (index bucket 2) (LNum burst)),
        tonumber (lua_or (index bucket 4) (LNum 0)) with
  | Some tokens, Some last_update =>
      let time_passed := now - last_update in
      let new_tokens :=
        math_min burst (tokens + rate * time_passed / inject_Z window) in
      if Qle_bool 1 new_tokens then
        let db1 := hmset srv db bucket_key
                     [("tokens"%string, new_tokens - 1);
                      ("last_update"%string, now)] in
        Some (1%Z, expire srv db1 bucket_key window)
      else Some (0%Z, db)
  | _, _ => None
  end.

(** *** The limiter *)

Record RateLimitConfig : Type := {
  requests_per_minute : Z;
  burst_size : Z;
  key_prefix : string
}.

Record RateLimiter : Type := {
  default_config : RateLimitConfig;
  tier_configs : gmap string RateLimitConfig
}.

(** The configurations [__init__] builds: the default one, used when the
    caller passes none, and one per subscription tier. *)
Definition fallback_config : RateLimitConfig :=
  {| requests_per_minute := 60; burst_size := 10;
     key_prefix := "rate_limit" |}.
Definition free_config : RateLimitConfig :=
  {| requests_per_minute := 60; burst_size := 10;
     key_prefix := "rate_limit:free" |}.
Definition pro_config : RateLimitConfig :=
  {| requests_per_minute := 300; burst_size := 50;
     key_prefix := "rate_limit:pro" |}.
Definition enterprise_config : RateLimitConfig :=
  {| requests_per_minute := 1000; burst_size := 100;
     key_prefix := "rate_limit:enterprise" |}.

(** [RateLimiter.__init__(redis_url, default_config=None)]. *)
Definition init (default_config : option RateLimitConfig) : RateLimiter :=
  {| default_config := default fallback_config default_config;
     tier_configs :=
       <["free" := free_config]>
       (<["pro" := pro_config]>
       (<["enterprise" := enterprise_config]> ∅)) |}.

(** [self.tier_configs.get(subscription_tier, self.default_config)]. *)
Definition config_of (rl : RateLimiter) (subscription_tier : string)
  : RateLimitConfig :=
  default (default_config rl) (tier_configs rl !! subscription_tier).

(** [f"{config.key_prefix}:{key}"]. *)
Definition bucket_key (config : RateLimitConfig) (key : string) : string :=
  key_prefix config +:+ ":" +:+ key.

(** [self.redis.eval(lua_script, 1, bucket_key, now, rate, burst)].
    [fault] is the exception the client raises instead of running the
    script, if any (the server cannot be reached, the call times out, ...). *)
Definition redis_eval (fault : option exn) (srv : Z)
    (db : gmap string hash_entry) (bk : string) (now rate burst : Q)
  : result (Z * gmap string hash_entry) :=
  match fault with
  | Some e => Raise e
  | None =>
      match lua_script srv db bk now rate burst with
      | Some r => Ok r
      | None => Raise ResponseError
      end
  end.

(** [check_rate_limit(key, subscription_tier)]; [now] is the value
    [time.time()] returns in this call. *)
Definition check_rate_limit (rl : RateLimiter) (fault : option exn) (srv : Z)
    (db : gmap string hash_entry) (key subscription_tier : string) (now : Q)
  : bool * gmap string hash_entry :=
  let config := config_of rl subscription_tier in
  let bk := bucket_key config key in
  match redis_eval fault srv db bk now
          (inject_Z (requests_per_minute config))
          (inject_Z (burst_size config)) with
  | Ok (reply, db') => (negb (reply =? 0)%Z, db')
  | Raise _ =>
      (* except Exception: the failure is logged, the request allowed *)
      (true, db)
  end.

(** The local [tokens] of [get_rate_limit_headers]: what the bucket of
    ([key], [subscription_tier]) holds, read at server time [srv];
    [None] when the read raises and no header is produced. *)
Definition header_tokens (rl : RateLimiter) (fault : option exn) (srv : Z)
    (db : gmap string hash_entry) (key subscription_tier : string)
  : option Q :=
  let config := config_of rl subscription_tier in
  let bk := bucket_key config key in
  match fault with
  | Some _ => None
  | None =>
      Some (default (inject_Z (burst_size config))
              (hget "tokens" (hgetall_dict srv db bk)))
  end.

(** *** Sequences of calls *)

(** One call of [check_rate_limit] with what it reads from its
    environment: the client clock [c_now], the server clock [c_srv] and
    the failure of the client, if any. *)
Record call : Type := Call {
  c_key : string;
  c_tier : string;
  c_now : Q;
  c_srv : Z;
  c_fault : option exn
}.

Definition step (rl : RateLimiter) (db : gmap string hash_entry) (c : call)
  : gmap string hash_entry :=
  snd (check_rate_limit rl (c_fault c) (c_srv c) db
         (c_key c) (c_tier c) (c_now c)).

(** The store after a sequence of calls that starts from the empty store. *)
Definition run (rl : RateLimiter) (calls : list call)
  : gmap string hash_entry :=
  fold_left (step rl) calls ∅.

Definition bucket_of (rl : RateLimiter) (c : call) : string :=
  bucket_key (config_of rl (c_tier c)) (c_key c).

Definition capacity_of (rl : RateLimiter) (c : call) : Z :=
  burst_size (config_of rl (c_tier c)).

(** The record [(tokens, last_update)] stored under a bucket key. *)
Definition bucket_fields (tokens last_update : Q) : list (string * Q) :=
  [("tokens"%string, tokens); ("last_update"%string, last_update)].

Definition bucket_state (srv : Z) (db : gmap string hash_entry) (bk : string)
  : option (Q * Q) :=
  match visible srv db bk with
  | Some e =>
      match hget "tokens" (fields e), hget "last_update" (fields e) with
      | Some t, Some l => Some (t, l)
      | _, _ => None
      end
  | None => None
  end.

(** *** The consume operation as the specification words it *)

Definition q_max (a b : Q) : Q :=
  if Qlt_le_dec a b then b else a.

(** From the stored record (or none), the decision and the record to
    persist. *)
Definition consume_spec (stored : option (Q * Q))
    (now rate burst windowSeconds : Q) : bool * (Q * Q) :=
  let '(tokens, lastUpdate) := default (burst, 0) stored in
  let elapsed := q_max 0 (now - lastUpdate) in
  let refilled := math_min burst (tokens + rate * elapsed / windowSeconds) in
  if Qle_bool 1 refilled then (true, (refilled - 1, now))
  else (false, (refilled, now)).

(** *** Stores and sequences the properties speak of *)

(** An entry that holds a bucket record: the two fields the script writes,
    in the order it reads them back. *)
Definition well_shaped (e : hash_entry) : Prop :=
  ∃ t l, fields e = bucket_fields t l.

(** Every stored bucket was written by one of the calls, has the two fields
    in the order the script reads them, and holds between zero and the
    capacity of that call minus the token it consumed. *)
Definition written_by (rl : RateLimiter) (calls : list call)
    (db : gmap string hash_entry) : Prop :=
  ∀ bk e, db !! bk = Some e →
    ∃ c t l, c ∈ calls ∧ bk = bucket_of rl c ∧ fields e = bucket_fields t l
             ∧ 0 <= t ∧ t <= inject_Z (capacity_of rl c) - 1.

(** The calls of one client under one tier. *)
Definition calls_of (key tier : string) (calls : list call) : Prop :=
  ∀ c, c ∈ calls → c_key c = key ∧ c_tier c = tier.

End Limiter.

(** ** The script in the arithmetic of Lua *)

(** Lua computes with IEEE 754 binary64 numbers: the arguments of the
    script are read by [tonumber] from the decimal text the client sends
    ([repr] of a Python float or int, which names one binary64 number), and
    a number the script stores is written with 17 significant digits, from
    which [tonumber] reads the same number back.  Module [Limiter] above
    takes the numbers for exact rationals, which the script agrees with as
    long as no operation rounds.  Here is the script once more, for any
    arithmetic: with the exact one it is the script of [Limiter], with the
    binary64 one it is the script as the server runs it. *)

Module Script.

Import SpecFloat.

Class Arith (N : Type) : Type := {
  num_add : N → N → N;
  num_sub : N → N → N;
  num_mul : N → N → N;
  num_div : N → N → N;
  num_lt : N → N → bool;
  num_le : N → N → bool;
  num_of_Z : Z → N
}.

(** The arithmetic of [Limiter]. *)
Definition exact : Arith Q := {|
  num_add := Qplus;
  num_sub := Qminus;
  num_mul := Qmult;
  num_div := Qdiv;
  num_lt := λ a b, if Qlt_le_dec a b then true else false;
  num_le := Qle_bool;
  num_of_Z := inject_Z
|}.

(** The arithmetic of Lua: binary64 (53 bits of precision, exponents below
    1024), every operation rounded to nearest, ties to even; a comparison
    with a NaN is false. *)
Definition binary64 : Arith spec_float := {|
  num_add := SFadd 53 1024;
  num_sub := SFsub 53 1024;
  num_mul := SFmul 53 1024;
  num_div := SFdiv 53 1024;
  num_lt := SFltb;
  num_le := SFleb;
  num_of_Z := λ z, binary_normalize 53 1024 z 0 false
|}.

(** The rational a finite binary64 number is; 0 for the others. *)
Definition to_Q (x : spec_float) : Q :=
  match x with
  | S754_finite s m e =>
      inject_Z (if s then Z.neg m else Z.pos m)
      * (if (0 <=? e)%Z then inject_Z (2 ^ e) else / inject_Z (2 ^ (- e)))
  | _ => 0
  end.

(** A hash whose values are numbers of type [N]. *)
Record hash_entry (N : Type) : Type := HashEntry {
  fields : list (string * N);
  deadline : option Z
}.
Arguments HashEntry {N} _ _.
Arguments fields {N} _.
Arguments deadline {N} _.

Inductive lua (N : Type) : Type :=
| LNil
| LNum (n : N)
| LStr (s : string).
Arguments LNil {N}.
Arguments LNum {N} _.
Arguments LStr {N} _.

Section Generic.

Context {N : Type} {A : Arith N}.

Definition live (srv : Z) (e : hash_entry N) : bool :=
  match deadline e with
  | None => true
  | Some d => (srv <=? d)%Z
  end.

Definition visible (srv : Z) (db : gmap string (hash_entry N)) (k : string)
  : option (hash_entry N) :=
  match db !! k with
  | Some e => if live srv e then Some e else None
  | None => None
  end.

(** [redis.call('hgetall', k)]. *)
Definition hgetall (srv : Z) (db : gmap string (hash_entry N)) (k : string)
  : list (lua N) :=
  match visible srv db k with
  | Some e => flat_map (λ fv, [LStr (fst fv); LNum (snd fv)]) (fields e)
  | None => []
  end.

Fixpoint hget (f : string) (fs : list (string * N)) : option N :=
  match fs with
  | [] => None
  | (f', v) :: fs' => if String.eqb f' f then Some v else hget f fs'
  end.

Fixpoint hset (f : string) (v : N) (fs : list (string * N))
  : list (string * N) :=
  match fs with
  | [] => [(f, v)]
  | (f', v') :: fs' =>
      if String.eqb f' f then (f, v) :: fs' else (f', v') :: hset f v fs'
  end.

(** [redis.call('hmset', k, f1, v1, f2, v2)]. *)
Definition hmset (srv : Z) (db : gmap string (hash_entry N)) (k : string)
    (updates : list (string * N)) : gmap string (hash_entry N) :=
  let old := match visible srv db k with
             | Some e => e
             | None => HashEntry [] None
             end in
  <[k := HashEntry (fold_left (λ fs fv, hset (fst fv) (snd fv) fs)
                              updates (fields old))
                   (deadline old)]> db.

(** [redis.call('expire', k, seconds)]. *)
Definition expire (srv : Z) (db : gmap string (hash_entry N)) (k : string)
    (seconds : Z) : gmap string (hash_entry N) :=
  match visible srv db k with
  | Some e => <[k := HashEntry (fields e) (Some (srv + 1000 * seconds)%Z)]> db
  | None => db
  end.

(** [t[i]], [a or b], [tonumber(v)]. *)
Definition index (t : list (lua N)) (i : nat) : lua N :=
  nth (i - 1) t LNil.

Definition lua_or (a b : lua N) : lua N :=
  match a with
  | LNil => b
  | _ => a
  end.

Definition tonumber (v : lua N) : option N :=
  match v with
  | LNum n => Some n
  | _ => None
  end.

(** [math.min(a, b)]: [b] when [b < a], and [a] otherwise. *)
Definition math_min (a b : N) : N :=
  if num_lt b a then b else a.

Definition window : Z := 60.

(** The script of [check_rate_limit], line by line. *)
Definition lua_script (srv : Z) (db : gmap string (hash_entry N))
    (bucket_key : string) (now rate burst : N)
  : option (Z * gmap string (hash_entry N)) :=
  let bucket := hgetall srv db bucket_key in
  match tonumber (lua_or (index bucket 2) (LNum burst)),
        tonumber (lua_or (index bucket 4) (LNum (num_of_Z 0))) with
  | Some tokens, Some last_update =>
      let time_passed := num_sub now last_update in
      let new_tokens :=
        math_min burst
          (num_add tokens
             (num_div (num_mul rate time_passed) (num_of_Z window))) in
      if num_le (num_of_Z 1) new_tokens then
        let db1 := hmset srv db bucket_key
                     [("tokens"%string, num_sub new_tokens (num_of_Z 1));
                      ("last_update"%string, now)] in
        Some (1%Z, expire srv db1 bucket_key window)
      else Some (0%Z, db)
  | _, _ => None
  end.

(** The record [(tokens, last_update)] stored under a bucket key. *)
Definition bucket_fields (tokens last_update : N) : list (string * N) :=
  [("tokens"%string, tokens); ("last_update"%string, last_update)].

Definition bucket_state (srv : Z) (db : gmap string (hash_entry N))
    (bk : string) : option (N * N) :=
  match visible srv db bk with
  | Some e =>
      match hget "tokens" (fields e), hget "last_update" (fields e) with
      | Some t, Some l => Some (t, l)
      | _, _ => None
      end
  | None => None
  end.

Definition well_shaped (e : hash_entry N) : Prop :=
  ∃ t l, fields e = bucket_fields t l.

(** The replies of the script to a sequence of calls on one bucket, each
    given by the server time and the client time of the call, and the
    store the calls leave; [None] is the reply of a script that fails. *)
Fixpoint replies (db : gmap string (hash_entry N)) (bk : string)
    (rate burst : N) (calls : list (Z * N))
  : list (option Z) * gmap string (hash_entry N) :=
  match calls with
  | [] => ([], db)
  | (srv, now) :: calls' =>
      match lua_script srv db bk now rate burst with
      | Some (reply, db') =>
          let '(rs, db'') := replies db' bk rate burst calls' in
          (Some reply :: rs, db'')
      | None =>
          let '(rs, db'') := replies db bk rate burst calls' in
          (None :: rs, db'')
      end
  end.

End Generic.

(** A store of [Limiter] as a store of the script over the exact
    arithmetic. *)
Definition of_limiter (e : Limiter.hash_entry) : hash_entry Q :=
  HashEntry (Limiter.fields e) (Limiter.deadline e).

Definition lua_of_limiter (v : Limiter.lua) : lua Q :=
  match v with
  | Limiter.LNil => LNil
  | Limiter.LNum q => LNum q
  | Limiter.LStr s => LStr s
  end.

End Script.


(** ** Python values *)

(** The values the cache and the orchestrator handle: the JSON-shaped ones
    (dicts keep their items in insertion order and have string keys) and
    instances of user-defined classes. *)
#[warnings="-register-all"]
Inductive pyobj : Type :=
| PyNone
| PyBool (b : bool)
| PyInt (n : Z)
| PyFloat (q : Q)
| PyStr (s : string)
| PyList (xs : list pyobj)
| PyDict (items : list (string * pyobj))
| PyInstance (cls : string) (attrs : list (string * pyobj)).

(** [bool(v)], the test an [if v:] makes. *)
Definition truthy (v : pyobj) : bool :=
  match v with
  | PyNone => false
  | PyBool b => b
  | PyInt n => negb (n =? 0)%Z
  | PyFloat q => negb (Qeq_bool q 0)
  | PyStr s => negb (String.eqb s "")
  | PyList xs => match xs with [] => false | _ => true end
  | PyDict items => match items with [] => false | _ => true end
  | PyInstance _ _ => true
  end.

Fixpoint assoc (k : string) (items : list (string * pyobj)) : option pyobj :=
  match items with
  | [] => None
  | (k', v) :: items' => if String.eqb k' k then Some v else assoc k items'
  end.

(** [d[k]]. *)
Definition py_getitem (d : pyobj) (k : string) : result pyobj :=
  match d with
  | PyDict items =>
      match assoc k items with
      | Some v => Ok v
      | None => Raise KeyError
      end
  | _ => Raise TypeError
  end.

(** [d.get(k, dflt)]. *)
Definition py_get (d : pyobj) (k : string) (dflt : pyobj) : result pyobj :=
  match d with
  | PyDict items => Ok (default dflt (assoc k items))
  | _ => Raise AttributeError
  end.

(** [len(v)]. *)
Definition py_len (v : pyobj) : result Z :=
  match v with
  | PyStr s => Ok (Z.of_nat (String.length s))
  | PyList xs => Ok (Z.of_nat (length xs))
  | PyDict items => Ok (Z.of_nat (length items))
  | _ => Raise TypeError
  end.

(** [try: body except classes: handler].  An exception the handler raises
    has the handled one as its context. *)
Definition try_except {A} (body : result A) (classes : list string)
    (handler : exn → result A) : result A :=
  match body with
  | Ok a => Ok a
  | Raise e =>
      if isinstance e classes then
        match handler e with
        | Ok a => Ok a
        | Raise e' => Raise (raise_from e e')
        end
      else Raise e
  end.

(** ** Result cache ([src/cache/cache_manager.py]) *)

Module Cache.

(** The library functions [CacheManager] calls.  Text ([str]) and [bytes]
    are both byte strings here, a [str] standing for its UTF-8 encoding;
    [utf8_decode] is [bytes.decode], which raises on bytes that are not
    UTF-8. *)
Record pylib : Type := {
  json_dumps : pyobj → result string;
  json_loads : string → result pyobj;
  pickle_dumps : pyobj → result string;
  pickle_loads : string → result pyobj;
  utf8_decode : string → result string
}.

(** The names module [json] binds to exception classes.  It has
    [JSONDecodeError] and no [JSONEncodeError]: looking the latter up
    raises [AttributeError]. *)
Definition json_getattr (name : string) : result string :=
  if String.eqb name "JSONDecodeError" then Ok name else Raise AttributeError.

(** *** The server: string keys with an expiry *)

Record string_entry : Type := StringEntry {
  payload : string;
  deadline : option Z
}.

(** [up]: whether the server answers; [clock]: its time in milliseconds. *)
Record server : Type := Server {
  up : bool;
  clock : Z;
  db : gmap string string_entry
}.

Definition with_db (s : server) (d : gmap string string_entry) : server :=
  {| up := up s; clock := clock s; db := d |}.

(** The same store at server time [t]. *)
Definition at_time (s : server) (t : Z) : server :=
  {| up := up s; clock := t; db := db s |}.

(** A key is expired once the clock has passed its deadline: at the
    deadline itself it is still there. *)
Definition live (s : server) (e : string_entry) : bool :=
  match deadline e with
  | None => true
  | Some d => (clock s <=? d)%Z
  end.

Definition visible (s : server) (k : string) : option string_entry :=
  match db s !! k with
  | Some e => if live s e then Some e else None
  | None => None
  end.

(** [GET k] through [binary_redis] ([decode_responses=False]). *)
Definition redis_get (s : server) (k : string) : result (option string) :=
  if up s then Ok (payload <$> visible s k) else Raise ConnectionError.

(** [SET k v EX ex]; the server refuses an expiry that is not positive. *)
Definition redis_set (s : server) (k v : string) (ex : Z)
  : result unit * server :=
  if up s then
    if (0 <? ex)%Z then
      (Ok (), with_db s (<[k := StringEntry v (Some (clock s + 1000 * ex)%Z)]>
                           (db s)))
    else (Raise ResponseError, s)
  else (Raise ConnectionError, s).

(** The largest integer of the server, and the expiries in seconds that
    every server accepts for [SET k v EX ex] at its time [clock s]: the
    positive ones whose deadline in milliseconds is such an integer.  A
    server refuses an expiry beyond them; [redis_set] above does not say
    so, and what is stated about a value that was stored is stated for an
    expiry among them. *)
Definition LLONG_MAX : Z := 9223372036854775807.

Definition expiry_accepted (s : server) (ex : Z) : Prop :=
  (0 < ex ≤ LLONG_MAX / 1000)%Z ∧ (0 < clock s + 1000 * ex ≤ LLONG_MAX)%Z.

(** [DEL k]. *)
Definition redis_delete (s : server) (k : string) : result unit * server :=
  if up s then (Ok (), with_db s (delete k (db s)))
  else (Raise ConnectionError, s).

Section Manager.

Context (L : pylib).

(** [GET k] through [redis_client] ([decode_responses=True]): the reply is
    decoded as UTF-8. *)
Definition redis_get_text (s : server) (k : string) : result (option string) :=
  reply ← redis_get s k;
  match reply with
  | None => Ok None
  | Some b => text ← utf8_decode L b; Ok (Some text)
  end.

(** [CacheManager.get(key, default)].  Both clients are connected to the
    same server, so they read the same key. *)
Definition get (s : server) (key : string) (dflt : pyobj) : result pyobj :=
  try_except
    (value ← redis_get_text s key;
     match value with
     | None => Ok dflt
     | Some text => json_loads L text
     end)
    ["JSONDecodeError"]
    (λ _,
       (* Try binary data *)
       value ← redis_get s key;
       match value with
       | None => Ok dflt
       | Some b => pickle_loads L b
       end).

(** [CacheManager.set(key, value, ttl)], [default_ttl] being the manager's.
    When the [try] body raises, the classes of the [except] clause are
    evaluated first, and [json.JSONEncodeError] is one of them.  The TTL
    is an [int] number of seconds; a [timedelta], which the signature
    allows as well, is not modelled. *)
Definition set (default_ttl : Z) (s : server) (key : string) (value : pyobj)
    (ttl : option Z) : result unit * server :=
  let ttl := default default_ttl ttl in
  let body : result unit * server :=
    match json_dumps L value with
    | Ok serialized => redis_set s key serialized ttl
    | Raise e => (Raise e, s)
    end in
  match body with
  | (Ok u, s') => (Ok u, s')
  | (Raise e, s') =>
      match json_getattr "JSONEncodeError" with
      | Raise e' => (Raise (raise_from e e'), s')
      | Ok encode_error =>
          if isinstance e ["TypeError"; encode_error] then
            (* Handle non-JSON serializable objects *)
            match pickle_dumps L value with
            | Ok serialized =>
                match redis_set s' key serialized ttl with
                | (Ok u, s'') => (Ok u, s'')
                | (Raise e', s'') => (Raise (raise_from e e'), s'')
                end
            | Raise e' => (Raise (raise_from e e'), s')
            end
          else (Raise e, s')
      end
  end.

(** [CacheManager.delete(key)]: one [DEL] through each client. *)
Definition delete (s : server) (key : string) : result unit * server :=
  match redis_delete s key with
  | (Ok _, s') => redis_delete s' key
  | (Raise e, s') => (Raise e, s')
  end.

End Manager.

(** The design the specification words: the entry records which encoding
    was chosen, and the read dispatches on that tag. *)
Inductive encodingTag : Type := structured | opaque.

Definition decode_by_tag (L : pylib) (tag : encodingTag) (b : string)
  : result pyobj :=
  match tag with
  | structured => json_loads L b
  | opaque => pickle_loads L b
  end.

End Cache.


(** ** Orchestrator ([src/ai_core/service_manager.py]) *)

Module Orchestrator.

Record AnalysisResult : Type := {
  quality_score : pyobj;
  issues : pyobj;
  optimizations : pyobj;
  patterns : pyobj;
  execution_time : pyobj;
  timestamp : pyobj
}.

(** [result.__dict__]. *)
Definition to_dict (r : AnalysisResult) : pyobj :=
  PyDict [("quality_score", quality_score r); ("issues", issues r);
          ("optimizations", optimizations r); ("patterns", patterns r);
          ("execution_time", execution_time r); ("timestamp", timestamp r)].

Definition field_names : list string :=
  ["quality_score"; "issues"; "optimizations"; "patterns";
   "execution_time"; "timestamp"].

(** [AnalysisResult] called with the items of [d] as keyword arguments:
    [d] must be a mapping that gives every field and no other keyword. *)
Definition from_kwargs (d : pyobj) : result AnalysisResult :=
  match d with
  | PyDict items =>
      if forallb (λ kv, bool_decide (fst kv ∈ field_names)) items then
        match assoc "quality_score" items, assoc "issues" items,
              assoc "optimizations" items, assoc "patterns" items,
              assoc "execution_time" items, assoc "timestamp" items with
        | Some q, Some i, Some o, Some p, Some x, Some t =>
            Ok {| quality_score := q; issues := i; optimizations := o;
                  patterns := p; execution_time := x; timestamp := t |}
        | _, _, _, _, _, _ => Raise TypeError
        end
      else Raise TypeError
  | _ => Raise TypeError
  end.

(** *** Collaborators *)

(** What [analyze_code] asks of [self.cache]: a [get] and a [set] it can
    await, over some state [S] of the store. *)
Record AsyncCache (S : Type) : Type := {
  cache_get : S → string → result pyobj;
  cache_set : S → string → pyobj → Z → result unit * S
}.
Arguments cache_get {S} _ _ _.
Arguments cache_set {S} _ _ _ _ _.

(** What it asks of [self.telemetry]. *)
Record Telemetry : Type := {
  record_analysis : Z → pyobj → pyobj → Z → result unit;
  record_error : string → exn → result unit
}.

(** The three analyses, each run in the thread pool on [(code, context)]. *)
Record Providers : Type := {
  analyze_code_context : string → pyobj → result pyobj;
  debugger_analyze_code : string → pyobj → result pyobj;
  optimize_code : string → pyobj → result pyobj
}.

(** What one call reads from its environment: the three readings of
    [datetime.utcnow()] (the last one already in ISO format) and the order
    in which the three analyses finish. *)
Record env : Type := {
  start_time : Q;
  end_time : Q;
  stamp : string;
  completion : list nat
}.

(** What a call leaves behind besides the store: log records, telemetry
    that was recorded, analyses that were started. *)
Inductive event : Type :=
| Started (analysis : string)
| LoggedInfo (msg : string)
| LoggedError (e : exn)
| RecordedAnalysis (code_size : Z) (seconds quality : pyobj) (issue_count : Z)
| RecordedError (kind : string) (e : exn).

Record world (S : Type) : Type := World {
  store : S;
  trace : list event
}.
Arguments World {S} _ _.
Arguments store {S} _.
Arguments trace {S} _.

Definition emit {S} (w : world S) (evs : list event) : world S :=
  World (store w) (trace w ++ evs).

(** [await x] for a value [x] that a plain (not [async]) method returned:
    none of the values modelled here is awaitable. *)
Definition await_plain {A} (r : result A) : result A :=
  match r with
  | Ok _ => Raise TypeError
  | Raise e => Raise e
  end.

(** [self.cache = CacheManager()], whose [get] and [set] are plain methods,
    awaited by [analyze_code]. *)
Definition manager_cache (L : Cache.pylib) : AsyncCache Cache.server := {|
  cache_get := λ s key, await_plain (Cache.get L s key PyNone);
  cache_set := λ s key value ttl,
    let '(r, s') := Cache.set L 3600 s key value (Some ttl) in
    (await_plain r, s')
|}.

(** [asyncio.gather( *tasks)]: the failure that comes first in the order of
    completion is propagated; without a failure, the results in the order
    of the tasks. *)
Fixpoint first_failure (outs : list (result pyobj)) : option exn :=
  match outs with
  | [] => None
  | Raise e :: _ => Some e
  | Ok _ :: outs' => first_failure outs'
  end.

Fixpoint values (outs : list (result pyobj)) : list pyobj :=
  match outs with
  | [] => []
  | Ok v :: outs' => v :: values outs'
  | Raise _ :: outs' => values outs'
  end.

Definition gather (completion : list nat) (outs : list (result pyobj))
  : result (list pyobj) :=
  match first_failure (omap (λ i, outs !! i) completion ++ outs) with
  | Some e => Raise e
  | None => Ok (values outs)
  end.

Section Service.

Context {S : Type}.
Context (hash : string → Z).
Context (cache : AsyncCache S).
Context (telemetry : Telemetry).
Context (providers : Providers).

(** [cache_key = f"analysis:{hash(code)}"], the fingerprint under which the
    result of a request [(code, context)] is cached. *)
Definition cache_key (code : string) (context : pyobj) : string :=
  "analysis:" +:+ pretty (hash code).

(** What the three analyses come to on [(code, context)], in the order of
    the tasks. *)
Definition provider_outcomes (code : string) (context : pyobj)
  : list (result pyobj) :=
  [analyze_code_context providers code context;
   debugger_analyze_code providers code context;
   optimize_code providers code context].

(** The [try] block of [analyze_code]. *)
Definition run_analyses (E : env) (w : world S) (code : string)
    (context : pyobj) (use_cache : bool)
  : result AnalysisResult * world S :=
  let w := emit w [Started "context"; Started "debug"; Started "optimization"] in
  let built : result AnalysisResult :=
    results ← gather (completion E) (provider_outcomes code context);
    match results with
    | [context_result; debug_result; optimization_result] =>
        quality ← py_getitem context_result "code_quality_score";
        related ← py_get context_result "related_patterns" (PyList []);
        Ok {| quality_score := quality;
              issues := debug_result;
              optimizations := optimization_result;
              patterns := related;
              execution_time := PyFloat (end_time E - start_time E);
              timestamp := PyStr (stamp E) |}
    | _ => Raise (Exn "ValueError")
    end in
  match built with
  | Raise e => (Raise e, w)
  | Ok result =>
      (* Cache result *)
      let '(cached, w) :=
        if use_cache then
          let '(r, s') := cache_set cache (store w)
                            (cache_key code context) (to_dict result) 3600 in
          (r, World s' (trace w))
        else (Ok (), w) in
      match cached with
      | Raise e => (Raise e, w)
      | Ok _ =>
          (* Record telemetry *)
          match py_len (issues result) with
          | Raise e => (Raise e, w)
          | Ok issue_count =>
              let code_size := Z.of_nat (String.length code) in
              match record_analysis telemetry code_size
                      (execution_time result) (quality_score result)
                      issue_count with
              | Raise e => (Raise e, w)
              | Ok _ =>
                  (Ok result,
                   emit w [RecordedAnalysis code_size (execution_time result)
                             (quality_score result) issue_count])
              end
          end
      end
  end.

(** The cache check of [analyze_code]: the cached value to return, if
    any. *)
Definition check_cache (w : world S) (code : string) (context : pyobj)
    (use_cache : bool) : result (option pyobj) :=
  if use_cache then
    cached_result ← cache_get cache (store w) (cache_key code context);
    Ok (if truthy cached_result then Some cached_result else None)
  else Ok None.

(** [analyze_code(code, context, use_cache)]. *)
Definition analyze_code (E : env) (w : world S) (code : string)
    (context : pyobj) (use_cache : bool)
  : result AnalysisResult * world S :=
  match check_cache w code context use_cache with
  | Raise e => (Raise e, w)
  | Ok (Some cached_result) =>
      (from_kwargs cached_result,
       emit w [LoggedInfo "Using cached analysis result"])
  | Ok None =>
      match run_analyses E w code context use_cache with
      | (Ok result, w') => (Ok result, w')
      | (Raise e, w') =>
          (* except Exception as e: log, record, re-raise *)
          let w' := emit w' [LoggedError e] in
          match record_error telemetry "analysis_failure" e with
          | Ok _ => (Raise e, emit w' [RecordedError "analysis_failure" e])
          | Raise e' => (Raise (raise_from e e'), w')
          end
      end
  end.

End Service.

End Orchestrator.


(** * Fixtures *)

(** Collaborators to run the models on: the library functions on the few
    shapes of input the examples below use, where they agree with CPython,
    and stand-ins for the analyses, the telemetry and an awaitable cache.
    Outside those shapes a library fixture raises [NotModelled], which
    no example depends on. *)

Module Fixtures.

Import Cache Orchestrator.

Definition NotModelled : exn := Exn "NotModelled".

Definition dquote : ascii := "034"%char.

Definition in_range (lo hi : N) (a : ascii) : bool :=
  ((lo <=? N_of_ascii a) && (N_of_ascii a <=? hi))%N.

Definition is_digit (a : ascii) : bool := in_range 48 57 a.

(** Letters, digits, space and underscore: characters [json.dumps] copies
    as they are. *)
Definition is_plain (a : ascii) : bool :=
  is_digit a || in_range 65 90 a || in_range 97 122 a
  || in_range 32 32 a || in_range 95 95 a.

Fixpoint string_forall (p : ascii → bool) (s : string) : bool :=
  match s with
  | EmptyString => true
  | String a s' => p a && string_forall p s'
  end.

Fixpoint digits_value (acc : N) (s : string) : option N :=
  match s with
  | EmptyString => Some acc
  | String a s' =>
      if is_digit a then digits_value (10 * acc + (N_of_ascii a - 48))%N s'
      else None
  end.

(** The integer a decimal numeral stands for, when [s] is the numeral
    [str] prints for it. *)
Definition numeral (s : string) : option Z :=
  let parsed :=
    match s with
    | EmptyString => None
    | String "-" EmptyString => None
    | String "-" s' => n ← digits_value 0 s'; Some (- Z.of_N n)%Z
    | _ => n ← digits_value 0 s; Some (Z.of_N n)
    end in
  n ← parsed; if String.eqb (pretty n) s then Some n else None.

(** The body of a string literal whose opening quote has been read. *)
Fixpoint literal_body (s : string) : option string :=
  match s with
  | EmptyString => None
  | String a s' =>
      if Ascii.eqb a dquote then
        match s' with EmptyString => Some EmptyString | _ => None end
      else if is_plain a then b ← literal_body s'; Some (String a b)
      else None
  end.

(** [json.dumps] on [None], booleans, integers, plain strings, and on an
    instance of a user-defined class, which it rejects. *)
Definition dumps (v : pyobj) : result string :=
  match v with
  | PyNone => Ok "null"
  | PyBool true => Ok "true"
  | PyBool false => Ok "false"
  | PyInt n => Ok (pretty n)
  | PyStr s =>
      if string_forall is_plain s
      then Ok (String dquote (s +:+ String dquote EmptyString))
      else Raise NotModelled
  | PyInstance _ _ => Raise TypeError
  | _ => Raise NotModelled
  end.

(** A character a JSON text can start with. *)
Definition json_start (a : ascii) : bool :=
  is_digit a
  || bool_decide (a ∈ [" "; "009"; "010"; "013"; "["; "{"; dquote; "-";
                       "t"; "f"; "n"; "N"; "I"]%char).

(** [json.loads] on the texts [dumps] produces, and on a text that cannot
    start a JSON value, which it rejects. *)
Definition loads (s : string) : result pyobj :=
  if String.eqb s "null" then Ok PyNone
  else if String.eqb s "true" then Ok (PyBool true)
  else if String.eqb s "false" then Ok (PyBool false)
  else
    match numeral s with
    | Some n => Ok (PyInt n)
    | None =>
        match s with
        | EmptyString => Raise JSONDecodeError
        | String a s' =>
            if Ascii.eqb a dquote then
              match literal_body s' with
              | Some b => Ok (PyStr b)
              | None => Raise NotModelled
              end
            else if json_start a then Raise NotModelled
            else Raise JSONDecodeError
        end
    end.

(** [pickle.loads] on the pickle of a small integer [n] (the opcode K,
    the byte [n], the stop opcode), and on bytes whose first one is a digit
    from 3 to 9, which is no opcode. *)
Definition unpickle (b : string) : result pyobj :=
  match b with
  | String "K" (String n (String "." EmptyString)) =>
      Ok (PyInt (Z.of_N (N_of_ascii n)))
  | String a _ => if in_range 51 57 a then Raise UnpicklingError
                  else Raise NotModelled
  | EmptyString => Raise NotModelled
  end.

(** [bytes.decode('utf-8')] on ASCII, and on bytes whose first non-ASCII
    one is a continuation byte. *)
Fixpoint decode (b : string) : result string :=
  match b with
  | EmptyString => Ok EmptyString
  | String a b' =>
      if in_range 0 127 a then s ← decode b'; Ok (String a s)
      else if in_range 128 191 a then Raise UnicodeDecodeError
      else Raise NotModelled
  end.

Definition cpython : pylib := {|
  json_dumps := dumps;
  json_loads := loads;
  pickle_dumps := λ _, Raise NotModelled;
  pickle_loads := unpickle;
  utf8_decode := decode
|}.

(** A telemetry collaborator that records and returns. *)
Definition recording : Telemetry := {|
  record_analysis := λ _ _ _ _, Ok ();
  record_error := λ _ _, Ok ()
|}.

(** [TelemetryManager] of [src/monitoring/telemetry.py], which defines
    neither [record_analysis] nor [record_error]: looking either up
    raises. *)
Definition TelemetryManager : Telemetry := {|
  record_analysis := λ _ _ _ _, Raise AttributeError;
  record_error := λ _ _, Raise AttributeError
|}.

(** Analyses that succeed, and the same with a failing debugger. *)
Definition healthy : Providers := {|
  analyze_code_context := λ _ _,
    Ok (PyDict [("code_quality_score", PyFloat (9 # 10));
                ("related_patterns", PyList [])]);
  debugger_analyze_code := λ _ _, Ok (PyList []);
  optimize_code := λ _ _, Ok (PyList [])
|}.

Definition ProviderFailure : exn := Exn "RuntimeError".

Definition failing_debugger : Providers := {|
  analyze_code_context := analyze_code_context healthy;
  debugger_analyze_code := λ _ _, Raise ProviderFailure;
  optimize_code := optimize_code healthy
|}.

(** A stand-in for the built-in [hash] on strings. *)
Definition length_hash (s : string) : Z := Z.of_nat (String.length s).

(** An awaitable cache over a dictionary. *)
Definition dict_cache : AsyncCache (gmap string pyobj) := {|
  cache_get := λ d key, Ok (default PyNone (d !! key));
  cache_set := λ d key value _, (Ok (), <[key := value]> d)
|}.

Definition calm : env :=
  {| start_time := 0; end_time := 1 # 2;
     stamp := "2024-01-01T00:00:00"; completion := [0; 1; 2]%nat |}.

(** Stand-ins for the MD5 digests of the cache keys: for those of the
    [cached] wrapper the number of arguments, in decimal; for the one of
    [ModelCache] 32 characters, as the hexadecimal digest has, the last of
    which tells [None] from the other values. *)
Definition count_digest {A} (xs : list A) : string :=
  pretty (Z.of_nat (length xs)).

Definition flat_digest (v : pyobj) : string :=
  "0000000000000000000000000000000"
  +:+ match v with PyNone => "0" | _ => "1" end.

(** The binary64 number that the text 1.04 names: the quotient of 104 by
    100, rounded. *)
Definition d_1_04 : SpecFloat.spec_float :=
  Script.num_div (Arith := Script.binary64)
    (Script.num_of_Z (Arith := Script.binary64) 104)
    (Script.num_of_Z (Arith := Script.binary64) 100).

End Fixtures.


(** * The rest of the three modules *)

(** ** Response headers and middleware ([src/api/rate_limiter.py]) *)

Module LimiterApi.

Import Limiter.
Local Open Scope Q_scope.

(** [int(x)] for a float [x]: the integer part, towards zero. *)
Definition py_int (q : Q) : Z := Z.quot (Qnum q) (Z.pos (Qden q)).

(** [get_rate_limit_headers(key, subscription_tier)]: the dictionary of the
    three headers, empty when reading the bucket raises. *)
Definition get_rate_limit_headers (rl : RateLimiter) (fault : option exn)
    (srv : Z) (db : gmap string hash_entry) (key subscription_tier : string)
  : list (string * string) :=
  match header_tokens rl fault srv db key subscription_tier with
  | Some tokens =>
      [("X-RateLimit-Limit"%string,
        pretty (requests_per_minute (config_of rl subscription_tier)));
       ("X-RateLimit-Remaining"%string, pretty (py_int tokens));
       ("X-RateLimit-Reset"%string, pretty 60%Z)]
  | None => []
  end.

(** What the middleware reads of a request: [request.client], which is
    [None] for a connection that has no peer address and otherwise has the
    [host], and [request.state.user.subscription_tier] when the state has
    a user (a [User] of [src/auth/auth_service.py], whose tier is a
    string). *)
Record request : Type := Request {
  client : option string;
  user_tier : option string
}.

(** [HTTPException(status_code=429, detail="Too many requests")]. *)
Definition TooManyRequests : exn := Exn "HTTPException".

(** [rate_limit_middleware(request, rate_limiter)].  Reading
    [request.client.host] raises when there is no client, before anything
    else is done.  The check and the read of the headers are two round
    trips to the store, each with its own server time and its own failure;
    the result is the dictionary put in [request.state.rate_limit_headers]. *)
Definition rate_limit_middleware (rl : RateLimiter) (req : request)
    (fault : option exn) (srv : Z) (now : Q)
    (fault' : option exn) (srv' : Z) (db : gmap string hash_entry)
  : result (list (string * string)) * gmap string hash_entry :=
  match client req with
  | None => (Raise AttributeError, db)
  | Some key =>
      let subscription_tier := default "free"%string (user_tier req) in
      let '(allowed, db') :=
        check_rate_limit rl fault srv db key subscription_tier now in
      if allowed
      then (Ok (get_rate_limit_headers rl fault' srv' db' key
                  subscription_tier),
            db')
      else (Raise TooManyRequests, db')
  end.

(** The decisions of a sequence of calls, from the store [db]. *)
Fixpoint decisions (rl : RateLimiter) (db : gmap string hash_entry)
    (calls : list call) : list bool :=
  match calls with
  | [] => []
  | c :: calls' =>
      fst (check_rate_limit rl (c_fault c) (c_srv c) db
             (c_key c) (c_tier c) (c_now c))
      :: decisions rl (step rl db c) calls'
  end.

(** The decisions of [n] calls of which the first [m] are admitted and
    the others rejected. *)
Definition first_admitted (m : Z) (n : nat) : list bool :=
  map (λ i, (Z.of_nat i <? m)%Z) (seq 0 n).

End LimiterApi.

(** ** The other operations of the cache ([src/cache/cache_manager.py]) *)

Module CacheApi.

Import Cache.

(** [EXISTS k]: the number of keys that exist. *)
Definition redis_exists (s : server) (k : string) : result Z :=
  if up s then Ok (match visible s k with Some _ => 1 | None => 0 end)%Z
  else Raise ConnectionError.

(** [CacheManager.exists(key)]: the second client is asked only when the
    first one answers 0. *)
Definition exists_ (s : server) (key : string) : result bool :=
  n ← redis_exists s key;
  if (n =? 0)%Z then m ← redis_exists s key; Ok (negb (m =? 0)%Z)
  else Ok true.

(** [CacheManager.clear()]: [FLUSHALL]. *)
Definition clear (s : server) : result unit * server :=
  if up s then (Ok (), with_db s ∅) else (Raise ConnectionError, s).

(** *** Pipelines *)

(** [pipeline.execute()] sends the queued commands as one transaction; an
    empty queue is answered without contacting the server. *)

Fixpoint collect {A B} (f : A → result B) (xs : list A) : result (list B) :=
  match xs with
  | [] => Ok []
  | x :: xs' => y ← f x; ys ← collect f xs'; Ok (y :: ys)
  end.

Definition execute_sets (s : server) (queue : list (string * string)) (ex : Z)
  : result unit * server :=
  match queue with
  | [] => (Ok (), s)
  | _ =>
      if up s then
        if (0 <? ex)%Z then
          (Ok (),
           with_db s
             (fold_left
                (λ d kv, <[fst kv := StringEntry (snd kv)
                                       (Some (clock s + 1000 * ex)%Z)]> d)
                queue (db s)))
        else (Raise ResponseError, s)
      else (Raise ConnectionError, s)
  end.

Definition execute_deletes (s : server) (queue : list string)
  : result unit * server :=
  match queue with
  | [] => (Ok (), s)
  | _ =>
      if up s then
        (Ok (), with_db s (fold_left (λ d k, base.delete k d) queue (db s)))
      else (Raise ConnectionError, s)
  end.

Section Manager.

Context (L : pylib).

(** The pipeline of [GET]s of [get_many], through [redis_client]. *)
Definition execute_gets (s : server) (queue : list string)
  : result (list (option string)) :=
  match queue with
  | [] => Ok []
  | _ => collect (redis_get_text L s) queue
  end.

(** The loop of [get_many] over [zip(keys, values)]. *)
Fixpoint get_many_loop (s : server) (pairs : list (string * option string))
    (acc : gmap string pyobj) : result (gmap string pyobj) :=
  match pairs with
  | [] => Ok acc
  | (key, None) :: pairs' => get_many_loop s pairs' acc
  | (key, Some value) :: pairs' =>
      acc' ← try_except
               (v ← json_loads L value; Ok (<[key := v]> acc))
               ["JSONDecodeError"]
               (λ _,
                  (* Try binary data *)
                  binary_value ← redis_get s key;
                  match binary_value with
                  | Some b => v ← pickle_loads L b; Ok (<[key := v]> acc)
                  | None => Ok acc
                  end);
      get_many_loop s pairs' acc'
  end.

(** [CacheManager.get_many(keys)]. *)
Definition get_many (s : server) (keys : list string)
  : result (gmap string pyobj) :=
  values ← execute_gets s keys;
  get_many_loop s (zip keys values) ∅.

(** The loop of [set_many] over [mapping.items()]: the commands queued on
    the two pipelines. *)
Fixpoint set_many_loop (items : list (string * pyobj))
    (json_queue binary_queue : list (string * string))
  : result (list (string * string) * list (string * string)) :=
  match items with
  | [] => Ok (json_queue, binary_queue)
  | (key, value) :: items' =>
      match json_dumps L value with
      | Ok serialized =>
          set_many_loop items' (json_queue ++ [(key, serialized)]) binary_queue
      | Raise e =>
          match json_getattr "JSONEncodeError" with
          | Raise e' => Raise (raise_from e e')
          | Ok encode_error =>
              if isinstance e ["TypeError"; encode_error] then
                match pickle_dumps L value with
                | Ok serialized =>
                    set_many_loop items' json_queue
                      (binary_queue ++ [(key, serialized)])
                | Raise e' => Raise (raise_from e e')
                end
              else Raise e
          end
      end
  end.

(** [CacheManager.set_many(mapping, ttl)]. *)
Definition set_many (default_ttl : Z) (s : server)
    (mapping : list (string * pyobj)) (ttl : option Z)
  : result unit * server :=
  let ttl := default default_ttl ttl in
  match set_many_loop mapping [] [] with
  | Raise e => (Raise e, s)
  | Ok (json_queue, binary_queue) =>
      match execute_sets s json_queue ttl with
      | (Ok _, s') => execute_sets s' binary_queue ttl
      | (Raise e, s') => (Raise e, s')
      end
  end.

(** [CacheManager.delete_many(keys)]. *)
Definition delete_many (s : server) (keys : list string)
  : result unit * server :=
  match execute_deletes s keys with
  | (Ok _, s') => execute_deletes s' keys
  | (Raise e, s') => (Raise e, s')
  end.

(** *** The [cached] decorator *)

(** [md5(str(args).encode()).hexdigest()] and the same of
    [str(sorted(kwargs.items()))]. *)
Context (digest_args : list pyobj → string).
Context (digest_kwargs : list (string * pyobj) → string).

(** [sep.join(parts)]. *)
Fixpoint join (sep : string) (parts : list string) : string :=
  match parts with
  | [] => EmptyString
  | [p] => p
  | p :: parts' => p +:+ sep +:+ join sep parts'
  end.

Definition wrapper_key (key_prefix name : string) (args : list pyobj)
    (kwargs : list (string * pyobj)) : string :=
  join ":" ([key_prefix; name]
            ++ match args with [] => [] | _ => [digest_args args] end
            ++ match kwargs with [] => [] | _ => [digest_kwargs kwargs] end).

(** The wrapper [cached(ttl, key_prefix)] puts around a function named
    [name]: the value returned or the exception raised, the store, and how
    many times the function was called. *)
Definition cached (ttl : option Z) (key_prefix name : string)
    (func : list pyobj → list (string * pyobj) → result pyobj)
    (s : server) (args : list pyobj) (kwargs : list (string * pyobj))
  : result pyobj * server * nat :=
  let cache_key := wrapper_key key_prefix name args kwargs in
  (* Try to get from cache *)
  match get L s cache_key PyNone with
  | Raise e => (Raise e, s, 0%nat)
  | Ok PyNone =>
      (* Call function and cache result *)
      match func args kwargs with
      | Raise e => (Raise e, s, 1%nat)
      | Ok r =>
          match set L 3600 s cache_key r ttl with
          | (Ok _, s') => (Ok r, s', 1%nat)
          | (Raise e, s') => (Raise e, s', 1%nat)
          end
      end
  | Ok cached_value => (Ok cached_value, s, 0%nat)
  end.

(** *** [ModelCache] *)

(** [md5(str(input_data).encode()).hexdigest()]. *)
Context (digest : pyobj → string).

Definition _get_prediction_key (model_name : string) (input_data : pyobj)
  : string :=
  "model:" +:+ model_name +:+ ":prediction:" +:+ digest input_data.

Definition get_model_prediction (s : server) (model_name : string)
    (input_data : pyobj) : result pyobj :=
  get L s (_get_prediction_key model_name input_data) PyNone.

(** [ttl] is the one the [ModelCache] was built with, the default of its
    manager. *)
Definition set_model_prediction (ttl : Z) (s : server) (model_name : string)
    (input_data prediction : pyobj) : result unit * server :=
  set L ttl s (_get_prediction_key model_name input_data) prediction None.

End Manager.

End CacheApi.

(** ** Warm-up ([src/ai_core/service_manager.py]) *)

Module ServiceApi.

Import Orchestrator.

(** [warm_up_models()]: one analysis of a sample, the cache not used. *)
Definition warm_up_models {S : Type} (hash : string → Z)
    (cache : AsyncCache S) (telemetry : Telemetry) (providers : Providers)
    (E : env) (w : world S) : result unit * world S :=
  let sample_code := "def hello(): return 'world'"%string in
  match analyze_code hash cache telemetry providers E w sample_code PyNone
          false with
  | (Ok _, w') => (Ok (), w')
  | (Raise e, w') => (Raise e, w')
  end.

End ServiceApi.


(** * Properties of the rate limiter *)

Module LimiterFacts.

Import Limiter.
Local Open Scope Q_scope.

(** ** Arithmetic of the script *)

Lemma math_min_le_l (a b : Q) : math_min a b <= a.
Proof. unfold math_min. destruct (Qlt_le_dec b a); lra. Qed.



(** ** Shape of the stored buckets *)


Lemma visible_Some srv db k e :
  visible srv db k = Some e → db !! k = Some e ∧ live srv e = true.
Proof.
  unfold visible. destruct (db !! k) as [e'|]; [|done].
  destruct (live srv e') eqn:Hl; [|done]. by intros [= ->].
Qed.

Lemma visible_insert_live srv db k e :
  live srv e = true → visible srv (<[k := e]> db) k = Some e.
Proof. intros Hl. unfold visible. by rewrite lookup_insert_eq, Hl. Qed.

Lemma hset_bucket_fields (fs : list (string * Q)) (t l : Q) :
  fs = [] ∨ (∃ t0 l0, fs = bucket_fields t0 l0) →
  hset "last_update" l (hset "tokens" t fs) = bucket_fields t l.
Proof. intros [->|(t0 & l0 & ->)]; reflexivity. Qed.

(** What a successful consume writes: the two fields, and a deadline one
    window after the server time. *)
Lemma hmset_expire srv db bk t l :
  (∀ e, visible srv db bk = Some e → well_shaped e) →
  expire srv (hmset srv db bk (bucket_fields t l)) bk window
  = <[bk := HashEntry (bucket_fields t l) (Some (srv + 60000)%Z)]> db.
Proof.
  intros Hshape. unfold hmset, expire.
  set (old := match visible srv db bk with Some e => e | None => HashEntry [] None end).
  assert (Hlive : live srv old = true).
  { subst old. destruct (visible srv db bk) as [e|] eqn:Hv; [|done].
    by apply visible_Some in Hv as [_ ?]. }
  assert (Hf : fields old = [] ∨ ∃ t0 l0, fields old = bucket_fields t0 l0).
  { subst old. destruct (visible srv db bk) as [e|] eqn:Hv; [|by left].
    right. by apply Hshape. }
  rewrite visible_insert_live by (unfold live in *; done).
  cbn [fold_left bucket_fields fst snd fields].
  rewrite insert_insert_eq.
  change (fold_left _ _ _) with (hset "last_update" l (hset "tokens" t (fields old))).
  by rewrite (hset_bucket_fields _ t l Hf).
Qed.

Lemma hgetall_shaped srv db bk e t l :
  visible srv db bk = Some e → fields e = bucket_fields t l →
  hgetall srv db bk = [LStr "tokens"; LNum t; LStr "last_update"; LNum l].
Proof. intros Hv Hf. unfold hgetall. by rewrite Hv, Hf. Qed.

Lemma bucket_state_shaped srv db bk e t l :
  visible srv db bk = Some e → fields e = bucket_fields t l →
  bucket_state srv db bk = Some (t, l).
Proof. intros Hv Hf. unfold bucket_state. by rewrite Hv, Hf. Qed.

(** The script on a bucket of the expected shape, or on a missing one. *)
Lemma lua_script_unfold srv db bk now rate burst :
  (∀ e, visible srv db bk = Some e → well_shaped e) →
  lua_script srv db bk now rate burst =
    let '(tokens, last_update) :=
      default (burst, 0) (bucket_state srv db bk) in
    let refilled :=
      math_min burst (tokens + rate * (now - last_update) / inject_Z window) in
    Some (if Qle_bool 1 refilled
          then (1%Z, <[bk := HashEntry (bucket_fields (refilled - 1) now)
                               (Some (srv + 60000)%Z)]> db)
          else (0%Z, db)).
Proof.
  intros Hshape.
  pose proof (λ t l, hmset_expire srv db bk t l Hshape) as Hw.
  unfold lua_script.
  destruct (visible srv db bk) as [e|] eqn:Hv.
  - destruct (Hshape e eq_refl) as (t & l & Hf).
    rewrite (hgetall_shaped _ _ _ _ _ _ Hv Hf),
            (bucket_state_shaped _ _ _ _ _ _ Hv Hf).
    cbn [index nth Nat.sub lua_or tonumber default from_option id].
    destruct (Qle_bool 1 _); [|done].
    by rewrite <- Hw.
  - unfold hgetall, bucket_state. rewrite Hv.
    cbn [index nth Nat.sub lua_or tonumber default from_option id].
    destruct (Qle_bool 1 _); [|done].
    by rewrite <- Hw.
Qed.

(** ** Frame and locality of one call *)

Lemma write_frame srv db bk updates secs k :
  k ≠ bk → expire srv (hmset srv db bk updates) bk secs !! k = db !! k.
Proof.
  intros Hne. unfold expire.
  destruct (visible srv (hmset srv db bk updates) bk);
    unfold hmset; by rewrite ?lookup_insert_ne.
Qed.

Lemma lua_script_frame srv db bk now rate burst reply db' k :
  lua_script srv db bk now rate burst = Some (reply, db') →
  k ≠ bk → db' !! k = db !! k.
Proof.
  unfold lua_script. intros H Hne.
  destruct (tonumber _) as [tokens|]; [|done].
  destruct (tonumber _) as [last_update|]; [|done].
  destruct (Qle_bool 1 _); simplify_eq; [|done].
  by apply write_frame.
Qed.

(** A call changes no bucket but its own. *)
Lemma step_frame rl db c k :
  k ≠ bucket_of rl c → step rl db c !! k = db !! k.
Proof.
  intros Hne. unfold step, check_rate_limit, redis_eval.
  destruct (c_fault c); [done|].
  destruct (lua_script _ _ _ _ _ _) as [[reply db']|] eqn:Hs; [|done].
  cbn. eapply lua_script_frame; [exact Hs|exact Hne].
Qed.

Lemma visible_local srv db1 db2 k :
  db1 !! k = db2 !! k → visible srv db1 k = visible srv db2 k.
Proof. unfold visible. by intros ->. Qed.

(** The reply of the script depends on the store through its bucket only. *)
Lemma lua_script_local srv db1 db2 bk now rate burst :
  db1 !! bk = db2 !! bk →
  fst <$> lua_script srv db1 bk now rate burst
  = fst <$> lua_script srv db2 bk now rate burst.
Proof.
  intros H. unfold lua_script, hgetall.
  rewrite (visible_local srv db1 db2 bk H).
  destruct (tonumber _) as [tokens|]; [|done].
  destruct (tonumber _) as [last_update|]; [|done].
  by destruct (Qle_bool 1 _).
Qed.

Lemma check_rate_limit_local rl fault srv db1 db2 key tier now :
  db1 !! bucket_key (config_of rl tier) key
  = db2 !! bucket_key (config_of rl tier) key →
  fst (check_rate_limit rl fault srv db1 key tier now)
  = fst (check_rate_limit rl fault srv db2 key tier now).
Proof.
  intros H. unfold check_rate_limit, redis_eval.
  destruct fault; [done|].
  pose proof (lua_script_local srv db1 db2 _ now
                (inject_Z (requests_per_minute (config_of rl tier)))
                (inject_Z (burst_size (config_of rl tier))) H) as Hl.
  destruct (lua_script srv db1 _ _ _ _) as [[r1 d1]|],
           (lua_script srv db2 _ _ _ _) as [[r2 d2]|];
    cbn in Hl; simplify_eq; done.
Qed.

(** ** The configured tiers *)


Lemma config_of_cases (tier : string) :
  (tier = "free"%string ∧ config_of (init None) tier = free_config) ∨
  (tier = "pro"%string ∧ config_of (init None) tier = pro_config) ∨
  (tier = "enterprise"%string ∧ config_of (init None) tier = enterprise_config) ∨
  (tier_configs (init None) !! tier = None
   ∧ config_of (init None) tier = fallback_config).
Proof.
  unfold config_of, init; cbn [tier_configs default_config].
  rewrite !lookup_insert, lookup_empty.
  repeat case_decide; subst; cbn; auto 10.
Qed.

Lemma capacity_nonneg (tier : string) :
  (0 <= burst_size (config_of (init None) tier))%Z.
Proof.
  destruct (config_of_cases tier) as [[_ ->]|[[_ ->]|[[_ ->]|[_ ->]]]];
    cbn; lia.
Qed.

(** Calls under configured tiers that address the same bucket are calls
    under the same tier, so that they have the same capacity. *)
Lemma configured_tiers_same_capacity (c c' : call) :
  is_Some (tier_configs (init None) !! c_tier c) →
  is_Some (tier_configs (init None) !! c_tier c') →
  bucket_of (init None) c' = bucket_of (init None) c →
  capacity_of (init None) c' = capacity_of (init None) c.
Proof.
  unfold bucket_of, capacity_of. intros [x Hc] [x' Hc'] Heq.
  destruct (config_of_cases (c_tier c)) as [[_ H]|[[_ H]|[[_ H]|[Hn H]]]];
    [| | |congruence];
  destruct (config_of_cases (c_tier c')) as [[_ H']|[[_ H']|[[_ H']|[Hn' H']]]];
    [| | |congruence| | | |congruence| | | |congruence];
  rewrite H, H' in *; try reflexivity;
  cbv in Heq; by simplify_eq.
Qed.

(** ** Stores reachable from the empty one *)


Lemma written_by_shape rl calls db srv bk :
  written_by rl calls db → ∀ e, visible srv db bk = Some e → well_shaped e.
Proof.
  intros Hw e Hv. apply visible_Some in Hv as [Hl _].
  destruct (Hw _ _ Hl) as (c & t & l & _ & _ & Hf & _). by exists t, l.
Qed.

Lemma written_by_step rl calls db c :
  written_by rl calls db → written_by rl (calls ++ [c]) (step rl db c).
Proof.
  intros Hw.
  assert (Hold : written_by rl (calls ++ [c]) db).
  { intros bk e Hl. destruct (Hw _ _ Hl) as (c' & t & l & Hin & H).
    exists c', t, l. split; [|exact H]. apply elem_of_app. by left. }
  unfold step, check_rate_limit, redis_eval.
  destruct (c_fault c); [exact Hold|].
  rewrite lua_script_unfold by (by eapply written_by_shape).
  destruct (default _ _) as [tokens last_update]. cbv zeta.
  match goal with |- context [Qle_bool 1 ?r] => set (refilled := r) end.
  destruct (Qle_bool 1 refilled) eqn:Hle; [|exact Hold].
  apply Qle_bool_iff in Hle. cbn [snd].
  intros bk e. rewrite lookup_insert. case_decide as Hk.
  - intros [= <-]. subst bk.
    eexists c, _, _. split; [apply elem_of_app; right; by apply list_elem_of_singleton|].
    split; [done|]. split; [done|]. split; [lra|].
    pose proof (math_min_le_l (inject_Z (burst_size (config_of rl (c_tier c))))
                  (tokens + inject_Z (requests_per_minute (config_of rl (c_tier c)))
                            * (c_now c - last_update) / inject_Z window)).
    unfold capacity_of. fold refilled in H. lra.
  - apply Hold.
Qed.

Lemma run_snoc rl calls c :
  run rl (calls ++ [c]) = step rl (run rl calls) c.
Proof. unfold run. by rewrite fold_left_app. Qed.

Lemma written_by_run rl calls : written_by rl calls (run rl calls).
Proof.
  induction calls as [|c calls IH] using rev_ind.
  - intros bk e. unfold run. cbn. by rewrite lookup_empty.
  - rewrite run_snoc. by apply written_by_step.
Qed.

Lemma hget_tokens t l : hget "tokens" (bucket_fields t l) = Some t.
Proof. reflexivity. Qed.

(** C3 (amended).  For every sequence of calls that starts from the empty
    store, the token count read back after the last call (the one the
    response headers report) lies between zero and the burst capacity of
    the tier of that call, provided the earlier calls that address the same
    bucket record have the same capacity, as calls under the configured
    tiers have. *)
Theorem tokens_within_burst (calls : list call) (c : call) (srv : Z) :
  (∀ c', c' ∈ calls →
         bucket_of (init None) c' = bucket_of (init None) c →
         capacity_of (init None) c' = capacity_of (init None) c) →
  ∃ tokens,
    header_tokens (init None) None srv (run (init None) (calls ++ [c]))
      (c_key c) (c_tier c) = Some tokens
    ∧ 0 <= tokens ∧ tokens <= inject_Z (capacity_of (init None) c).
Proof.
  intros Hsame. eexists. split; [reflexivity|].
  pose proof (written_by_run (init None) (calls ++ [c])) as Hw.
  pose proof (capacity_nonneg (c_tier c)) as Hcap.
  unfold hgetall_dict.
  destruct (visible srv _ _) as [e|] eqn:Hv; cbn [hget default from_option id].
  - apply visible_Some in Hv as [Hl _].
    destruct (Hw _ _ Hl) as (c' & t & l & Hin & Hbk & Hf & H0 & H1).
    rewrite Hf, hget_tokens. cbn [default from_option id].
    assert (capacity_of (init None) c' = capacity_of (init None) c) as Hc.
    { apply elem_of_app in Hin as [Hin|Hin].
      - apply Hsame; [done|]. symmetry. exact Hbk.
      - apply list_elem_of_singleton in Hin. by subst. }
    rewrite Hc in H1. split; [done|]. lra.
  - unfold capacity_of. split; [|lra].
    change 0 with (inject_Z 0). rewrite <- Zle_Qle. exact Hcap.
Qed.

(** A burst of eleven calls of client "c1" under tier free, with one call
    under tier pro in between: the bound holds after the last one. *)
Lemma tokens_within_burst_witness :
  let calls :=
    replicate 10 (Call "c1" "free" 1000 1000000 None)
    ++ [Call "c1" "pro" 1000 1000000 None] in
  let c := Call "c1" "free" 1000 1000000 None in
  (∀ c', c' ∈ calls →
         bucket_of (init None) c' = bucket_of (init None) c →
         capacity_of (init None) c' = capacity_of (init None) c)
  ∧ ∃ tokens,
      header_tokens (init None) None 1000000 (run (init None) (calls ++ [c]))
        (c_key c) (c_tier c) = Some tokens
      ∧ 0 <= tokens ∧ tokens <= inject_Z (capacity_of (init None) c).
Proof.
  intros calls c.
  assert (H : ∀ c', c' ∈ calls →
                bucket_of (init None) c' = bucket_of (init None) c →
                capacity_of (init None) c' = capacity_of (init None) c).
  { intros c' Hin Hbk. subst calls. cbn in Hin.
    repeat (apply elem_of_cons in Hin as [->|Hin]; [try reflexivity|]);
      [|by apply elem_of_nil in Hin].
    exfalso. vm_compute in Hbk. discriminate Hbk. }
  split; [exact H|exact (tokens_within_burst calls c 1000000 H)].
Defined.

(** C3 (counterexample).  A bucket key is the prefix of the configuration
    and the key of the client joined by a colon, so that client "x" under
    tier pro and client "pro:x" under a tier without configuration (the
    default configuration: prefix "rate_limit", capacity 10) share the
    record "rate_limit:pro:x".  After one call of the first the record
    holds 49 tokens.  A call of the second whose client clock is 100 s
    behind is rejected and writes nothing, and so does one whose round trip
    to the store fails: the count read back after either, for the client
    and the tier of that call, is 49, above the capacity of 10. *)
Lemma tokens_exceed_shared_bucket :
  let rl := init None in
  let first := Call "x" "pro" 1000 1000000 None in
  let late := Call "pro:x" "gold" 900 1000001 None in
  let failed := Call "pro:x" "gold" 1000 1000001 (Some ConnectionError) in
  (bucket_of rl first = "rate_limit:pro:x"%string
   ∧ bucket_of rl late = "rate_limit:pro:x"%string
   ∧ bucket_of rl failed = "rate_limit:pro:x"%string)
  ∧ (capacity_of rl first = 50%Z ∧ capacity_of rl late = 10%Z
     ∧ capacity_of rl failed = 10%Z)
  ∧ header_tokens rl None 1000001 (run rl [first]) "pro:x" "gold" = Some 49
  ∧ fst (check_rate_limit rl None 1000001 (run rl [first]) "pro:x" "gold" 900)
    = false
  ∧ header_tokens rl None 1000001 (run rl ([first] ++ [late]))
      (c_key late) (c_tier late) = Some 49
  ∧ header_tokens rl None 1000001 (run rl ([first] ++ [failed]))
      (c_key failed) (c_tier failed) = Some 49
  ∧ inject_Z (capacity_of rl late) < 49.
Proof.
  intros rl first late failed. split_and!; vm_compute; reflexivity.
Qed.

(** ** The consume operation against its specification *)

(** C2 (counterexample).  Two calls on the stored bucket of client "c1":
    - the bucket holds no token and half a second has passed: the script
      rejects and leaves the record as it was, where the specified
      operation persists the refilled count and the new time stamp;
    - the bucket holds five tokens and the client clock is a minute behind
      the stored time stamp: the script rejects, where the specified
      operation clamps the elapsed time and allows. *)
Lemma consume_differs_from_spec :
  let bk := "rate_limit:free:c1"%string in
  let db0 := {[ bk := HashEntry (bucket_fields 0 100) (Some 160000%Z) ]} in
  let db5 := {[ bk := HashEntry (bucket_fields 5 100) (Some 160000%Z) ]} in
  (lua_script 100500 db0 bk (201 # 2) 60 10 = Some (0%Z, db0)
   ∧ bucket_state 100500 db0 bk = Some (0, 100)
   ∧ fst (consume_spec (Some (0, 100)) (201 # 2) 60 10 60) = false
   ∧ fst (snd (consume_spec (Some (0, 100)) (201 # 2) 60 10 60)) == 1 # 2
   ∧ snd (snd (consume_spec (Some (0, 100)) (201 # 2) 60 10 60)) == 201 # 2)
  ∧ (lua_script 100500 db5 bk 40 60 10 = Some (0%Z, db5)
     ∧ bucket_state 100500 db5 bk = Some (5, 100)
     ∧ fst (consume_spec (Some (5, 100)) 40 60 10 60) = true).
Proof. intros bk db0 db5. split_and!; vm_compute; reflexivity. Qed.

(** ** Tiers and buckets *)


Lemma steps_frame rl calls db k :
  (∀ c, c ∈ calls → k ≠ bucket_of rl c) →
  fold_left (step rl) calls db !! k = db !! k.
Proof.
  revert db. induction calls as [|c calls IH]; intros db Hne; [done|].
  cbn [fold_left]. rewrite IH.
  - apply step_frame. apply Hne. by left.
  - intros c' Hin. apply Hne. by right.
Qed.

Lemma distinct_buckets (key tierA tierB : string) :
  tierA ≠ tierB →
  is_Some (tier_configs (init None) !! tierA)
  ∨ is_Some (tier_configs (init None) !! tierB) →
  bucket_key (config_of (init None) tierA) key
  ≠ bucket_key (config_of (init None) tierB) key.
Proof.
  intros Hne Hknown Heq.
  destruct (config_of_cases tierA) as [[-> HA]|[[-> HA]|[[-> HA]|[HnA HA]]]];
  destruct (config_of_cases tierB) as [[-> HB]|[[-> HB]|[[-> HB]|[HnB HB]]]];
    try done; rewrite HA, HB in Heq; cbv in Heq.
  all: try (destruct Hknown as [[? Hk]|[? Hk]]; congruence).
  all: simplify_eq.
  all: apply (f_equal String.length) in Heq; simpl in Heq; lia.
Qed.

(** C7 (counterexample).  "gold" and "silver" are distinct tiers, neither
    of them configured: both fall back to the default configuration, whose
    prefix gives client "c1" one bucket.  A first "silver" call is allowed
    on the empty store and rejected after ten "gold" calls of the same
    client. *)
Lemma unknown_tiers_share_bucket :
  let rl := init None in
  let gold := replicate 10 (Call "c1" "gold" 1000 1000000 None) in
  "gold"%string ≠ "silver"%string
  ∧ bucket_key (config_of rl "gold") "c1"
    = bucket_key (config_of rl "silver") "c1"
  ∧ fst (check_rate_limit rl None 1000000 ∅ "c1" "silver" 1000) = true
  ∧ fst (check_rate_limit rl None 1000000 (fold_left (step rl) gold ∅)
           "c1" "silver" 1000) = false.
Proof. intros rl gold. split_and!; [done|vm_compute; reflexivity..]. Qed.

(** C7 (amended).  For every client key and every two distinct tiers at
    least one of which is configured (free, pro, enterprise), under the
    built-in default configuration: the two bucket keys differ, calls of
    the client under the one tier leave the bucket record of the other as
    it was, and the decision of a call under the other tier is the same
    with and without them. *)
Theorem tier_isolation (key tierA tierB : string) (callsA : list call)
    (db : gmap string hash_entry) (fault : option exn) (srv : Z) (now : Q) :
  tierA ≠ tierB →
  is_Some (tier_configs (init None) !! tierA)
  ∨ is_Some (tier_configs (init None) !! tierB) →
  calls_of key tierA callsA →
  let rl := init None in
  let bucketA := bucket_key (config_of rl tierA) key in
  let bucketB := bucket_key (config_of rl tierB) key in
  bucketA ≠ bucketB
  ∧ fold_left (step rl) callsA db !! bucketB = db !! bucketB
  ∧ fst (check_rate_limit rl fault srv (fold_left (step rl) callsA db)
           key tierB now)
    = fst (check_rate_limit rl fault srv db key tierB now).
Proof.
  intros Hne Hknown Hcalls rl bucketA bucketB.
  pose proof (distinct_buckets key tierA tierB Hne Hknown) as Hbk.
  assert (Hframe : fold_left (step rl) callsA db !! bucketB = db !! bucketB).
  { apply steps_frame. intros c Hin. destruct (Hcalls c Hin) as [Hk Ht].
    unfold bucket_of. rewrite Hk, Ht. intros Heq. by apply Hbk. }
  split; [exact Hbk|]. split; [exact Hframe|].
  by apply check_rate_limit_local.
Qed.

(** Client "c1" under pro and under free: ten calls under pro leave the
    free bucket alone. *)
Lemma tier_isolation_witness :
  let rl := init None in
  let callsA := replicate 10 (Call "c1" "pro" 1000 1000000 None) in
  ("pro"%string ≠ "free"%string
   ∧ (is_Some (tier_configs rl !! "pro") ∨ is_Some (tier_configs rl !! "free"))
   ∧ calls_of "c1" "pro" callsA)
  ∧ (bucket_key (config_of rl "pro") "c1" ≠ bucket_key (config_of rl "free") "c1"
     ∧ fold_left (step rl) callsA ∅ !! bucket_key (config_of rl "free") "c1"
       = (∅ : gmap string hash_entry) !! bucket_key (config_of rl "free") "c1"
     ∧ fst (check_rate_limit rl None 1000000 (fold_left (step rl) callsA ∅)
              "c1" "free" 1000)
       = fst (check_rate_limit rl None 1000000 ∅ "c1" "free" 1000)).
Proof.
  intros rl callsA.
  assert (H1 : "pro"%string ≠ "free"%string) by discriminate.
  assert (H2 : is_Some (tier_configs rl !! "pro")
               ∨ is_Some (tier_configs rl !! "free")).
  { left. eexists. reflexivity. }
  assert (H3 : calls_of "c1" "pro" callsA).
  { intros c Hin. subst callsA. cbn in Hin.
    repeat (apply elem_of_cons in Hin as [->|Hin]; [by split|]).
    by apply elem_of_nil in Hin. }
  split; [by split_and!|].
  exact (tier_isolation "c1" "pro" "free" callsA ∅ None 1000000 1000 H1 H2 H3).
Defined.

(** ** Store failures *)

(** C9.  Whatever exception the client raises during the check (the store
    cannot be reached, the script fails), [check_rate_limit] returns [True]
    and leaves the store as it was: it neither rejects nor raises.  In
    particular so for [ConnectionError]. *)
Theorem fail_open (rl : RateLimiter) (srv : Z) (db : gmap string hash_entry)
    (key tier : string) (now : Q) :
  (∀ e, check_rate_limit rl (Some e) srv db key tier now = (true, db))
  ∧ check_rate_limit rl (Some ConnectionError) srv db key tier now = (true, db)
  ∧ match lua_script srv db (bucket_key (config_of rl tier) key) now
            (inject_Z (requests_per_minute (config_of rl tier)))
            (inject_Z (burst_size (config_of rl tier))) with
    | None => check_rate_limit rl None srv db key tier now = (true, db)
    | Some (reply, db') =>
        check_rate_limit rl None srv db key tier now
        = (negb (reply =? 0)%Z, db')
    end.
Proof.
  split; [done|]. split; [done|].
  unfold check_rate_limit, redis_eval.
  by destruct (lua_script _ _ _ _ _ _) as [[reply db']|].
Qed.

End LimiterFacts.


(** * Properties of the script in the arithmetic of Lua *)

Module ScriptFacts.

Import SpecFloat Script.

Section Generic.

Context {N : Type} {A : Arith N}.

Lemma script_visible_Some srv (db : gmap string (hash_entry N)) k e :
  visible srv db k = Some e → db !! k = Some e ∧ live srv e = true.
Proof.
  unfold visible. destruct (db !! k) as [e'|]; [|done].
  destruct (live srv e') eqn:Hl; [|done]. by intros [= ->].
Qed.

Lemma script_visible_insert_live srv (db : gmap string (hash_entry N)) k e :
  live srv e = true → visible srv (<[k := e]> db) k = Some e.
Proof. intros Hl. unfold visible. by rewrite lookup_insert_eq, Hl. Qed.

Lemma script_hset_bucket_fields (fs : list (string * N)) (t l : N) :
  fs = [] ∨ (∃ t0 l0, fs = bucket_fields t0 l0) →
  hset "last_update" l (hset "tokens" t fs) = bucket_fields t l.
Proof. intros [->|(t0 & l0 & ->)]; reflexivity. Qed.

Lemma script_hmset_expire srv (db : gmap string (hash_entry N)) bk t l :
  (∀ e, visible srv db bk = Some e → well_shaped e) →
  expire srv (hmset srv db bk (bucket_fields t l)) bk window
  = <[bk := HashEntry (bucket_fields t l) (Some (srv + 60000)%Z)]> db.
Proof.
  intros Hshape. unfold hmset, expire.
  set (old := match visible srv db bk with
              | Some e => e
              | None => HashEntry [] None
              end).
  assert (Hlive : live srv old = true).
  { subst old. destruct (visible srv db bk) as [e|] eqn:Hv; [|done].
    by apply script_visible_Some in Hv as [_ ?]. }
  assert (Hf : fields old = [] ∨ ∃ t0 l0, fields old = bucket_fields t0 l0).
  { subst old. destruct (visible srv db bk) as [e|] eqn:Hv; [|by left].
    right. by apply Hshape. }
  rewrite script_visible_insert_live by (unfold live in *; done).
  cbn [fold_left bucket_fields fst snd fields].
  rewrite insert_insert_eq.
  change (fold_left _ _ _)
    with (hset "last_update" l (hset "tokens" t (fields old))).
  by rewrite (script_hset_bucket_fields _ t l Hf).
Qed.

(** C2 (amended).  On a key that holds a bucket record or nothing, in the
    arithmetic of the script (binary64, every operation rounded; the
    statement holds for any arithmetic), consume reads (tokens,
    lastUpdate), (burst, 0) when there is no record, takes elapsed = now -
    lastUpdate without clamping it and refilled = min(burst, tokens +
    (rate*elapsed)/60).  If 1 <= refilled it replies 1, persists
    (refilled - 1, now) under the key with a deadline one window (60 s)
    after the server time and changes no other key; otherwise it replies 0
    and leaves the store as it was. *)
Theorem consume_as_implemented (srv : Z) (db : gmap string (hash_entry N))
    (bk : string) (now rate burst : N) :
  (∀ e, visible srv db bk = Some e → well_shaped e) →
  let stored := default (burst, num_of_Z 0) (bucket_state srv db bk) in
  let elapsed := num_sub now (snd stored) in
  let refilled :=
    math_min burst
      (num_add (fst stored) (num_div (num_mul rate elapsed) (num_of_Z 60))) in
  ∃ reply db',
    lua_script srv db bk now rate burst = Some (reply, db')
    ∧ if num_le (num_of_Z 1) refilled
      then reply = 1%Z
           ∧ bucket_state srv db' bk
             = Some (num_sub refilled (num_of_Z 1), now)
           ∧ deadline <$> db' !! bk = Some (Some (srv + 1000 * window)%Z)
           ∧ ∀ k, k ≠ bk → db' !! k = db !! k
      else reply = 0%Z ∧ db' = db.
Proof.
  intros Hshape stored elapsed refilled.
  pose proof (λ t l, script_hmset_expire srv db bk t l Hshape) as Hw.
  assert (Hread :
    tonumber (lua_or (index (hgetall srv db bk) 2) (LNum burst))
    = Some (fst stored)
    ∧ tonumber (lua_or (index (hgetall srv db bk) 4) (LNum (num_of_Z 0)))
      = Some (snd stored)).
  { subst stored. unfold hgetall, bucket_state.
    destruct (visible srv db bk) as [e|] eqn:Hv; [|done].
    destruct (Hshape e eq_refl) as (t & l & Hf). by rewrite Hf. }
  destruct Hread as [Htokens Hlast].
  unfold lua_script. rewrite Htokens, Hlast. cbv zeta.
  change (math_min burst
            (num_add (fst stored)
               (num_div (num_mul rate (num_sub now (snd stored)))
                  (num_of_Z window))))
    with refilled.
  destruct (num_le (num_of_Z 1) refilled); eexists _, _;
    (split; [reflexivity|]); [|done].
  change [("tokens"%string, num_sub refilled (num_of_Z 1));
          ("last_update"%string, now)]
    with (bucket_fields (num_sub refilled (num_of_Z 1)) now).
  rewrite Hw. split; [done|]. split.
  { unfold bucket_state. by rewrite script_visible_insert_live by (cbn; lia). }
  split; [by rewrite lookup_insert_eq|].
  intros k Hk. by rewrite lookup_insert_ne.
Qed.

End Generic.

(** ** The two arithmetics *)

(** With the exact arithmetic, the script is the script of [Limiter]. *)

Lemma hset_of_limiter (f : string) (v : Q) (fs : list (string * Q)) :
  hset f v fs = Limiter.hset f v fs.
Proof. induction fs as [|[f' v'] fs IH]; cbn; [done|]. by rewrite IH. Qed.

Lemma visible_of_limiter srv (db : gmap string Limiter.hash_entry) k :
  visible srv (of_limiter <$> db) k = of_limiter <$> Limiter.visible srv db k.
Proof.
  unfold visible, Limiter.visible. rewrite lookup_fmap.
  destruct (db !! k) as [e|]; cbn; [|done].
  change (live srv (of_limiter e)) with (Limiter.live srv e).
  by destruct (Limiter.live srv e).
Qed.

Lemma read_of_limiter srv (db : gmap string Limiter.hash_entry) k i d :
  tonumber (lua_or (index (hgetall srv (of_limiter <$> db) k) i) (LNum d))
  = Limiter.tonumber
      (Limiter.lua_or (Limiter.index (Limiter.hgetall srv db k) i)
         (Limiter.LNum d)).
Proof.
  assert (Hall : hgetall srv (of_limiter <$> db) k
                 = map lua_of_limiter (Limiter.hgetall srv db k)).
  { unfold hgetall, Limiter.hgetall. rewrite visible_of_limiter.
    destruct (Limiter.visible srv db k) as [e|]; cbn; [|done].
    induction (Limiter.fields e) as [|[f v] fs IH]; cbn; [done|].
    by rewrite IH. }
  rewrite Hall. unfold index, Limiter.index.
  change (@LNil Q) with (lua_of_limiter Limiter.LNil). rewrite map_nth.
  by destruct (nth _ _ _).
Qed.

Lemma hmset_of_limiter srv (db : gmap string Limiter.hash_entry) k updates :
  hmset srv (of_limiter <$> db) k updates
  = of_limiter <$> Limiter.hmset srv db k updates.
Proof.
  unfold hmset, Limiter.hmset. rewrite visible_of_limiter, fmap_insert.
  f_equal. unfold of_limiter at 3. cbn [Limiter.fields Limiter.deadline].
  assert (Hfold : ∀ fs,
            fold_left (λ fs fv, hset (fst fv) (snd fv) fs) updates fs
            = fold_left (λ fs fv, Limiter.hset (fst fv) (snd fv) fs)
                updates fs).
  { induction updates as [|[f v] updates IH]; intros fs; cbn; [done|].
    by rewrite hset_of_limiter, IH. }
  rewrite Hfold. by destruct (Limiter.visible srv db k).
Qed.

Lemma expire_of_limiter srv (db : gmap string Limiter.hash_entry) k secs :
  expire srv (of_limiter <$> db) k secs
  = of_limiter <$> Limiter.expire srv db k secs.
Proof.
  unfold expire, Limiter.expire. rewrite visible_of_limiter.
  destruct (Limiter.visible srv db k) as [e|]; cbn; [|done].
  by rewrite fmap_insert.
Qed.

Lemma exact_script srv (db : gmap string Limiter.hash_entry) bk now rate
    burst :
  lua_script (A := exact) srv (of_limiter <$> db) bk now rate burst
  = match Limiter.lua_script srv db bk now rate burst with
    | Some (reply, db') => Some (reply, of_limiter <$> db')
    | None => None
    end.
Proof.
  unfold lua_script, Limiter.lua_script. rewrite !read_of_limiter.
  destruct (Limiter.tonumber _) as [tokens|]; [|done].
  destruct (Limiter.tonumber _) as [last_update|]; [|done].
  cbv zeta. cbn [num_add num_sub num_mul num_div num_le num_of_Z exact].
  assert (Hmin : ∀ a b, math_min (A := exact) a b = Limiter.math_min a b).
  { intros a b. unfold math_min, Limiter.math_min. cbn.
    by destruct (Qlt_le_dec b a). }
  rewrite Hmin.
  change (inject_Z window) with (inject_Z Limiter.window).
  change (inject_Z 1) with 1%Q.
  destruct (Qle_bool 1 _); cbn; [|done].
  by rewrite hmset_of_limiter, expire_of_limiter.
Qed.

#[local] Existing Instance binary64.

(** A bucket of client "c1" under tier free, emptied at client time 0 and
    drawn from at client time 1.04, which left it the 1.04 - 1 tokens the
    subtraction rounds to; a call at client time 2.  The refill the script
    computes, (60 * (2 - 1.04)) / 60, is rounded twice and is less than
    2 - 1.04, so that the tokens add up to the largest number below 1: the
    script replies 0 and writes nothing. *)
Lemma consume_as_implemented_witness :
  let bk := "rate_limit:free:c1"%string in
  let one : spec_float := num_of_Z (Arith := binary64) 1 in
  let left := num_sub (Arith := binary64) Fixtures.d_1_04 one in
  let db : gmap string (hash_entry spec_float) :=
    {[ bk := HashEntry (bucket_fields left Fixtures.d_1_04) (Some 61040%Z) ]} in
  let now : spec_float := num_of_Z (Arith := binary64) 2 in
  let rate : spec_float := num_of_Z (Arith := binary64) 60 in
  let burst : spec_float := num_of_Z (Arith := binary64) 10 in
  let refilled :=
    math_min (A := binary64) burst
      (num_add left
         (num_div (num_mul rate (num_sub now Fixtures.d_1_04)) (num_of_Z 60))) in
  ((∀ e, visible 2000 db bk = Some e → well_shaped e)
   ∧ bucket_state 2000 db bk = Some (left, Fixtures.d_1_04))
  ∧ refilled = S754_finite false 9007199254740991 (-53)
  ∧ num_le (Arith := binary64) one refilled = false
  ∧ lua_script (A := binary64) 2000 db bk now rate burst = Some (0%Z, db).
Proof.
  intros bk one left db now rate burst refilled.
  assert (H : ∀ e, visible 2000 db bk = Some e → well_shaped e).
  { intros e He. vm_compute in He. injection He as <-.
    by exists left, Fixtures.d_1_04. }
  assert (Hstate : bucket_state 2000 db bk = Some (left, Fixtures.d_1_04))
    by (vm_compute; reflexivity).
  assert (Hrefilled : refilled = S754_finite false 9007199254740991 (-53))
    by (vm_compute; reflexivity).
  assert (Hle : num_le (Arith := binary64) one refilled = false)
    by (vm_compute; reflexivity).
  split; [by split|]. split; [exact Hrefilled|]. split; [exact Hle|].
  destruct (consume_as_implemented (A := binary64) 2000 db bk now rate burst H)
    as (reply & db' & Hrun & Hcase).
  vm_compute in Hcase. destruct Hcase as [-> ->]. exact Hrun.
Defined.

(** How the bucket of the witness comes about, from the empty store: ten
    calls at client time 0 are admitted and empty the bucket, a call at
    client time 1.04 is admitted and leaves 1.04 - 1 tokens, and the call
    at client time 2 is rejected. *)
Lemma replies_at_0_104_2 :
  let bk := "rate_limit:free:c1"%string in
  let one : spec_float := num_of_Z (Arith := binary64) 1 in
  let left := num_sub (Arith := binary64) Fixtures.d_1_04 one in
  replies (A := binary64) ∅ bk (num_of_Z 60) (num_of_Z 10)
    (replicate 10 (0%Z, num_of_Z 0)
     ++ [(1040%Z, Fixtures.d_1_04); (2000%Z, num_of_Z 2)])
  = (replicate 11 (Some 1%Z) ++ [Some 0%Z],
     {[ bk := HashEntry (bucket_fields left Fixtures.d_1_04)
                (Some 61040%Z) ]}).
Proof. vm_compute. reflexivity. Qed.

(** The same bucket and the same call in the exact arithmetic, on the
    rationals those binary64 numbers are: the tokens add up to 1 and the
    script of [Limiter] replies 1.  The two arithmetics part where an
    operation of the script rounds. *)
Lemma exact_arithmetic_differs :
  let bk := "rate_limit:free:c1"%string in
  let left : spec_float := num_sub Fixtures.d_1_04 (num_of_Z 1) in
  let db : gmap string Limiter.hash_entry :=
    {[ bk := Limiter.HashEntry
               (Limiter.bucket_fields (to_Q left) (to_Q Fixtures.d_1_04))
               (Some 61040%Z) ]} in
  (to_Q left + 60 * (2 - to_Q Fixtures.d_1_04) / 60 == 1)%Q
  ∧ fst <$> Limiter.lua_script 2000 db bk 2 60 10 = Some 1%Z.
Proof. intros bk left db. split; vm_compute; reflexivity. Qed.

End ScriptFacts.


(** * Properties of the result cache *)

Module CacheFacts.

Import Cache.

Section WithLibrary.

Context (L : pylib).

(** ** What the two operations come to *)

(** With the server up and a positive expiry, a value the structured
    encoder accepts is stored as the encoder's text and a deadline. *)
Lemma set_structured default_ttl s key value ttl serialized :
  up s = true → (0 < default default_ttl ttl)%Z →
  json_dumps L value = Ok serialized →
  set L default_ttl s key value ttl
  = (Ok (),
     with_db s (<[key := StringEntry serialized
                           (Some (clock s + 1000 * default default_ttl ttl)%Z)]>
                  (db s))).
Proof.
  intros Hup Httl Hd. unfold set, redis_set. rewrite Hd, Hup.
  apply Z.ltb_lt in Httl. by rewrite Httl.
Qed.

(** A value the structured encoder rejects: evaluating the classes of the
    [except] clause raises, the handler body never runs, and the store is
    as before. *)
Lemma set_rejected default_ttl s key value ttl e :
  json_dumps L value = Raise e →
  set L default_ttl s key value ttl = (Raise (raise_from e AttributeError), s).
Proof. intros Hd. unfold set. by rewrite Hd. Qed.

(** The read of an entry whose bytes decode to [text]. *)
Lemma get_visible s key dflt e text :
  up s = true → visible s key = Some e → utf8_decode L (payload e) = Ok text →
  get L s key dflt
  = match json_loads L text with
    | Ok v => Ok v
    | Raise err =>
        if isinstance err ["JSONDecodeError"] then
          match pickle_loads L (payload e) with
          | Ok v => Ok v
          | Raise e' => Raise (raise_from err e')
          end
        else Raise err
    end.
Proof.
  intros Hup Hv Hdec. unfold get, redis_get_text, redis_get.
  rewrite Hup, Hv. cbn. rewrite Hdec. cbn.
  destruct (json_loads L text) as [v|err]; cbn; [done|].
  destruct (isinstance err _); [|done].
  by destruct (pickle_loads L (payload e)).
Qed.

Lemma get_absent s key dflt :
  up s = true → visible s key = None → get L s key dflt = Ok dflt.
Proof.
  intros Hup Hv. unfold get, redis_get_text, redis_get.
  by rewrite Hup, Hv.
Qed.

(** X2.  The structured path does round-trip: what the encoder accepted
    and the decoder maps back, stored with an integer TTL the server
    accepts, is returned by a read before the deadline. *)
Lemma roundtrip_structured default_ttl s key value ttl dflt text t :
  up s = true → expiry_accepted s (default default_ttl ttl) →
  json_dumps L value = Ok text → utf8_decode L text = Ok text →
  json_loads L text = Ok value →
  (t < clock s + 1000 * default default_ttl ttl)%Z →
  get L (at_time (snd (set L default_ttl s key value ttl)) t) key dflt
  = Ok value.
Proof.
  intros Hup [[Httl _] _] Hd Hu Hl Ht.
  rewrite (set_structured _ _ _ _ _ _ Hup Httl Hd). cbn [snd].
  rewrite (get_visible _ key dflt
             (StringEntry text (Some (clock s + 1000 * default default_ttl ttl)%Z))
             text); [by rewrite Hl|done| |exact Hu].
  unfold visible, at_time, with_db, live. cbn.
  rewrite lookup_insert_eq. cbn.
  by rewrite (proj2 (Z.leb_le _ _)) by lia.
Qed.

Lemma redis_set_up s k v ex : up (snd (redis_set s k v ex)) = up s.
Proof. unfold redis_set. by repeat case_match. Qed.

Lemma set_up default_ttl s key value ttl :
  up (snd (set L default_ttl s key value ttl)) = up s.
Proof.
  unfold set.
  destruct (json_dumps L value) as [serialized|e]; [|done].
  pose proof (redis_set_up s key serialized (default default_ttl ttl)) as Hs.
  by destruct (redis_set s key serialized _) as [[u|e] s'].
Qed.

Lemma delete_up s key :
  up s = true →
  delete s key = (Ok (), with_db s (base.delete key (db s))).
Proof.
  intros Hup. unfold delete, redis_delete. rewrite Hup. cbn. rewrite Hup.
  unfold with_db. cbn. by rewrite delete_delete_eq.
Qed.

End WithLibrary.

(** [test_set_get_string]: the string stored under [test_key] is read
    back half an hour later. *)
Lemma roundtrip_structured_witness :
  let s := Server true 0 ∅ in
  let text := String Fixtures.dquote ("test_value" +:+ String Fixtures.dquote "") in
  (up s = true ∧ expiry_accepted s (default 3600%Z None)
   ∧ json_dumps Fixtures.cpython (PyStr "test_value") = Ok text
   ∧ utf8_decode Fixtures.cpython text = Ok text
   ∧ json_loads Fixtures.cpython text = Ok (PyStr "test_value")
   ∧ (1800000 < clock s + 1000 * default 3600 None)%Z)
  ∧ get Fixtures.cpython
      (at_time (snd (set Fixtures.cpython 3600 s "test_key"
                       (PyStr "test_value") None)) 1800000)
      "test_key" PyNone
    = Ok (PyStr "test_value").
Proof.
  intros s text.
  assert (H1 : up s = true) by reflexivity.
  assert (H2 : expiry_accepted s (default 3600%Z None))
    by (vm_compute; intuition congruence).
  assert (H3 : json_dumps Fixtures.cpython (PyStr "test_value") = Ok text)
    by (vm_compute; reflexivity).
  assert (H4 : utf8_decode Fixtures.cpython text = Ok text)
    by (vm_compute; reflexivity).
  assert (H5 : json_loads Fixtures.cpython text = Ok (PyStr "test_value"))
    by (vm_compute; reflexivity).
  assert (H6 : (1800000 < clock s + 1000 * default 3600 None)%Z)
    by (cbn; lia).
  split; [by split_and!|].
  exact (roundtrip_structured Fixtures.cpython 3600 s "test_key"
           (PyStr "test_value") None PyNone text 1800000 H1 H2 H3 H4 H5 H6).
Defined.

(** ** Encoding tags *)

(** C5 (counterexample).  Two stores that hold, under the same key and with
    the same deadline, the text 7 and the three bytes that are the pickle
    of 8.  The entries differ in their payload only, and the read decodes
    the first with the structured decoder and the second, after the
    structured decoder has rejected it, with the opaque one: no tag kept
    beside the payload accounts for what the read returns. *)
Lemma get_selects_by_trial :
  let text := StringEntry "7" (Some 3600000%Z) in
  let bytes := StringEntry (String "K" (String "008" ".")) (Some 3600000%Z) in
  let s1 := Server true 0 {[ "k"%string := text ]} in
  let s2 := Server true 0 {[ "k"%string := bytes ]} in
  deadline text = deadline bytes
  ∧ get Fixtures.cpython s1 "k" PyNone = Ok (PyInt 7)
  ∧ pickle_loads Fixtures.cpython (payload text) = Raise UnpicklingError
  ∧ json_loads Fixtures.cpython (payload bytes) = Raise JSONDecodeError
  ∧ get Fixtures.cpython s2 "k" PyNone = Ok (PyInt 8)
  ∧ ¬ ∃ tag_of : option Z → encodingTag,
        ∀ s e, up s = true → visible s "k" = Some e →
               get Fixtures.cpython s "k" PyNone
               = decode_by_tag Fixtures.cpython (tag_of (deadline e)) (payload e).
Proof.
  intros text bytes s1 s2.
  assert (H1 : get Fixtures.cpython s1 "k" PyNone = Ok (PyInt 7))
    by (vm_compute; reflexivity).
  assert (H2 : get Fixtures.cpython s2 "k" PyNone = Ok (PyInt 8))
    by (vm_compute; reflexivity).
  split_and!; try reflexivity; try assumption.
  intros [tag_of Htag].
  pose proof (Htag s1 text eq_refl eq_refl) as Ht1.
  pose proof (Htag s2 bytes eq_refl eq_refl) as Ht2.
  rewrite H1 in Ht1. rewrite H2 in Ht2. cbn [deadline text bytes] in Ht1, Ht2.
  destruct (tag_of (Some 3600000%Z)); vm_compute in Ht1, Ht2; congruence.
Qed.

(** C5 (amended).  When the structured encoder accepts the value, [set]
    stores its output alone, with the deadline of the entry and no tag; and
    [get] chooses the decoder by trial: it applies the structured decoder
    to the text of whatever entry it finds, and applies the opaque decoder
    to the bytes of the entry exactly when the structured one raised
    [JSONDecodeError]. *)
Theorem get_decodes_by_trial (L : pylib) (default_ttl : Z) (s : server)
    (key : string) (value dflt : pyobj) (ttl : option Z) (serialized : string) :
  up s = true → (0 < default default_ttl ttl)%Z →
  json_dumps L value = Ok serialized →
  db (snd (set L default_ttl s key value ttl)) !! key
  = Some (StringEntry serialized
            (Some (clock s + 1000 * default default_ttl ttl)%Z))
  ∧ ∀ (s : server) (e : string_entry) (text : string),
      up s = true → visible s key = Some e →
      utf8_decode L (payload e) = Ok text →
      get L s key dflt
      = match json_loads L text with
        | Ok v => Ok v
        | Raise err =>
            if isinstance err ["JSONDecodeError"] then
              match pickle_loads L (payload e) with
              | Ok v => Ok v
              | Raise e' => Raise (raise_from err e')
              end
            else Raise err
        end.
Proof.
  intros Hup Httl Hd. split.
  - rewrite (set_structured L _ _ _ _ _ _ Hup Httl Hd). cbn.
    by rewrite lookup_insert_eq.
  - intros s' e text. apply get_visible.
Qed.

(** The dictionary of [test_set_get_dict] reduced to one integer: stored
    as the text 42, read back with the structured decoder. *)
Lemma get_decodes_by_trial_witness :
  let s := Server true 0 ∅ in
  (up s = true ∧ (0 < default 3600 None)%Z
   ∧ json_dumps Fixtures.cpython (PyInt 42) = Ok "42"%string)
  ∧ db (snd (set Fixtures.cpython 3600 s "test_key" (PyInt 42) None))
      !! "test_key"%string
    = Some (StringEntry "42" (Some (clock s + 1000 * default 3600 None)%Z))
  ∧ ∀ (s : server) (e : string_entry) (text : string),
      up s = true → visible s "test_key" = Some e →
      utf8_decode Fixtures.cpython (payload e) = Ok text →
      get Fixtures.cpython s "test_key" PyNone
      = match json_loads Fixtures.cpython text with
        | Ok v => Ok v
        | Raise err =>
            if isinstance err ["JSONDecodeError"] then
              match pickle_loads Fixtures.cpython (payload e) with
              | Ok v => Ok v
              | Raise e' => Raise (raise_from err e')
              end
            else Raise err
        end.
Proof.
  intros s.
  assert (H1 : up s = true) by reflexivity.
  assert (H2 : (0 < default 3600 None)%Z) by (cbn; lia).
  assert (H3 : json_dumps Fixtures.cpython (PyInt 42) = Ok "42"%string)
    by (vm_compute; reflexivity).
  split; [by split_and!|].
  exact (get_decodes_by_trial Fixtures.cpython 3600 s "test_key" (PyInt 42)
           PyNone None "42" H1 H2 H3).
Defined.

(** ** Round trip *)

(** C6.  A value the structured encoder rejects is never stored: [set]
    raises [AttributeError] out of its [except] clause and leaves the store
    as it was, so that the read that follows returns what it returned
    before, not the value. *)
Theorem opaque_value_not_stored (L : pylib) (default_ttl : Z) (s : server)
    (key : string) (value dflt : pyobj) (ttl : option Z) (e : exn) :
  json_dumps L value = Raise e →
  set L default_ttl s key value ttl = (Raise (raise_from e AttributeError), s)
  ∧ get L (snd (set L default_ttl s key value ttl)) key dflt
    = get L s key dflt.
Proof.
  intros Hd. rewrite (set_rejected L _ _ _ _ _ _ Hd). by split.
Qed.

(** The object of [test_binary_data], on the empty store: [set] raises and
    [get] returns [None]. *)
Lemma opaque_value_not_stored_witness :
  let s := Server true 0 ∅ in
  let obj := PyInstance "CustomObject" [("value"%string, PyInt 42)] in
  json_dumps Fixtures.cpython obj = Raise TypeError
  ∧ set Fixtures.cpython 3600 s "binary_key" obj None
    = (Raise (raise_from TypeError AttributeError), s)
  ∧ get Fixtures.cpython
      (snd (set Fixtures.cpython 3600 s "binary_key" obj None))
      "binary_key" PyNone
    = get Fixtures.cpython s "binary_key" PyNone.
Proof.
  intros s obj.
  assert (H : json_dumps Fixtures.cpython obj = Raise TypeError)
    by reflexivity.
  split; [exact H|].
  exact (opaque_value_not_stored Fixtures.cpython 3600 s "binary_key" obj
           PyNone None TypeError H).
Defined.

(** ** Deletion *)

(** C10.  Whatever [set] did with the value, after [delete] the key is in
    neither client's view of the store, and [get] returns the default the
    caller supplies, at any later time. *)
Theorem get_after_delete (L : pylib) (default_ttl : Z) (s : server)
    (key : string) (value dflt : pyobj) (ttl : option Z) (t : Z) :
  up s = true →
  let stored := snd (set L default_ttl s key value ttl) in
  let deleted := snd (delete stored key) in
  fst (delete stored key) = Ok ()
  ∧ redis_get deleted key = Ok None
  ∧ redis_get_text L deleted key = Ok None
  ∧ get L (at_time deleted t) key dflt = Ok dflt.
Proof.
  intros Hup stored deleted.
  assert (Hup' : up stored = true) by (subst stored; by rewrite set_up).
  subst deleted. rewrite (delete_up stored key Hup'). cbn [fst snd].
  assert (Hv : ∀ t', visible (at_time (with_db stored (base.delete key (db stored))) t')
                 key = None).
  { intros t'. unfold visible. cbn. by rewrite lookup_delete_eq. }
  assert (Hv0 : visible (with_db stored (base.delete key (db stored))) key = None).
  { unfold visible. cbn. by rewrite lookup_delete_eq. }
  split; [done|].
  split; [unfold redis_get; cbn; by rewrite Hup', Hv0|].
  split; [unfold redis_get_text, redis_get; cbn; by rewrite Hup', Hv0|].
  apply get_absent; [exact Hup'|apply Hv].
Qed.

(** [test_delete]: the string stored under [delete_key], then deleted. *)
Lemma get_after_delete_witness :
  let s := Server true 0 ∅ in
  let stored := snd (set Fixtures.cpython 3600 s "delete_key"
                       (PyStr "value") None) in
  let deleted := snd (delete stored "delete_key") in
  up s = true
  ∧ get Fixtures.cpython stored "delete_key" PyNone = Ok (PyStr "value")
  ∧ fst (delete stored "delete_key") = Ok ()
  ∧ redis_get deleted "delete_key" = Ok None
  ∧ redis_get_text Fixtures.cpython deleted "delete_key" = Ok None
  ∧ get Fixtures.cpython (at_time deleted 1000) "delete_key" PyNone = Ok PyNone.
Proof.
  intros s stored deleted.
  assert (H : up s = true) by reflexivity.
  split; [exact H|]. split; [vm_compute; reflexivity|].
  exact (get_after_delete Fixtures.cpython 3600 s "delete_key" (PyStr "value")
           PyNone None 1000 H).
Defined.

End CacheFacts.


(** * Properties of the orchestrator *)

Module OrchestratorFacts.

Import Cache Orchestrator.

(** ** Fingerprints *)

(** C1 (counterexample).  Two requests with the same code, one without a
    context and one with a context: whatever [hash] is, they get the same
    cache key, and the result cached for the first is what the second is
    answered with, no analysis being started for it. *)
Lemma context_ignored_by_cache_key :
  let code := "def f(): pass"%string in
  let without := PyNone in
  let within := PyDict [("language"%string, PyStr "python")] in
  let analyze := analyze_code Fixtures.length_hash Fixtures.dict_cache
                   Fixtures.recording Fixtures.healthy Fixtures.calm in
  let first := analyze (World ∅ []) code without true in
  let second := analyze (snd first) code within true in
  without ≠ within
  ∧ (∀ hash, cache_key hash code without = cache_key hash code within)
  ∧ (∃ result, fst first = Ok result ∧ fst second = Ok result)
  ∧ trace (snd second)
    = trace (snd first) ++ [LoggedInfo "Using cached analysis result"].
Proof.
  intros code without within analyze first second.
  split_and!; [done|done| |vm_compute; reflexivity].
  eexists. split; vm_compute; reflexivity.
Qed.

Lemma prefix_inj (s1 s2 : string) :
  ("analysis:" +:+ s1 = "analysis:" +:+ s2)%string → s1 = s2.
Proof. intros H. cbv in H. by simplify_eq. Qed.

(** C1 (amended).  The cache key is a function of the code alone: two
    requests get the same key exactly when their codes have the same hash,
    whatever their contexts.  So equal (code, context) pairs get equal
    keys, and so do requests that differ in their context only. *)
Theorem cache_key_of_code (hash : string → Z) (code1 code2 : string)
    (context1 context2 : pyobj) :
  cache_key hash code1 context1 = cache_key hash code2 context2
  ↔ hash code1 = hash code2.
Proof.
  unfold cache_key. split.
  - intros H. apply prefix_inj in H. by apply (inj pretty) in H.
  - by intros ->.
Qed.

(** ** The cache store being unreachable *)

Lemma get_unreachable (L : pylib) (s : server) (key : string) (dflt : pyobj) :
  up s = false → get L s key dflt = Raise ConnectionError.
Proof.
  intros Hup. unfold get, redis_get_text, redis_get. by rewrite Hup.
Qed.

(** C4 (counterexample).  With the store down, the call that uses the cache
    raises the store's [ConnectionError], where the call that does not use
    it returns the result of the analyses. *)
Lemma unreachable_cache_fails_call :
  let w := World (Server false 0 ∅) [] in
  let analyze := analyze_code Fixtures.length_hash
                   (manager_cache Fixtures.cpython) Fixtures.recording
                   Fixtures.healthy Fixtures.calm in
  fst (analyze w "def f(): pass" PyNone true) = Raise ConnectionError
  ∧ ∃ result, fst (analyze w "def f(): pass" PyNone false) = Ok result.
Proof.
  intros w analyze. split; [vm_compute; reflexivity|].
  eexists. vm_compute. reflexivity.
Qed.

(** C4 (amended).  If the cache store is unreachable during
    analyze(request, useCache=true), the call fails with the store's
    error: the [ConnectionError] of the cache lookup reaches the caller as
    it is, before any analysis is started, and nothing is logged, recorded
    or written. *)
Theorem unreachable_cache_propagates (L : pylib) (hash : string → Z)
    (telemetry : Telemetry) (providers : Providers) (E : env)
    (w : world server) (code : string) (context : pyobj) :
  up (store w) = false →
  analyze_code hash (manager_cache L) telemetry providers E w code context true
  = (Raise ConnectionError, w).
Proof.
  intros Hup. unfold analyze_code, check_cache, manager_cache.
  cbn [cache_get]. by rewrite (get_unreachable L _ _ _ Hup).
Qed.

Lemma unreachable_cache_propagates_witness :
  let w := World (Server false 0 ∅) [] in
  up (store w) = false
  ∧ analyze_code Fixtures.length_hash (manager_cache Fixtures.cpython)
      Fixtures.recording Fixtures.healthy Fixtures.calm w
      "def f(): pass" PyNone true
    = (Raise ConnectionError, w).
Proof.
  intros w.
  assert (H : up (store w) = false) by reflexivity.
  split; [exact H|].
  exact (unreachable_cache_propagates Fixtures.cpython Fixtures.length_hash
           Fixtures.recording Fixtures.healthy Fixtures.calm w
           "def f(): pass" PyNone H).
Defined.

(** [CacheManager.get] and [CacheManager.set] are plain methods: when the
    store answers, what they return cannot be awaited, so that a call that
    uses the cache raises in every case. *)
Lemma awaited_manager_raises (L : pylib) (hash : string → Z)
    (telemetry : Telemetry) (providers : Providers) (E : env)
    (w : world server) (code : string) (context : pyobj) :
  ∃ e, analyze_code hash (manager_cache L) telemetry providers E w code
         context true = (Raise e, w).
Proof.
  unfold analyze_code, check_cache, manager_cache. cbn [cache_get].
  destruct (get L (store w) _ PyNone) as [v|e]; cbn; eauto.
Qed.

(** ** A failing analysis *)

Lemma first_failure_app (l1 l2 : list (result pyobj)) :
  first_failure (l1 ++ l2)
  = match first_failure l1 with
    | Some e => Some e
    | None => first_failure l2
    end.
Proof.
  induction l1 as [|[v|e] l1 IH]; cbn; [done|exact IH|done].
Qed.

Lemma first_failure_In (l : list (result pyobj)) (e : exn) :
  first_failure l = Some e → In (Raise e) l.
Proof.
  induction l as [|[v|e'] l IH]; cbn; [done|auto|].
  intros [= ->]. by left.
Qed.

Lemma first_failure_None (l : list (result pyobj)) (e : exn) :
  first_failure l = None → ¬ In (Raise e) l.
Proof.
  induction l as [|[v|e'] l IH]; cbn; [tauto| |done].
  intros H [Hv|Hin]; [done|]. by apply IH.
Qed.

Lemma completed_In (completion : list nat) (outs : list (result pyobj))
    (o : result pyobj) :
  In o (omap (λ i, outs !! i) completion) → In o outs.
Proof.
  intros Hin. apply list_elem_of_In, list_elem_of_omap in Hin
    as (i & _ & Hi).
  apply list_elem_of_In. by eapply list_elem_of_lookup_2.
Qed.

(** [gather] propagates a failure, one of those that occurred, as soon as
    there is one. *)
Lemma gather_failure (completion : list nat) (outs : list (result pyobj))
    (e : exn) :
  In (Raise e) outs →
  ∃ failure, gather completion outs = Raise failure ∧ In (Raise failure) outs.
Proof.
  intros Hin. unfold gather.
  destruct (first_failure _) as [f|] eqn:Hf.
  - exists f. split; [done|].
    apply first_failure_In, in_app_or in Hf as [Hf|Hf]; [|done].
    by eapply completed_In.
  - exfalso. apply (first_failure_None _ e Hf). apply in_or_app. by right.
Qed.

Lemma exn_chain_head (e : exn) : In e (exn_chain e).
Proof. destruct e; by left. Qed.

Lemma exn_chain_raise_from (handled e : exn) :
  In handled (exn_chain (raise_from handled e)).
Proof. cbn. right. apply exn_chain_head. Qed.

(** For collaborators that give [analyze_code] what it asks of them: when
    the call reaches the analyses (the cache is not used or has no result
    for the fingerprint) and one of them fails, the call raises: the
    failure [gather] propagated is re-raised to the caller, as it is when
    the telemetry records it, and as the context of the telemetry's own
    exception otherwise; and the cache is left as it was. *)
Theorem provider_failure_surfaces {S : Type} (hash : string → Z)
    (cache : AsyncCache S) (telemetry : Telemetry) (providers : Providers)
    (E : env) (w : world S) (code : string) (context : pyobj)
    (use_cache : bool) (e : exn) :
  check_cache hash cache w code context use_cache = Ok None →
  In (Raise e) (provider_outcomes providers code context) →
  let outcome :=
    analyze_code hash cache telemetry providers E w code context use_cache in
  ∃ raised failure,
    fst outcome = Raise raised
    ∧ In (Raise failure) (provider_outcomes providers code context)
    ∧ In failure (exn_chain raised)
    ∧ (record_error telemetry "analysis_failure" failure = Ok () →
       raised = failure)
    ∧ store (snd outcome) = store w.
Proof.
  intros Hmiss Hfail outcome. subst outcome.
  destruct (gather_failure (completion E) _ e Hfail) as (failure & Hg & Hin).
  unfold analyze_code, run_analyses. rewrite Hmiss, Hg. cbn.
  destruct (record_error telemetry "analysis_failure" failure) as [[]|e'] eqn:Hr.
  - exists failure, failure. cbn [fst snd store emit].
    split_and!; auto using exn_chain_head.
  - exists (raise_from failure e'), failure. cbn [fst snd store emit].
    split_and!; auto using exn_chain_raise_from. congruence.
Qed.

(** The debugger fails on a request whose fingerprint is not cached, with
    an awaitable cache over a dictionary and a telemetry that records: the
    failure reaches the caller and the cache stays empty. *)
Lemma provider_failure_surfaces_witness :
  let w := World (∅ : gmap string pyobj) [] in
  let code := "def f(): pass"%string in
  let outcome :=
    analyze_code Fixtures.length_hash Fixtures.dict_cache Fixtures.recording
      Fixtures.failing_debugger Fixtures.calm w code PyNone true in
  (check_cache Fixtures.length_hash Fixtures.dict_cache w code PyNone true
   = Ok None
   ∧ In (Raise Fixtures.ProviderFailure)
        (provider_outcomes Fixtures.failing_debugger code PyNone))
  ∧ ∃ raised failure,
      fst outcome = Raise raised
      ∧ In (Raise failure)
           (provider_outcomes Fixtures.failing_debugger code PyNone)
      ∧ In failure (exn_chain raised)
      ∧ (record_error Fixtures.recording "analysis_failure" failure = Ok () →
         raised = failure)
      ∧ store (snd outcome) = store w.
Proof.
  intros w code outcome.
  assert (H1 : check_cache Fixtures.length_hash Fixtures.dict_cache w code
                 PyNone true = Ok None) by reflexivity.
  assert (H2 : In (Raise Fixtures.ProviderFailure)
                  (provider_outcomes Fixtures.failing_debugger code PyNone))
    by (right; left; reflexivity).
  split; [by split|].
  exact (provider_failure_surfaces Fixtures.length_hash Fixtures.dict_cache
           Fixtures.recording Fixtures.failing_debugger Fixtures.calm w code
           PyNone true Fixtures.ProviderFailure H1 H2).
Defined.

(** The same request with the telemetry manager of the repository: its
    missing [record_error] raises while the failure is being handled, and
    the caller gets that [AttributeError] with the failure as its context;
    all three analyses were started and the cache stays empty. *)
Lemma provider_failure_with_TelemetryManager :
  let w := World (∅ : gmap string pyobj) [] in
  let outcome :=
    analyze_code Fixtures.length_hash Fixtures.dict_cache
      Fixtures.TelemetryManager Fixtures.failing_debugger Fixtures.calm w
      "def f(): pass" PyNone true in
  fst outcome = Raise (Handling "AttributeError" Fixtures.ProviderFailure)
  ∧ store (snd outcome) = ∅
  ∧ trace (snd outcome)
    = [Started "context"; Started "debug"; Started "optimization";
       LoggedError Fixtures.ProviderFailure].
Proof. intros w outcome. split_and!; vm_compute; reflexivity. Qed.

(** ** A failing analysis in the service as [__init__] builds it *)

Lemma handling_neq (cls : string) (e : exn) : Handling cls e ≠ e.
Proof.
  revert cls. induction e as [c|c e IH]; intros cls; [done|].
  intros [= _ H]. by apply (IH c).
Qed.

(** C8.  The service as [__init__] builds it, with a [CacheManager] and a
    [TelemetryManager], when one of the analyses fails:
    - a call that does not use the cache raises, not the failure of the
      analysis, but the [AttributeError] of the handler, whose call of
      [self.telemetry.record_error] finds no such method; the failure
      [gather] propagated is the context of that exception, and the bare
      [raise] that would have re-raised it is not reached;
    - a call that uses the cache raises at the cache lookup, before any
      analysis is started.
    In both, the store of the cache is left as it was. *)
Theorem provider_failure_masked (L : pylib) (hash : string → Z)
    (providers : Providers) (E : env) (w : world server) (code : string)
    (context : pyobj) (e : exn) :
  In (Raise e) (provider_outcomes providers code context) →
  let analyze :=
    analyze_code hash (manager_cache L) Fixtures.TelemetryManager providers
      E w code context in
  (∃ failure,
     In (Raise failure) (provider_outcomes providers code context)
     ∧ fst (analyze false) = Raise (raise_from failure AttributeError)
     ∧ exn_class (raise_from failure AttributeError) = "AttributeError"%string
     ∧ raise_from failure AttributeError ≠ failure
     ∧ store (snd (analyze false)) = store w)
  ∧ ∃ raised, analyze true = (Raise raised, w).
Proof.
  intros Hfail analyze. subst analyze. split.
  - destruct (gather_failure (completion E) _ e Hfail)
      as (failure & Hg & Hin).
    exists failure. unfold analyze_code, run_analyses, check_cache.
    rewrite Hg. cbn.
    split_and!; [done|done|done|apply handling_neq|done].
  - unfold analyze_code, check_cache, manager_cache. cbn [cache_get].
    destruct (get L (store w) _ PyNone) as [v|e']; cbn; eauto.
Qed.

(** The debugger fails, the store of the cache is reachable and empty:
    without the cache the caller gets the [AttributeError] with the
    failure of the debugger as its context; with the cache, the
    [TypeError] of awaiting what [CacheManager.get] returned. *)
Lemma provider_failure_masked_witness :
  let w := World (Server true 0 ∅) [] in
  let code := "def f(): pass"%string in
  let analyze :=
    analyze_code Fixtures.length_hash (manager_cache Fixtures.cpython)
      Fixtures.TelemetryManager Fixtures.failing_debugger Fixtures.calm w
      code PyNone in
  In (Raise Fixtures.ProviderFailure)
     (provider_outcomes Fixtures.failing_debugger code PyNone)
  ∧ fst (analyze false)
    = Raise (Handling "AttributeError" Fixtures.ProviderFailure)
  ∧ store (snd (analyze false)) = store w
  ∧ analyze true = (Raise TypeError, w).
Proof.
  intros w code analyze.
  assert (H : In (Raise Fixtures.ProviderFailure)
                 (provider_outcomes Fixtures.failing_debugger code PyNone))
    by (right; left; reflexivity).
  split; [exact H|].
  destruct (provider_failure_masked Fixtures.cpython Fixtures.length_hash
              Fixtures.failing_debugger Fixtures.calm w code PyNone
              Fixtures.ProviderFailure H)
    as [(failure & Hin & Hraised & _ & _ & Hstore) [raised Hcached]].
  split; [vm_compute; reflexivity|]. split; [exact Hstore|].
  vm_compute; reflexivity.
Defined.

End OrchestratorFacts.


(** * Further properties of the rate limiter *)

Module LimiterApiFacts.

Import Limiter LimiterApi LimiterFacts.
Local Open Scope Q_scope.

(** ** Arithmetic *)

Lemma refill_nonneg (r d : Q) :
  0 <= r → 0 <= d → 0 <= r * d / inject_Z window.
Proof.
  intros Hr Hd. unfold Qdiv.
  apply Qmult_le_0_compat; [by apply Qmult_le_0_compat|].
  by vm_compute.
Qed.

Lemma refill_split (r a b l : Q) :
  r * (b - l) / inject_Z window
  == r * (a - l) / inject_Z window + r * (b - a) / inject_Z window.
Proof. unfold Qdiv. ring. Qed.

Lemma refill_none (r now : Q) : r * (now - now) / inject_Z window == 0.
Proof. unfold Qdiv. ring. Qed.


Lemma math_min_mono (a x y : Q) : x <= y → math_min a x <= math_min a y.
Proof.
  intros H. unfold math_min.
  destruct (Qlt_le_dec x a), (Qlt_le_dec y a); lra.
Qed.


Lemma math_min_r (a x : Q) : x <= a → math_min a x == x.
Proof.
  intros H. unfold math_min. destruct (Qlt_le_dec x a); [reflexivity|lra].
Qed.

Lemma math_min_l (a x : Q) : a <= x → math_min a x == a.
Proof.
  intros H. unfold math_min. destruct (Qlt_le_dec x a); [lra|reflexivity].
Qed.

Lemma admits_integer (x : Q) (m : Z) :
  x == inject_Z m → Qle_bool 1 x = (0 <? m)%Z.
Proof.
  intros Hx.
  destruct (0 <? m)%Z eqn:Hm.
  - apply Qle_bool_iff. rewrite Hx. apply Z.ltb_lt in Hm.
    change 1 with (inject_Z 1). rewrite <- Zle_Qle. lia.
  - apply not_true_is_false. intros H. apply Qle_bool_iff in H.
    rewrite Hx in H. change 1 with (inject_Z 1) in H.
    rewrite <- Zle_Qle in H. apply Z.ltb_ge in Hm. lia.
Qed.

Lemma inject_Z_minus_1 (m : Z) : inject_Z m - 1 == inject_Z (m - 1).
Proof. unfold Qeq, Qminus, Qplus, Qopp, inject_Z. simpl. lia. Qed.

Lemma py_int_integer (q : Q) (m : Z) : q == inject_Z m → py_int q = m.
Proof.
  destruct q as [n d]. unfold Qeq, py_int, inject_Z. cbn.
  intros H. rewrite Z.mul_1_r in H. subst n. by apply Z.quot_mul.
Qed.

Lemma py_int_bounds (q : Q) (b : Z) :
  0 <= q → q <= inject_Z b → (0 ≤ py_int q ≤ b)%Z.
Proof.
  destruct q as [n d]. unfold Qle, py_int, inject_Z. cbn.
  intros H0 Hb. rewrite Z.mul_1_r in *.
  rewrite Z.quot_div_nonneg by lia. split.
  - apply Z.div_pos; lia.
  - apply Z.div_le_upper_bound; lia.
Qed.

(** ** Waiting *)

(** X3.  Waiting never turns an admission into a rejection: with a rate
    that is not negative, a call that is admitted at client time [now] is
    admitted, on the same store, at any later client time. *)
Theorem later_is_no_worse (rl : RateLimiter) (fault : option exn) (srv : Z)
    (db : gmap string hash_entry) (key tier : string) (now now' : Q) :
  (0 <= requests_per_minute (config_of rl tier))%Z →
  now <= now' →
  fst (check_rate_limit rl fault srv db key tier now) = true →
  fst (check_rate_limit rl fault srv db key tier now') = true.
Proof.
  intros Hrate Hnow. unfold check_rate_limit, redis_eval, lua_script.
  destruct fault; [done|].
  destruct (tonumber _) as [tokens|]; [|done].
  destruct (tonumber _) as [last_update|]; [|done].
  set (r := inject_Z (requests_per_minute (config_of rl tier))).
  set (b := inject_Z (burst_size (config_of rl tier))).
  assert (Hr : 0 <= r).
  { subst r. change 0 with (inject_Z 0). by rewrite <- Zle_Qle. }
  assert (Hle : math_min b (tokens + r * (now - last_update) / inject_Z window)
                <= math_min b (tokens + r * (now' - last_update) / inject_Z window)).
  { apply math_min_mono. rewrite (refill_split r now now' last_update).
    pose proof (refill_nonneg r (now' - now) Hr). lra. }
  destruct (Qle_bool 1 (math_min b (tokens + r * (now - last_update) / _)))
    eqn:H1; [|done].
  intros _. apply Qle_bool_iff in H1.
  assert (H2 : Qle_bool 1
                 (math_min b (tokens + r * (now' - last_update) / inject_Z window))
               = true) by (apply Qle_bool_iff; lra).
  by rewrite H2.
Qed.

(** Client c1 under tier free, a bucket emptied at time 1000: admitted a
    second later, hence two seconds later. *)
Lemma later_is_no_worse_witness :
  let rl := init None in
  let db := {[ "rate_limit:free:c1"%string
               := HashEntry (bucket_fields 0 1000) (Some 1060000%Z) ]} in
  ((0 <= requests_per_minute (config_of rl "free"))%Z
   ∧ 1001 <= 1002
   ∧ fst (check_rate_limit rl None 1001000 db "c1" "free" 1001) = true)
  ∧ fst (check_rate_limit rl None 1001000 db "c1" "free" 1002) = true.
Proof.
  intros rl db.
  assert (H1 : (0 <= requests_per_minute (config_of rl "free"))%Z)
    by (vm_compute; discriminate).
  assert (H2 : 1001 <= 1002) by (vm_compute; discriminate).
  assert (H3 : fst (check_rate_limit rl None 1001000 db "c1" "free" 1001)
               = true) by (vm_compute; reflexivity).
  split; [by split_and!|].
  exact (later_is_no_worse rl None 1001000 db "c1" "free" 1001 1002 H1 H2 H3).
Defined.




(** ** Bursts *)

Lemma first_admitted_S (m : Z) (n : nat) :
  first_admitted m (S n) = (0 <? m)%Z :: first_admitted (m - 1) n.
Proof.
  unfold first_admitted. cbn [seq map]. f_equal.
  rewrite <- seq_shift, map_map. apply map_ext. intros i.
  destruct (Z.ltb_spec (Z.of_nat (S i)) m), (Z.ltb_spec (Z.of_nat i) (m - 1));
    lia.
Qed.

Lemma first_admitted_none (m : Z) (n : nat) :
  (m ≤ 0)%Z → first_admitted m n = first_admitted (m - 1) n.
Proof.
  intros Hm. unfold first_admitted. apply map_ext. intros i.
  destruct (Z.ltb_spec (Z.of_nat i) m), (Z.ltb_spec (Z.of_nat i) (m - 1));
    lia.
Qed.

(** Calls at the instant of the time stamp of a bucket that holds [m]
    tokens, [m] at most the capacity. *)
Lemma decisions_at_instant (rl : RateLimiter) (key tier : string) (now : Q)
    (srv : Z) (n : nat) :
  ∀ (db : gmap string hash_entry) (e : hash_entry) (t : Q) (m : Z),
    visible srv db (bucket_key (config_of rl tier) key) = Some e →
    fields e = bucket_fields t now →
    t == inject_Z m → (m ≤ burst_size (config_of rl tier))%Z →
    decisions rl db (replicate n (Call key tier now srv None))
    = first_admitted m n.
Proof.
  induction n as [|n IH]; intros db e t m Hv Hf Ht Hm; [done|].
  rewrite first_admitted_S. cbn [replicate decisions].
  unfold step. cbn [c_fault c_srv c_key c_tier c_now].
  unfold check_rate_limit, redis_eval.
  rewrite lua_script_unfold
    by (intros e' He'; rewrite Hv in He'; injection He' as <-; by exists t, now).
  rewrite (bucket_state_shaped _ _ _ _ _ _ Hv Hf).
  cbn [default from_option id].
  set (r := inject_Z (requests_per_minute (config_of rl tier))).
  set (b := inject_Z (burst_size (config_of rl tier))).
  set (refilled := math_min b (t + r * (now - now) / inject_Z window)).
  assert (Hrefilled : refilled == inject_Z m).
  { subst refilled. rewrite math_min_r.
    - rewrite refill_none, <- Ht. ring.
    - rewrite refill_none, Ht. subst b.
      rewrite Zle_Qle in Hm. lra. }
  rewrite (admits_integer refilled m Hrefilled).
  destruct (0 <? m)%Z eqn:Hpos; cbn [fst snd negb Z.eqb].
  - f_equal.
    eapply IH.
    + apply visible_insert_live. cbn. lia.
    + reflexivity.
    + rewrite Hrefilled. apply inject_Z_minus_1.
    + lia.
  - f_equal. rewrite <- first_admitted_none by (by apply Z.ltb_ge).
    by eapply IH.
Qed.

(** X5.  A burst: of [n] calls that a client with no bucket makes at one
    instant (client time not negative, rate not negative), exactly the
    first [burst_size] are admitted and every later one is rejected. *)
Theorem burst_admits_capacity (rl : RateLimiter) (key tier : string)
    (now : Q) (srv : Z) (n : nat) (db : gmap string hash_entry) :
  visible srv db (bucket_key (config_of rl tier) key) = None →
  (0 <= requests_per_minute (config_of rl tier))%Z →
  0 <= now →
  decisions rl db (replicate n (Call key tier now srv None))
  = first_admitted (burst_size (config_of rl tier)) n.
Proof.
  intros Hv Hrate Hnow.
  set (r := inject_Z (requests_per_minute (config_of rl tier))).
  set (b := inject_Z (burst_size (config_of rl tier))).
  assert (Hr : 0 <= r).
  { subst r. change 0 with (inject_Z 0). by rewrite <- Zle_Qle. }
  assert (Hfull : math_min b (b + r * (now - 0) / inject_Z window) == b).
  { apply math_min_l. pose proof (refill_nonneg r (now - 0) Hr). lra. }
  assert (Hstep : lua_script srv db (bucket_key (config_of rl tier) key) now r b
                  = Some (if (0 <? burst_size (config_of rl tier))%Z
                          then (1%Z,
                                <[bucket_key (config_of rl tier) key :=
                                    HashEntry
                                      (bucket_fields
                                         (math_min b (b + r * (now - 0)
                                                          / inject_Z window) - 1)
                                         now)
                                      (Some (srv + 60000)%Z)]> db)
                          else (0%Z, db))).
  { rewrite lua_script_unfold by (intros e He; congruence).
    unfold bucket_state. rewrite Hv. cbn [default from_option id].
    by rewrite (admits_integer _ _ Hfull). }
  destruct (0 <? burst_size (config_of rl tier))%Z eqn:Hpos.
  - destruct n as [|n]; [done|].
    rewrite first_admitted_S, Hpos. cbn [replicate decisions].
    unfold step. cbn [c_fault c_srv c_key c_tier c_now].
    unfold check_rate_limit, redis_eval. fold r b. rewrite Hstep.
    cbn [fst snd negb Z.eqb]. f_equal.
    eapply decisions_at_instant.
    + apply visible_insert_live. cbn. lia.
    + reflexivity.
    + rewrite Hfull. apply inject_Z_minus_1.
    + lia.
  - induction n as [|n IH]; [done|].
    rewrite first_admitted_S, Hpos. cbn [replicate decisions].
    unfold step. cbn [c_fault c_srv c_key c_tier c_now].
    unfold check_rate_limit, redis_eval. fold r b. rewrite Hstep.
    cbn [fst snd negb Z.eqb]. f_equal.
    rewrite <- first_admitted_none by (by apply Z.ltb_ge). exact IH.
Qed.

(** Eleven calls of a new client under tier free at one instant: ten are
    admitted, the eleventh is rejected. *)
Lemma burst_admits_capacity_witness :
  let rl := init None in
  (visible 1000000 (∅ : gmap string hash_entry)
     (bucket_key (config_of rl "free") "c1") = None
   ∧ (0 <= requests_per_minute (config_of rl "free"))%Z
   ∧ 0 <= 1000)
  ∧ decisions rl ∅ (replicate 11 (Call "c1" "free" 1000 1000000 None))
    = replicate 10 true ++ [false].
Proof.
  intros rl.
  assert (H1 : visible 1000000 (∅ : gmap string hash_entry)
                 (bucket_key (config_of rl "free") "c1") = None)
    by reflexivity.
  assert (H2 : (0 <= requests_per_minute (config_of rl "free"))%Z)
    by (vm_compute; discriminate).
  assert (H3 : 0 <= 1000) by (vm_compute; discriminate).
  split; [by split_and!|].
  exact (burst_admits_capacity rl "c1" "free" 1000 1000000 11 ∅ H1 H2 H3).
Defined.

(** ** Headers *)

Lemma capacity_pos (tier : string) :
  (0 < burst_size (config_of (init None) tier))%Z.
Proof.
  destruct (config_of_cases tier) as [[_ ->]|[[_ ->]|[[_ ->]|[_ ->]]]];
    cbn; lia.
Qed.

Lemma rate_pos (tier : string) :
  (0 < requests_per_minute (config_of (init None) tier))%Z.
Proof.
  destruct (config_of_cases tier) as [[_ ->]|[[_ ->]|[[_ ->]|[_ ->]]]];
    cbn; lia.
Qed.

(** X6.  After every sequence of calls from the empty store, the headers
    of the last call give the rate of its tier as the limit, 60 as the
    reset, and as the remaining count an integer between zero and the
    burst capacity of the tier (under the same proviso as for the stored
    count: calls that address one bucket have one capacity). *)
Theorem headers_within_capacity (calls : list call) (c : call) (srv : Z) :
  (∀ c', c' ∈ calls →
         bucket_of (init None) c' = bucket_of (init None) c →
         capacity_of (init None) c' = capacity_of (init None) c) →
  ∃ remaining,
    get_rate_limit_headers (init None) None srv
      (run (init None) (calls ++ [c])) (c_key c) (c_tier c)
    = [("X-RateLimit-Limit"%string,
        pretty (requests_per_minute (config_of (init None) (c_tier c))));
       ("X-RateLimit-Remaining"%string, pretty remaining);
       ("X-RateLimit-Reset"%string, "60"%string)]
    ∧ (0 ≤ remaining ≤ capacity_of (init None) c)%Z.
Proof.
  intros Hsame. unfold get_rate_limit_headers, header_tokens.
  eexists. split; [reflexivity|].
  apply py_int_bounds.
  - pose proof (written_by_run (init None) (calls ++ [c])) as Hw.
    pose proof (capacity_nonneg (c_tier c)) as Hcap.
    unfold hgetall_dict.
    destruct (visible srv _ _) as [e|] eqn:Hv; cbn [hget default from_option id].
    + apply visible_Some in Hv as [Hl _].
      destruct (Hw _ _ Hl) as (c' & t & l & _ & _ & Hf & H0 & _).
      rewrite Hf, hget_tokens. exact H0.
    + change 0 with (inject_Z 0). by rewrite <- Zle_Qle.
  - pose proof (written_by_run (init None) (calls ++ [c])) as Hw.
    unfold hgetall_dict.
    destruct (visible srv _ _) as [e|] eqn:Hv; cbn [hget default from_option id].
    + apply visible_Some in Hv as [Hl _].
      destruct (Hw _ _ Hl) as (c' & t & l & Hin & Hbk & Hf & _ & H1).
      rewrite Hf, hget_tokens. cbn [default from_option id].
      assert (capacity_of (init None) c' = capacity_of (init None) c) as Hc.
      { apply elem_of_app in Hin as [Hin|Hin].
        - apply Hsame; [done|]. symmetry. exact Hbk.
        - apply list_elem_of_singleton in Hin. by subst. }
      rewrite Hc in H1. unfold capacity_of in *. lra.
    + unfold capacity_of. lra.
Qed.

Lemma headers_within_capacity_witness :
  let calls := replicate 3 (Call "c1" "pro" 1000 1000000 None) in
  let c := Call "c1" "pro" 1000 1000000 None in
  (∀ c', c' ∈ calls →
         bucket_of (init None) c' = bucket_of (init None) c →
         capacity_of (init None) c' = capacity_of (init None) c)
  ∧ ∃ remaining,
      get_rate_limit_headers (init None) None 1000000
        (run (init None) (calls ++ [c])) (c_key c) (c_tier c)
      = [("X-RateLimit-Limit"%string, "300"%string);
         ("X-RateLimit-Remaining"%string, pretty remaining);
         ("X-RateLimit-Reset"%string, "60"%string)]
      ∧ (0 ≤ remaining ≤ 50)%Z.
Proof.
  intros calls c.
  assert (H : ∀ c', c' ∈ calls →
                bucket_of (init None) c' = bucket_of (init None) c →
                capacity_of (init None) c' = capacity_of (init None) c).
  { intros c' Hin _. subst calls. cbn in Hin.
    repeat (apply elem_of_cons in Hin as [->|Hin]; [reflexivity|]).
    by apply elem_of_nil in Hin. }
  split; [exact H|exact (headers_within_capacity calls c 1000000 H)].
Defined.

(** ** The middleware *)

(** X7.  The first request of a client (no bucket under its key) passes
    the middleware and is given the rate of its tier as limit, the burst
    capacity minus the token it consumed as remaining count, and 60 as
    reset, when the headers are read within the window; requests without a
    user are served under tier free.  No other bucket is touched. *)
Theorem first_request_headers (host : string) (user : option string)
    (srv srv' : Z) (now : Q) (db : gmap string hash_entry) :
  let req := Request (Some host) user in
  let rl := init None in
  let tier := default "free"%string (user_tier req) in
  let bk := bucket_key (config_of rl tier) host in
  visible srv db bk = None →
  0 <= now →
  (srv' < srv + 60000)%Z →
  fst (rate_limit_middleware rl req None srv now None srv' db)
  = Ok [("X-RateLimit-Limit"%string,
         pretty (requests_per_minute (config_of rl tier)));
        ("X-RateLimit-Remaining"%string,
         pretty (burst_size (config_of rl tier) - 1)%Z);
        ("X-RateLimit-Reset"%string, "60"%string)]
  ∧ ∀ k, k ≠ bk →
         snd (rate_limit_middleware rl req None srv now None srv' db) !! k
         = db !! k.
Proof.
  intros req rl tier bk Hv Hnow Hsrv.
  unfold rate_limit_middleware. cbn [client req]. fold tier.
  unfold check_rate_limit, redis_eval. fold bk.
  set (r := inject_Z (requests_per_minute (config_of rl tier))).
  set (b := inject_Z (burst_size (config_of rl tier))).
  assert (Hr : 0 <= r).
  { subst r. change 0 with (inject_Z 0). rewrite <- Zle_Qle.
    pose proof (rate_pos tier). subst rl. lia. }
  assert (Hfull : math_min b (b + r * (now - 0) / inject_Z window) == b).
  { apply math_min_l. pose proof (refill_nonneg r (now - 0) Hr). lra. }
  rewrite lua_script_unfold by (intros e He; congruence).
  unfold bucket_state. rewrite Hv. cbn [default from_option id].
  rewrite (admits_integer _ _ Hfull).
  pose proof (capacity_pos tier) as Hpos. apply Z.ltb_lt in Hpos.
  subst rl. rewrite Hpos. cbn [fst snd negb Z.eqb]. split.
  - unfold get_rate_limit_headers, header_tokens. fold tier bk.
    unfold hgetall_dict.
    rewrite visible_insert_live by (cbn; lia).
    cbn [fields]. rewrite hget_tokens. cbn [default from_option id].
    rewrite (py_int_integer _ (burst_size (config_of (init None) tier) - 1));
      [reflexivity|].
    rewrite Hfull. apply inject_Z_minus_1.
  - intros k Hk. by rewrite lookup_insert_ne.
Qed.

Lemma first_request_headers_witness :
  let req := Request (Some "10.0.0.7"%string) None in
  (visible 1000000 (∅ : gmap string hash_entry)
     (bucket_key (config_of (init None) "free") "10.0.0.7") = None
   ∧ 0 <= 1000
   ∧ (1000001 < 1000000 + 60000)%Z)
  ∧ fst (rate_limit_middleware (init None) req None 1000000 1000 None
           1000001 ∅)
    = Ok [("X-RateLimit-Limit"%string, "60"%string);
          ("X-RateLimit-Remaining"%string, "9"%string);
          ("X-RateLimit-Reset"%string, "60"%string)]
  ∧ ∀ k, k ≠ bucket_key (config_of (init None) "free") "10.0.0.7" →
         snd (rate_limit_middleware (init None) req None 1000000 1000 None
                1000001 ∅) !! k
         = (∅ : gmap string hash_entry) !! k.
Proof.
  intros req.
  assert (H1 : visible 1000000 (∅ : gmap string hash_entry)
                 (bucket_key (config_of (init None) "free") "10.0.0.7") = None)
    by reflexivity.
  assert (H2 : 0 <= 1000) by (vm_compute; discriminate).
  assert (H3 : (1000001 < 1000000 + 60000)%Z) by lia.
  split; [by split_and!|].
  exact (first_request_headers "10.0.0.7" None 1000000 1000001 1000 ∅
           H1 H2 H3).
Defined.

(** X8.  The middleware raises in two cases only, and leaves the store
    as it was in both: a request without a client raises the
    [AttributeError] of reading its host, before the store is asked; a
    request the store answered the check for with a rejection raises the
    429 exception.  When the store fails on both round trips, a request
    with a client passes, with an empty dictionary of headers. *)
Theorem middleware_outcomes (rl : RateLimiter) (req : request)
    (fault fault' : option exn) (srv srv' : Z) (now : Q)
    (db : gmap string hash_entry) :
  (∀ x, fst (rate_limit_middleware rl req fault srv now fault' srv' db)
        = Raise x →
        snd (rate_limit_middleware rl req fault srv now fault' srv' db) = db
        ∧ ((client req = None ∧ x = AttributeError)
           ∨ (is_Some (client req) ∧ x = TooManyRequests ∧ fault = None)))
  ∧ (client req = None →
     rate_limit_middleware rl req fault srv now fault' srv' db
     = (Raise AttributeError, db))
  ∧ (∀ e e', is_Some (client req) →
             rate_limit_middleware rl req (Some e) srv now (Some e') srv' db
             = (Ok [], db)).
Proof.
  unfold rate_limit_middleware. destruct (client req) as [key|].
  - split_and!; [|done|done].
    intros x. unfold check_rate_limit, redis_eval.
    destruct fault; [done|].
    unfold lua_script.
    destruct (tonumber _); [|done]. destruct (tonumber _); [|done].
    destruct (Qle_bool 1 _); cbn; [done|]. intros [= <-].
    split; [done|]. right. by split_and!.
  - split_and!; [|done|by intros ?? [? ?]].
    intros x [= <-]. split; [done|]. by left.
Qed.

End LimiterApiFacts.


(** * Isolation of clients *)

Module LimiterClientFacts.

Import Limiter LimiterApi LimiterFacts LimiterApiFacts.
Local Open Scope Q_scope.

(** ** Clients *)

Lemma bucket_key_inj (config : RateLimitConfig) (key1 key2 : string) :
  bucket_key config key1 = bucket_key config key2 → key1 = key2.
Proof.
  unfold bucket_key. generalize (key_prefix config). intros p.
  induction p as [|a p IH]; intros H.
  - cbv in H. by simplify_eq.
  - injection H as H. by apply IH.
Qed.

(** X25.  Clients of one tier do not share tokens: whatever calls one
    client makes, under any limiter, the bucket of another client of the
    same tier is left as it was, and the decision of that client's next
    call is the one it would have been without them. *)
Theorem client_isolation (rl : RateLimiter) (key1 key2 tier : string)
    (calls1 : list call) (db : gmap string hash_entry) (fault : option exn)
    (srv : Z) (now : Q) :
  key1 ≠ key2 →
  calls_of key1 tier calls1 →
  fold_left (step rl) calls1 db !! bucket_key (config_of rl tier) key2
  = db !! bucket_key (config_of rl tier) key2
  ∧ fst (check_rate_limit rl fault srv (fold_left (step rl) calls1 db)
           key2 tier now)
    = fst (check_rate_limit rl fault srv db key2 tier now).
Proof.
  intros Hne Hcalls.
  assert (Hframe : fold_left (step rl) calls1 db
                     !! bucket_key (config_of rl tier) key2
                   = db !! bucket_key (config_of rl tier) key2).
  { apply steps_frame. intros c Hin. destruct (Hcalls c Hin) as [Hk Ht].
    unfold bucket_of. rewrite Hk, Ht. intros Heq.
    by apply bucket_key_inj in Heq. }
  split; [exact Hframe|]. by apply check_rate_limit_local.
Qed.

(** Ten calls of one address exhaust its bucket and leave the bucket of
    another address alone. *)
Lemma client_isolation_witness :
  let rl := init None in
  let calls1 := replicate 10 (Call "10.0.0.1" "free" 1000 1000000 None) in
  ("10.0.0.1"%string ≠ "10.0.0.2"%string
   ∧ calls_of "10.0.0.1" "free" calls1)
  ∧ fold_left (step rl) calls1 ∅
      !! bucket_key (config_of rl "free") "10.0.0.2"
    = (∅ : gmap string hash_entry)
        !! bucket_key (config_of rl "free") "10.0.0.2"
  ∧ fst (check_rate_limit rl None 1000000 (fold_left (step rl) calls1 ∅)
           "10.0.0.2" "free" 1000)
    = fst (check_rate_limit rl None 1000000 ∅ "10.0.0.2" "free" 1000).
Proof.
  intros rl calls1.
  assert (H1 : "10.0.0.1"%string ≠ "10.0.0.2"%string) by discriminate.
  assert (H2 : calls_of "10.0.0.1" "free" calls1).
  { intros c Hin. subst calls1. by apply elem_of_replicate in Hin as [-> _]. }
  split; [by split|].
  exact (client_isolation rl "10.0.0.1" "10.0.0.2" "free" calls1 ∅ None
           1000000 1000 H1 H2).
Defined.

End LimiterClientFacts.


(** * Further properties of the result cache *)

Module CacheApiFacts.

Import Cache CacheApi CacheFacts.

Section WithLibrary.

Context (L : pylib).

(** ** Reads are local to the key *)

Lemma get_local s1 s2 key dflt :
  up s1 = up s2 → visible s1 key = visible s2 key →
  get L s1 key dflt = get L s2 key dflt.
Proof.
  intros Hup Hv. unfold get, redis_get_text, redis_get. by rewrite Hup, Hv.
Qed.

Lemma exists_visible s key e :
  up s = true → visible s key = Some e → exists_ s key = Ok true.
Proof. intros Hup Hv. unfold exists_, redis_exists. by rewrite Hup, Hv. Qed.

Lemma exists_absent s key :
  up s = true → visible s key = None → exists_ s key = Ok false.
Proof. intros Hup Hv. unfold exists_, redis_exists. by rewrite Hup, Hv. Qed.

Lemma exists_local s1 s2 key :
  up s1 = up s2 → visible s1 key = visible s2 key →
  exists_ s1 key = exists_ s2 key.
Proof.
  intros Hup Hv. unfold exists_, redis_exists. by rewrite Hup, Hv.
Qed.

Lemma visible_at_time s t key :
  visible (at_time s t) key
  = match db s !! key with
    | Some e =>
        match deadline e with
        | None => Some e
        | Some d => if (t <=? d)%Z then Some e else None
        end
    | None => None
    end.
Proof.
  unfold visible, live. cbn.
  destruct (db s !! key) as [e|]; [|done]. by destruct (deadline e).
Qed.

(** What [set] leaves as it was: the clock, and every other key. *)
Lemma set_clock default_ttl s key value ttl :
  clock (snd (set L default_ttl s key value ttl)) = clock s.
Proof.
  unfold set, redis_set.
  destruct (json_dumps L value) as [serialized|e]; [|done].
  by repeat case_match; simplify_eq.
Qed.

Lemma set_frame default_ttl s key value ttl key' :
  key' ≠ key →
  db (snd (set L default_ttl s key value ttl)) !! key' = db s !! key'.
Proof.
  intros Hne. unfold set, redis_set.
  destruct (json_dumps L value) as [serialized|e]; [|done].
  destruct (up s); [|done].
  destruct (0 <? default default_ttl ttl)%Z; [|done].
  cbn. by rewrite lookup_insert_ne.
Qed.

(** ** Expiry *)

(** X9.  An entry lives through its TTL and no longer: after [set] has
    stored a value the structured encoder accepts, with an integer TTL the
    server accepts, [exists] answers true at every server time up to and
    including the deadline (the time of the write plus 1000 times the TTL,
    in milliseconds); once the clock has passed the deadline, [exists]
    answers false and [get] returns the default of the caller. *)
Theorem entry_expires (default_ttl : Z) (s : server) (key : string)
    (value dflt : pyobj) (ttl : option Z) (text : string) (t : Z) :
  up s = true → expiry_accepted s (default default_ttl ttl) →
  json_dumps L value = Ok text →
  let stored := snd (set L default_ttl s key value ttl) in
  let expiry := (clock s + 1000 * default default_ttl ttl)%Z in
  ((t ≤ expiry)%Z → exists_ (at_time stored t) key = Ok true)
  ∧ ((expiry < t)%Z →
     exists_ (at_time stored t) key = Ok false
     ∧ get L (at_time stored t) key dflt = Ok dflt).
Proof.
  intros Hup [[Httl _] _] Hd stored expiry. subst stored.
  rewrite (set_structured L _ _ _ _ _ _ Hup Httl Hd). cbn [snd].
  set (stored := with_db s _).
  assert (Hv : visible (at_time stored t) key
               = if (t <=? expiry)%Z
                 then Some (StringEntry text (Some expiry)) else None).
  { rewrite visible_at_time. subst stored. cbn.
    by rewrite lookup_insert_eq. }
  split; intros Ht.
  - apply Z.leb_le in Ht. rewrite Ht in Hv.
    by eapply exists_visible.
  - apply Z.leb_gt in Ht. rewrite Ht in Hv. split.
    + by apply exists_absent.
    + by apply get_absent.
Qed.

(** ** Writes are local to the key *)

(** X10.  [set] touches no other key: whatever it does with the value
    (stores it, or raises), a read of another key and a test of its
    existence give afterwards what they gave before. *)
Theorem set_keeps_other_keys (default_ttl : Z) (s : server)
    (key key' : string) (value dflt : pyobj) (ttl : option Z) (t : Z) :
  key' ≠ key →
  let stored := snd (set L default_ttl s key value ttl) in
  get L (at_time stored t) key' dflt = get L (at_time s t) key' dflt
  ∧ exists_ (at_time stored t) key' = exists_ (at_time s t) key'.
Proof.
  intros Hne stored.
  assert (Hup : up (at_time stored t) = up (at_time s t)).
  { cbn. subst stored. apply set_up. }
  assert (Hv : visible (at_time stored t) key' = visible (at_time s t) key').
  { rewrite !visible_at_time. subst stored. by rewrite set_frame. }
  split; [by apply get_local|by apply exists_local].
Qed.

(** ** [clear] *)

(** X11.  After [clear] no key is left: every read returns the default of
    the caller and every test of existence answers false. *)
Theorem clear_empties (s : server) (key : string) (dflt : pyobj) (t : Z) :
  up s = true →
  fst (clear s) = Ok ()
  ∧ get L (at_time (snd (clear s)) t) key dflt = Ok dflt
  ∧ exists_ (at_time (snd (clear s)) t) key = Ok false.
Proof.
  intros Hup. unfold clear. rewrite Hup. cbn [fst snd].
  assert (Hv : visible (at_time (with_db s ∅) t) key = None).
  { by rewrite visible_at_time. }
  split_and!; [done|by apply get_absent|by apply exists_absent].
Qed.

(** ** [get_many] *)

Lemma collect_Forall2 {A B} (f : A → result B) (xs : list A) (ys : list B) :
  collect f xs = Ok ys → Forall2 (λ x y, f x = Ok y) xs ys.
Proof.
  revert ys. induction xs as [|x xs IH]; intros ys; cbn.
  - intros [= <-]. constructor.
  - destruct (f x) as [y|e] eqn:Hx; cbn; [|done].
    destruct (collect f xs) as [ys'|e] eqn:Hc; cbn; [|done].
    intros [= <-]. constructor; [done|]. by apply IH.
Qed.

Lemma execute_gets_collect s queue :
  execute_gets L s queue = collect (redis_get_text L s) queue.
Proof. by destruct queue. Qed.

Lemma get_text_None s key dflt :
  redis_get_text L s key = Ok None → get L s key dflt = Ok dflt.
Proof. intros H. unfold get. by rewrite H. Qed.

(** One turn of the loop of [get_many] on a key the pipeline found. *)
Lemma get_many_turn s key text (acc acc' : gmap string pyobj) :
  redis_get_text L s key = Ok (Some text) →
  try_except
    (v ← json_loads L text; Ok (<[key := v]> acc))
    ["JSONDecodeError"]
    (λ _,
       binary_value ← redis_get s key;
       match binary_value with
       | Some b => v ← pickle_loads L b; Ok (<[key := v]> acc)
       | None => Ok acc
       end) = Ok acc' →
  ∃ v, acc' = <[key := v]> acc ∧ ∀ dflt, get L s key dflt = Ok v.
Proof.
  intros Htext. unfold get. rewrite Htext. cbn.
  unfold redis_get_text in Htext.
  destruct (redis_get s key) as [[b|]|e] eqn:Hb; cbn in Htext; [|done..].
  unfold try_except.
  destruct (json_loads L text) as [v|err]; cbn.
  - intros [= <-]. by exists v.
  - destruct (isinstance err _); [|done].
    destruct (pickle_loads L b) as [v|e']; cbn; [|done].
    intros [= <-]. by exists v.
Qed.

Lemma get_many_loop_spec s pairs (acc m : gmap string pyobj) :
  Forall (λ kv, redis_get_text L s (fst kv) = Ok (snd kv)) pairs →
  get_many_loop L s pairs acc = Ok m →
  (∀ k v, acc !! k = Some v → ∀ dflt, get L s k dflt = Ok v) →
  (∀ k v, m !! k = Some v → ∀ dflt, get L s k dflt = Ok v)
  ∧ (∀ k, m !! k = None →
          acc !! k = None
          ∧ (k ∈ pairs.*1 → ∀ dflt, get L s k dflt = Ok dflt))
  ∧ (∀ k, k ∉ pairs.*1 → m !! k = acc !! k).
Proof.
  revert acc. induction pairs as [|[key [text|]] pairs IH];
    intros acc Hall Hloop Hacc.
  - cbn in Hloop. simplify_eq. split_and!; [done| |done].
    intros k Hk. split; [done|]. by intros ?%elem_of_nil.
  - apply Forall_cons in Hall as [Hkey Hall]. cbn [fst snd] in Hkey.
    cbn [get_many_loop] in Hloop.
    match type of Hloop with
    | mbind _ ?turn = _ => destruct turn as [acc'|e] eqn:Hturn; [|done]
    end.
    cbn in Hloop.
    destruct (get_many_turn _ _ _ _ _ Hkey Hturn) as (v & -> & Hget).
    destruct (IH _ Hall Hloop) as (Hsome & Hnone & Hout).
    { intros k v' [[<- <-]|[Hne Hk]]%lookup_insert_Some; [done|eauto]. }
    split_and!; [done| |].
    + intros k Hk. destruct (Hnone k Hk) as [Hins Hin].
      apply lookup_insert_None in Hins as [Hacck Hne]. split; [done|].
      cbn. intros [->|Hin']%elem_of_cons; [done|by apply Hin].
    + intros k Hk. cbn in Hk. apply not_elem_of_cons in Hk as [Hne Hk].
      rewrite (Hout k Hk). by rewrite lookup_insert_ne.
  - apply Forall_cons in Hall as [Hkey Hall]. cbn [fst snd] in Hkey.
    cbn [get_many_loop] in Hloop.
    destruct (IH _ Hall Hloop Hacc) as (Hsome & Hnone & Hout).
    split_and!; [done| |].
    + intros k Hk. destruct (Hnone k Hk) as [Hacck Hin]. split; [done|].
      cbn. intros [->|Hin']%elem_of_cons; [|by apply Hin].
      intros dflt. by apply get_text_None.
    + intros k Hk. cbn in Hk. apply not_elem_of_cons in Hk as [Hne Hk].
      by apply Hout.
Qed.

Lemma Forall2_zip {A B} (P : A → B → Prop) (xs : list A) (ys : list B) :
  Forall2 P xs ys →
  Forall (λ xy, P (fst xy) (snd xy)) (zip xs ys) ∧ (zip xs ys).*1 = xs.
Proof.
  induction 1 as [|x y xs ys Hxy _ [IH1 IH2]]; cbn; [done|].
  split; [by constructor|by rewrite IH2].
Qed.

(** X12.  [get_many] agrees with [get]: when it returns a dictionary, a
    key of the request that is in the dictionary has the value [get]
    returns for it, a key of the request that is not in the dictionary is
    one for which [get] returns the default, and the dictionary has no
    other keys. *)
Theorem get_many_agrees_with_get (s : server) (keys : list string)
    (m : gmap string pyobj) :
  get_many L s keys = Ok m →
  ∀ k, (k ∈ keys → ∀ dflt, get L s k dflt = Ok (default dflt (m !! k)))
       ∧ (k ∉ keys → m !! k = None).
Proof.
  unfold get_many. rewrite execute_gets_collect.
  destruct (collect _ keys) as [values|e] eqn:Hc; cbn; [|done].
  intros Hloop.
  apply collect_Forall2 in Hc. apply Forall2_zip in Hc as [Hall Hfst].
  destruct (get_many_loop_spec _ _ _ _ Hall Hloop) as (Hsome & Hnone & Hout);
    [done|].
  rewrite Hfst in Hnone, Hout.
  intros k. split.
  - intros Hk dflt. destruct (m !! k) as [v|] eqn:Hm; cbn.
    + by apply (Hsome k).
    + by apply (Hnone k Hm).
  - intros Hk. by rewrite (Hout k Hk).
Qed.

(** ** [set_many] *)

Lemma set_many_loop_rejected items json_queue binary_queue key value e :
  (key, value) ∈ items → json_dumps L value = Raise e →
  ∃ e0, set_many_loop L items json_queue binary_queue
        = Raise (raise_from e0 AttributeError).
Proof.
  revert json_queue binary_queue.
  induction items as [|[k v] items IH]; intros json_queue binary_queue Hin Hd.
  - by apply elem_of_nil in Hin.
  - cbn [set_many_loop].
    destruct (json_dumps L v) as [text|e'] eqn:Hv.
    + apply elem_of_cons in Hin as [[= -> ->]|Hin]; [congruence|].
      by apply IH.
    + by exists e'.
Qed.

(** X13.  [set_many] stores all of the mapping or nothing: when the
    structured encoder rejects one of the values, the call raises the
    [AttributeError] of its [except] clause before either pipeline is
    executed, and no entry of the mapping is stored, the ones that come
    before the rejected value included. *)
Theorem set_many_all_or_nothing (default_ttl : Z) (s : server)
    (mapping : list (string * pyobj)) (ttl : option Z) (key : string)
    (value : pyobj) (e : exn) :
  (key, value) ∈ mapping → json_dumps L value = Raise e →
  snd (set_many L default_ttl s mapping ttl) = s
  ∧ ∃ e0, fst (set_many L default_ttl s mapping ttl)
          = Raise (raise_from e0 AttributeError).
Proof.
  intros Hin Hd. unfold set_many.
  destruct (set_many_loop_rejected _ [] [] _ _ _ Hin Hd) as [e0 ->].
  split; [done|by exists e0].
Qed.

Lemma set_many_loop_accepted items json_queue binary_queue :
  (∀ k v, (k, v) ∈ items → ∃ text, json_dumps L v = Ok text) →
  ∃ queue,
    set_many_loop L items json_queue binary_queue
    = Ok (json_queue ++ queue, binary_queue)
    ∧ Forall2 (λ kv x, fst x = fst kv ∧ json_dumps L (snd kv) = Ok (snd x))
        items queue.
Proof.
  revert json_queue.
  induction items as [|[k v] items IH]; intros json_queue Hall.
  - exists []. by rewrite app_nil_r.
  - destruct (Hall k v) as [text Hd]; [left|].
    destruct (IH (json_queue ++ [(k, text)])) as (queue & Hloop & Hq).
    { intros k' v' Hin. apply (Hall k' v'). by right. }
    exists ((k, text) :: queue). cbn [set_many_loop]. rewrite Hd, Hloop.
    rewrite <- app_assoc. split; [done|]. by constructor.
Qed.

Lemma fold_sets_notin (queue : list (string * string)) (dl : option Z)
    (d0 : gmap string string_entry) (k : string) :
  k ∉ queue.*1 →
  fold_left (λ d kv, <[fst kv := StringEntry (snd kv) dl]> d) queue d0 !! k
  = d0 !! k.
Proof.
  revert d0. induction queue as [|[k0 x0] queue IH]; intros d0 Hk; [done|].
  cbn in Hk. apply not_elem_of_cons in Hk as [Hne Hk].
  cbn. rewrite IH by done. by rewrite lookup_insert_ne.
Qed.

Lemma fold_sets_lookup (queue : list (string * string)) (dl : option Z)
    (d0 : gmap string string_entry) (k x : string) :
  NoDup queue.*1 → (k, x) ∈ queue →
  fold_left (λ d kv, <[fst kv := StringEntry (snd kv) dl]> d) queue d0 !! k
  = Some (StringEntry x dl).
Proof.
  revert d0. induction queue as [|[k0 x0] queue IH]; intros d0 Hnd Hin.
  - by apply elem_of_nil in Hin.
  - cbn in Hnd. apply NoDup_cons in Hnd as [Hk0 Hnd].
    apply elem_of_cons in Hin as [[= -> ->]|Hin]; cbn.
    + rewrite fold_sets_notin by done. by rewrite lookup_insert_eq.
    + by apply IH.
Qed.

Lemma execute_sets_up s queue ex :
  up s = true → (0 < ex)%Z →
  execute_sets s queue ex
  = (Ok (),
     with_db s
       (fold_left
          (λ d kv, <[fst kv := StringEntry (snd kv)
                                 (Some (clock s + 1000 * ex)%Z)]> d)
          queue (db s))).
Proof.
  intros Hup Hex. unfold execute_sets. rewrite Hup.
  apply Z.ltb_lt in Hex. rewrite Hex.
  destruct queue; [|done]. by destruct s.
Qed.

(** X14.  Round trip of [set_many]: when the mapping has values the
    structured encoder accepts and the structured decoder maps back, the
    store is reachable and the TTL is an integer the server accepts, every
    key of the mapping reads back, by [get] before the TTL has expired, the
    value the mapping gives it.  (The keys of a dictionary are distinct.) *)
Theorem set_many_roundtrip (default_ttl : Z) (s : server)
    (mapping : list (string * pyobj)) (ttl : option Z) (dflt : pyobj) (t : Z) :
  up s = true → expiry_accepted s (default default_ttl ttl) →
  NoDup mapping.*1 →
  (∀ k v, (k, v) ∈ mapping →
     ∃ text, json_dumps L v = Ok text ∧ utf8_decode L text = Ok text
             ∧ json_loads L text = Ok v) →
  (t < clock s + 1000 * default default_ttl ttl)%Z →
  fst (set_many L default_ttl s mapping ttl) = Ok ()
  ∧ ∀ k v, (k, v) ∈ mapping →
      get L (at_time (snd (set_many L default_ttl s mapping ttl)) t) k dflt
      = Ok v.
Proof.
  intros Hup [[Httl _] _] Hnd Hall Ht. unfold set_many.
  destruct (set_many_loop_accepted mapping [] []) as (queue & -> & Hq).
  { intros k v Hin. destruct (Hall k v Hin) as (text & Hd & _). eauto. }
  cbn [app]. rewrite (execute_sets_up _ _ _ Hup Httl).
  rewrite execute_sets_up by done. cbn [fst snd fold_left].
  split; [done|]. intros k v Hin.
  destruct (Hall k v Hin) as (text & Hd & Hu & Hl).
  assert (Hkeys : queue.*1 = mapping.*1).
  { clear -Hq. induction Hq as [|[k v] [k' x] ?? [Hk _] _ IH]; [done|].
    cbn in *. by rewrite Hk, IH. }
  assert (Hinq : (k, text) ∈ queue).
  { clear -Hq Hin Hd. induction Hq as [|[k0 v0] [k' x] ?? [Hk Hx] _ IH].
    - by apply elem_of_nil in Hin.
    - cbn in Hk, Hx. subst k'.
      apply elem_of_cons in Hin as [[= -> ->]|Hin].
      + assert (x = text) as -> by congruence. left.
      + right. by apply IH. }
  rewrite (get_visible L _ k dflt
             (StringEntry text
                (Some (clock s + 1000 * default default_ttl ttl)%Z)) text);
    [by rewrite Hl|done| |exact Hu].
  rewrite visible_at_time. cbn [db with_db].
  rewrite (fold_sets_lookup queue _ _ k text) by (by rewrite ?Hkeys).
  cbn. by rewrite (proj2 (Z.leb_le _ _)) by lia.
Qed.

(** ** [delete_many] *)

Lemma fold_deletes_lookup (queue : list string)
    (d0 : gmap string string_entry) (k : string) :
  fold_left (λ d k', base.delete k' d) queue d0 !! k
  = if bool_decide (k ∈ queue) then None else d0 !! k.
Proof.
  revert d0. induction queue as [|k0 queue IH]; intros d0; [done|].
  cbn. rewrite IH.
  destruct (decide (k = k0)) as [->|Hne].
  - rewrite lookup_delete_eq.
    rewrite (bool_decide_eq_true_2 (k0 ∈ k0 :: queue)) by left.
    by case_bool_decide.
  - rewrite lookup_delete_ne by done.
    destruct (decide (k ∈ queue)) as [Hin|Hin].
    + rewrite (bool_decide_eq_true_2 (k ∈ queue)) by done.
      by rewrite (bool_decide_eq_true_2 (k ∈ k0 :: queue)) by (by right).
    + rewrite (bool_decide_eq_false_2 (k ∈ queue)) by done.
      rewrite (bool_decide_eq_false_2 (k ∈ k0 :: queue)); [done|].
      by intros [?|?]%elem_of_cons.
Qed.

Lemma execute_deletes_up s queue :
  up s = true →
  execute_deletes s queue
  = (Ok (), with_db s (fold_left (λ d k, base.delete k d) queue (db s))).
Proof.
  intros Hup. unfold execute_deletes. rewrite Hup.
  destruct queue; [|done]. by destruct s.
Qed.

(** X15.  With the store reachable, [delete_many] returns, after it every
    key of the list reads as absent ([get] returns the default of the
    caller, [exists] answers false), and every key that is not in the list
    reads as before. *)
Theorem delete_many_removes (s : server) (keys : list string) (dflt : pyobj)
    (t : Z) :
  up s = true →
  let deleted := snd (delete_many s keys) in
  fst (delete_many s keys) = Ok ()
  ∧ (∀ k, k ∈ keys →
          get L (at_time deleted t) k dflt = Ok dflt
          ∧ exists_ (at_time deleted t) k = Ok false)
  ∧ (∀ k, k ∉ keys →
          get L (at_time deleted t) k dflt = get L (at_time s t) k dflt
          ∧ exists_ (at_time deleted t) k = exists_ (at_time s t) k).
Proof.
  intros Hup deleted. subst deleted. unfold delete_many.
  rewrite (execute_deletes_up _ _ Hup). rewrite execute_deletes_up by done.
  cbn [fst snd]. split; [done|].
  set (d := fold_left _ keys (db (with_db s _))).
  assert (Hd : ∀ k, d !! k = if bool_decide (k ∈ keys) then None else db s !! k).
  { intros k. subst d. rewrite fold_deletes_lookup. cbn [db with_db].
    rewrite fold_deletes_lookup. by case_bool_decide. }
  split; intros k Hk.
  - assert (Hv : visible (at_time (with_db (with_db s
                   (fold_left (λ d k, base.delete k d) keys (db s))) d) t) k
                 = None).
    { rewrite visible_at_time. cbn [db with_db]. rewrite Hd.
      by rewrite bool_decide_eq_true_2. }
    split; [by apply get_absent|by apply exists_absent].
  - assert (Hv : visible (at_time (with_db (with_db s
                   (fold_left (λ d k, base.delete k d) keys (db s))) d) t) k
                 = visible (at_time s t) k).
    { rewrite !visible_at_time. cbn [db with_db]. rewrite Hd.
      by rewrite bool_decide_eq_false_2. }
    split; [by apply get_local|by apply exists_local].
Qed.

(** ** The [cached] decorator *)

Context (digest_args : list pyobj → string).
Context (digest_kwargs : list (string * pyobj) → string).

(** X16.  Memoisation: when the wrapper finds nothing under its key, the
    function returns a value other than [None] that the structured encoder
    accepts and the decoder maps back, the store is reachable and the TTL
    of the decorator is an integer the server accepts (or none, which
    stands for an hour), the wrapper calls the function once, returns its
    value and stores it; a call with the same arguments before the TTL has
    expired returns that value and does not call the function, whatever it
    would return now. *)
Theorem cached_memoises (ttl : option Z) (key_prefix name : string)
    (func : list pyobj → list (string * pyobj) → result pyobj)
    (s : server) (args : list pyobj) (kwargs : list (string * pyobj))
    (r : pyobj) (text : string) (t : Z) :
  up s = true → expiry_accepted s (default 3600%Z ttl) →
  get L s (wrapper_key digest_args digest_kwargs key_prefix name args kwargs)
    PyNone = Ok PyNone →
  func args kwargs = Ok r → r ≠ PyNone →
  json_dumps L r = Ok text → utf8_decode L text = Ok text →
  json_loads L text = Ok r →
  (t < clock s + 1000 * default 3600 ttl)%Z →
  ∃ s1,
    cached L digest_args digest_kwargs ttl key_prefix name func s args kwargs
    = (Ok r, s1, 1%nat)
    ∧ ∀ func',
        cached L digest_args digest_kwargs ttl key_prefix name func'
          (at_time s1 t) args kwargs
        = (Ok r, at_time s1 t, 0%nat).
Proof.
  intros Hup [[Httl _] _] Hmiss Hf Hr Hd Hu Hl Ht.
  unfold cached. rewrite Hmiss, Hf.
  rewrite (set_structured L _ _ _ _ _ _ Hup Httl Hd).
  eexists. split; [reflexivity|]. intros func'.
  rewrite (get_visible L _ _ PyNone
             (StringEntry text (Some (clock s + 1000 * default 3600 ttl)%Z))
             text); [|done| |exact Hu].
  - rewrite Hl. by destruct r.
  - rewrite visible_at_time. cbn [db with_db]. rewrite lookup_insert_eq.
    cbn. by rewrite (proj2 (Z.leb_le _ _)) by lia.
Qed.

(** X17.  A result that is [None] is stored and never served: after a call
    in which the function returned [None] (encoded and decoded as [None] by
    the structured pair), a call with the same arguments finds the entry,
    takes it for a miss and calls the function again. *)
Theorem cached_None_recomputed (ttl : option Z) (key_prefix name : string)
    (func func' : list pyobj → list (string * pyobj) → result pyobj)
    (s : server) (args : list pyobj) (kwargs : list (string * pyobj))
    (text : string) (t : Z) :
  up s = true → (0 < default 3600 ttl)%Z →
  get L s (wrapper_key digest_args digest_kwargs key_prefix name args kwargs)
    PyNone = Ok PyNone →
  func args kwargs = Ok PyNone →
  json_dumps L PyNone = Ok text → utf8_decode L text = Ok text →
  json_loads L text = Ok PyNone →
  (t < clock s + 1000 * default 3600 ttl)%Z →
  ∃ s1,
    cached L digest_args digest_kwargs ttl key_prefix name func s args kwargs
    = (Ok PyNone, s1, 1%nat)
    ∧ exists_ (at_time s1 t)
        (wrapper_key digest_args digest_kwargs key_prefix name args kwargs)
      = Ok true
    ∧ snd (cached L digest_args digest_kwargs ttl key_prefix name func'
             (at_time s1 t) args kwargs) = 1%nat.
Proof.
  intros Hup Httl Hmiss Hf Hd Hu Hl Ht.
  unfold cached. rewrite Hmiss, Hf.
  rewrite (set_structured L _ _ _ _ _ _ Hup Httl Hd).
  eexists. split; [reflexivity|].
  set (key := wrapper_key _ _ _ _ _ _).
  assert (Hv : visible (at_time (with_db s (<[key := StringEntry text
                 (Some (clock s + 1000 * default 3600 ttl)%Z)]> (db s))) t) key
               = Some (StringEntry text
                         (Some (clock s + 1000 * default 3600 ttl)%Z))).
  { rewrite visible_at_time. cbn [db with_db]. rewrite lookup_insert_eq.
    cbn. by rewrite (proj2 (Z.leb_le _ _)) by lia. }
  split; [by eapply exists_visible|].
  rewrite (get_visible L _ _ PyNone
             (StringEntry text (Some (clock s + 1000 * default 3600 ttl)%Z))
             text); [|done|exact Hv|exact Hu].
  rewrite Hl.
  destruct (func' args kwargs) as [r'|e]; [|done].
  by destruct (set L 3600 _ key r' ttl) as [[u|e] s'].
Qed.

(** X18.  A function whose result the structured encoder rejects fails
    under the decorator although it returned: the wrapper calls it, then
    raises the [AttributeError] of [set] in place of the result, and
    stores nothing, so that every later call does the same. *)
Theorem cached_unencodable_raises (ttl : option Z) (key_prefix name : string)
    (func : list pyobj → list (string * pyobj) → result pyobj)
    (s : server) (args : list pyobj) (kwargs : list (string * pyobj))
    (r : pyobj) (e : exn) :
  get L s (wrapper_key digest_args digest_kwargs key_prefix name args kwargs)
    PyNone = Ok PyNone →
  func args kwargs = Ok r → json_dumps L r = Raise e →
  cached L digest_args digest_kwargs ttl key_prefix name func s args kwargs
  = (Raise (raise_from e AttributeError), s, 1%nat).
Proof.
  intros Hmiss Hf Hd. unfold cached. rewrite Hmiss, Hf.
  by rewrite (set_rejected L _ _ _ _ _ _ Hd).
Qed.

(** ** [ModelCache] *)

Context (digest : pyobj → string).

Lemma length_app (s1 s2 : string) :
  String.length (s1 +:+ s2) = (String.length s1 + String.length s2)%nat.
Proof.
  induction s1 as [|a s1 IH]; [done|].
  change (S (String.length (s1 +:+ s2))
          = S (String.length s1 + String.length s2)).
  by rewrite IH.
Qed.

Lemma app_inj_length (s1 s2 t1 t2 : string) :
  String.length s1 = String.length s2 →
  s1 +:+ t1 = s2 +:+ t2 → s1 = s2 ∧ t1 = t2.
Proof.
  revert s2. induction s1 as [|a s1 IH]; intros [|b s2]; cbn; try done.
  intros [= Hlen] [= -> Happ]. destruct (IH s2 Hlen Happ) as [-> ->]. done.
Qed.

(** The key determines the model and the digest, for digests of one
    length (the hexadecimal MD5 digest has 32 characters). *)
Lemma prediction_key_inj model1 model2 input1 input2 :
  String.length (digest input1) = String.length (digest input2) →
  _get_prediction_key digest model1 input1
  = _get_prediction_key digest model2 input2 →
  model1 = model2 ∧ digest input1 = digest input2.
Proof.
  intros Hlen Hkey. unfold _get_prediction_key in Hkey.
  apply (app_inj_length "model:" "model:") in Hkey as [_ Hkey]; [|done].
  assert (Hm : String.length model1 = String.length model2).
  { apply (f_equal String.length) in Hkey. rewrite !length_app in Hkey.
    cbn in Hkey. lia. }
  apply app_inj_length in Hkey as [-> Hkey]; [|done].
  apply (app_inj_length ":prediction:" ":prediction:") in Hkey as [_ Hkey];
    done.
Qed.

(** X19.  Predictions are kept per model: a prediction stored for a model
    and an input is returned for that model and input until the TTL
    expires, and storing it changes nothing in what is returned for any
    other model, whatever the input (digests having one length, as MD5
    digests have). *)
Theorem predictions_per_model (ttl : Z) (s : server) (model_name : string)
    (input_data prediction : pyobj) (text : string) (t : Z) :
  up s = true → (0 < ttl)%Z →
  json_dumps L prediction = Ok text → utf8_decode L text = Ok text →
  json_loads L text = Ok prediction →
  (t < clock s + 1000 * ttl)%Z →
  (∀ x y, String.length (digest x) = String.length (digest y)) →
  let stored :=
    snd (set_model_prediction L digest ttl s model_name input_data prediction) in
  get_model_prediction L digest (at_time stored t) model_name input_data
  = Ok prediction
  ∧ ∀ other input,
      other ≠ model_name →
      get_model_prediction L digest (at_time stored t) other input
      = get_model_prediction L digest (at_time s t) other input.
Proof.
  intros Hup Httl Hd Hu Hl Ht Hlen stored. subst stored.
  unfold get_model_prediction, set_model_prediction. split.
  - rewrite (set_structured L ttl s _ prediction None text Hup Httl Hd).
    cbn [snd].
    rewrite (get_visible L _ _ PyNone
               (StringEntry text (Some (clock s + 1000 * ttl)%Z)) text);
      [by rewrite Hl|done| |exact Hu].
    rewrite visible_at_time. cbn [db with_db default from_option id].
    rewrite lookup_insert_eq. cbn. by rewrite (proj2 (Z.leb_le _ _)) by lia.
  - intros other input Hne. apply get_local.
    + cbn. apply set_up.
    + rewrite !visible_at_time. rewrite set_frame; [done|].
      intros Hkey. apply prediction_key_inj in Hkey as [? _]; [done|].
      apply Hlen.
Qed.

(** ** Failures *)

(** X27.  Whatever goes wrong in [set], the caller sees an
    [AttributeError]: the store being unreachable, the server refusing the
    expiry, the encoder rejecting the value all end in the evaluation of
    the [except] clause, which raises; the failure that caused it is kept
    as the context, and the store is as it was. *)
Theorem set_failures_are_AttributeError (default_ttl : Z) (s : server)
    (key : string) (value : pyobj) (ttl : option Z) (e : exn) :
  fst (set L default_ttl s key value ttl) = Raise e →
  snd (set L default_ttl s key value ttl) = s
  ∧ ∃ cause, e = raise_from cause AttributeError
             ∧ (json_dumps L value = Raise cause
                ∨ (up s = false ∧ cause = ConnectionError)
                ∨ ((default default_ttl ttl ≤ 0)%Z ∧ cause = ResponseError)).
Proof.
  unfold set, redis_set.
  destruct (json_dumps L value) as [serialized|cause].
  - destruct (up s).
    + destruct (0 <? default default_ttl ttl)%Z eqn:Httl; [done|].
      cbn. intros [= <-]. split; [done|]. exists ResponseError.
      split; [done|]. right. right. split; [|done]. by apply Z.ltb_ge.
    + cbn. intros [= <-]. split; [done|]. exists ConnectionError.
      split; [done|]. right. left. done.
  - cbn. intros [= <-]. split; [done|]. exists cause. split; [done|]. by left.
Qed.

(** X28.  The cache has no fallback for an unreachable store: [get],
    [exists], [clear], [delete], and [get_many] and [delete_many] of at
    least one key raise [ConnectionError] and change nothing.  The bulk
    operations on no key at all return without contacting the store. *)
Theorem outage_propagates (default_ttl : Z) (s : server) (key : string)
    (dflt : pyobj) (keys : list string) (ttl : option Z) :
  up s = false →
  get L s key dflt = Raise ConnectionError
  ∧ exists_ s key = Raise ConnectionError
  ∧ clear s = (Raise ConnectionError, s)
  ∧ delete s key = (Raise ConnectionError, s)
  ∧ (keys ≠ [] → get_many L s keys = Raise ConnectionError)
  ∧ (keys ≠ [] → delete_many s keys = (Raise ConnectionError, s))
  ∧ get_many L s [] = Ok ∅
  ∧ set_many L default_ttl s [] ttl = (Ok (), s)
  ∧ delete_many s [] = (Ok (), s).
Proof.
  intros Hup. split_and!.
  - unfold get, redis_get_text, redis_get. by rewrite Hup.
  - unfold exists_, redis_exists. by rewrite Hup.
  - unfold clear. by rewrite Hup.
  - unfold delete, redis_delete. by rewrite Hup.
  - intros Hkeys. destruct keys as [|k keys]; [done|].
    unfold get_many, execute_gets. cbn [collect].
    unfold redis_get_text, redis_get. by rewrite Hup.
  - intros Hkeys. destruct keys as [|k keys]; [done|].
    unfold delete_many, execute_deletes. by rewrite Hup.
  - done.
  - done.
  - done.
Qed.

End WithLibrary.

(** ** Instances *)

(** A session stored for a minute: there when the minute is over, gone
    one millisecond later. *)
Lemma entry_expires_witness :
  let s := Server true 0 ∅ in
  let stored :=
    snd (set Fixtures.cpython 3600 s "session" (PyInt 7) (Some 60%Z)) in
  (up s = true ∧ expiry_accepted s (default 3600%Z (Some 60%Z))
   ∧ json_dumps Fixtures.cpython (PyInt 7) = Ok "7"%string)
  ∧ (exists_ (at_time stored 60000) "session" = Ok true
     ∧ exists_ (at_time stored 60001) "session" = Ok false
     ∧ get Fixtures.cpython (at_time stored 60001) "session" (PyInt 0)
       = Ok (PyInt 0)).
Proof.
  intros s stored.
  assert (H1 : up s = true) by reflexivity.
  assert (H2 : expiry_accepted s (default 3600%Z (Some 60%Z)))
    by (vm_compute; intuition congruence).
  assert (H3 : json_dumps Fixtures.cpython (PyInt 7) = Ok "7"%string)
    by (vm_compute; reflexivity).
  split; [by split_and!|].
  destruct (entry_expires Fixtures.cpython 3600 s "session" (PyInt 7)
              (PyInt 0) (Some 60%Z) "7" 60000 H1 H2 H3) as [Hbefore _].
  destruct (entry_expires Fixtures.cpython 3600 s "session" (PyInt 7)
              (PyInt 0) (Some 60%Z) "7" 60001 H1 H2 H3) as [_ Hafter].
  split; [apply Hbefore; cbn; lia|apply Hafter; cbn; lia].
Defined.

Lemma set_keeps_other_keys_witness :
  let s := Server true 0 {[ "a"%string := StringEntry "1" None ]} in
  let stored := snd (set Fixtures.cpython 3600 s "b" (PyInt 2) None) in
  "a"%string ≠ "b"%string
  ∧ get Fixtures.cpython (at_time stored 5000) "a" PyNone
    = get Fixtures.cpython (at_time s 5000) "a" PyNone
  ∧ exists_ (at_time stored 5000) "a" = exists_ (at_time s 5000) "a".
Proof.
  intros s stored.
  assert (H : "a"%string ≠ "b"%string) by discriminate.
  split; [exact H|].
  exact (set_keeps_other_keys Fixtures.cpython 3600 s "b" "a" (PyInt 2)
           PyNone None 5000 H).
Defined.

Lemma clear_empties_witness :
  let s := Server true 0 {[ "a"%string := StringEntry "1" None ]} in
  up s = true
  ∧ fst (clear s) = Ok ()
  ∧ get Fixtures.cpython (at_time (snd (clear s)) 10) "a" PyNone = Ok PyNone
  ∧ exists_ (at_time (snd (clear s)) 10) "a" = Ok false.
Proof.
  intros s.
  assert (H : up s = true) by reflexivity.
  split; [exact H|].
  exact (clear_empties Fixtures.cpython s "a" PyNone 10 H).
Defined.

(** The keys of [test_get_many]: one that is stored and one that is
    not. *)
Lemma get_many_agrees_with_get_witness :
  let s := Server true 0 {[ "key1"%string := StringEntry "1" None ]} in
  let m : gmap string pyobj := <["key1"%string := PyInt 1]> ∅ in
  get_many Fixtures.cpython s ["key1"; "nonexistent"]%string = Ok m
  ∧ ∀ k,
      (k ∈ ["key1"; "nonexistent"]%string →
       ∀ dflt, get Fixtures.cpython s k dflt = Ok (default dflt (m !! k)))
      ∧ (k ∉ ["key1"; "nonexistent"]%string → m !! k = None).
Proof.
  intros s m.
  assert (H : get_many Fixtures.cpython s ["key1"; "nonexistent"]%string
              = Ok m) by (vm_compute; reflexivity).
  split; [exact H|].
  exact (get_many_agrees_with_get Fixtures.cpython s
           ["key1"; "nonexistent"]%string m H).
Defined.

(** A mapping whose second value is an instance of a user-defined class:
    the first value is not stored either. *)
Lemma set_many_all_or_nothing_witness :
  let s := Server true 0 ∅ in
  let obj := PyInstance "CustomObject" [("value"%string, PyInt 42)] in
  let mapping := [("key1"%string, PyInt 1); ("key2"%string, obj)] in
  ((("key2"%string, obj) ∈ mapping)
   ∧ json_dumps Fixtures.cpython obj = Raise TypeError)
  ∧ snd (set_many Fixtures.cpython 3600 s mapping None) = s
  ∧ ∃ e0, fst (set_many Fixtures.cpython 3600 s mapping None)
          = Raise (raise_from e0 AttributeError).
Proof.
  intros s obj mapping.
  assert (H1 : ("key2"%string, obj) ∈ mapping) by (right; left).
  assert (H2 : json_dumps Fixtures.cpython obj = Raise TypeError)
    by reflexivity.
  split; [by split|].
  exact (set_many_all_or_nothing Fixtures.cpython 3600 s mapping None
           "key2" obj TypeError H1 H2).
Defined.

(** The shape of [test_set_many], with integers for values. *)
Lemma set_many_roundtrip_witness :
  let s := Server true 0 ∅ in
  let mapping := [("set_many1"%string, PyInt 1); ("set_many2"%string, PyInt 2)] in
  (up s = true ∧ expiry_accepted s (default 3600%Z None)
   ∧ NoDup mapping.*1
   ∧ (∀ k v, (k, v) ∈ mapping →
        ∃ text, json_dumps Fixtures.cpython v = Ok text
                ∧ utf8_decode Fixtures.cpython text = Ok text
                ∧ json_loads Fixtures.cpython text = Ok v)
   ∧ (1000 < clock s + 1000 * default 3600 None)%Z)
  ∧ fst (set_many Fixtures.cpython 3600 s mapping None) = Ok ()
  ∧ ∀ k v, (k, v) ∈ mapping →
      get Fixtures.cpython
        (at_time (snd (set_many Fixtures.cpython 3600 s mapping None)) 1000)
        k PyNone
      = Ok v.
Proof.
  intros s mapping.
  assert (H1 : up s = true) by reflexivity.
  assert (H2 : expiry_accepted s (default 3600%Z None))
    by (vm_compute; intuition congruence).
  assert (H3 : NoDup mapping.*1).
  { cbn. apply NoDup_cons. split; [|apply NoDup_singleton].
    intros Hin. apply list_elem_of_singleton in Hin. discriminate. }
  assert (H4 : ∀ k v, (k, v) ∈ mapping →
             ∃ text, json_dumps Fixtures.cpython v = Ok text
                     ∧ utf8_decode Fixtures.cpython text = Ok text
                     ∧ json_loads Fixtures.cpython text = Ok v).
  { intros k v Hin. subst mapping.
    apply elem_of_cons in Hin as [[= -> ->]|Hin];
      [exists "1"%string; split_and!; vm_compute; reflexivity|].
    apply list_elem_of_singleton in Hin as [= -> ->].
    exists "2"%string; split_and!; vm_compute; reflexivity. }
  assert (H5 : (1000 < clock s + 1000 * default 3600 None)%Z) by (cbn; lia).
  split; [by split_and!|].
  exact (set_many_roundtrip Fixtures.cpython 3600 s mapping None PyNone 1000
           H1 H2 H3 H4 H5).
Defined.

(** The keys of [test_delete_many], beside one that stays. *)
Lemma delete_many_removes_witness :
  let s := Server true 0
             (<["del1"%string := StringEntry "1" None]>
              (<["del2"%string := StringEntry "2" None]>
               {[ "kept"%string := StringEntry "3" None ]})) in
  let deleted := snd (delete_many s ["del1"; "del2"]%string) in
  up s = true
  ∧ fst (delete_many s ["del1"; "del2"]%string) = Ok ()
  ∧ (∀ k, k ∈ ["del1"; "del2"]%string →
          get Fixtures.cpython (at_time deleted 10) k PyNone = Ok PyNone
          ∧ exists_ (at_time deleted 10) k = Ok false)
  ∧ (∀ k, k ∉ ["del1"; "del2"]%string →
          get Fixtures.cpython (at_time deleted 10) k PyNone
          = get Fixtures.cpython (at_time s 10) k PyNone
          ∧ exists_ (at_time deleted 10) k = exists_ (at_time s 10) k).
Proof.
  intros s deleted.
  assert (H : up s = true) by reflexivity.
  split; [exact H|].
  exact (delete_many_removes Fixtures.cpython s ["del1"; "del2"]%string
           PyNone 10 H).
Defined.

(** A function that returns 42, decorated with the prefix [test]: called
    once, and not again for the same argument, where it would fail. *)
Lemma cached_memoises_witness :
  let s := Server true 0 ∅ in
  let func : list pyobj → list (string * pyobj) → result pyobj :=
    λ _ _, Ok (PyInt 42) in
  let key := wrapper_key Fixtures.count_digest Fixtures.count_digest "test" "compute"
               [PyInt 1] [] in
  (up s = true ∧ expiry_accepted s (default 3600%Z (Some 60%Z))
   ∧ get Fixtures.cpython s key PyNone = Ok PyNone
   ∧ func [PyInt 1] [] = Ok (PyInt 42)
   ∧ PyInt 42 ≠ PyNone
   ∧ json_dumps Fixtures.cpython (PyInt 42) = Ok "42"%string
   ∧ utf8_decode Fixtures.cpython "42" = Ok "42"%string
   ∧ json_loads Fixtures.cpython "42" = Ok (PyInt 42)
   ∧ (30000 < clock s + 1000 * default 3600 (Some 60))%Z)
  ∧ ∃ s1,
      cached Fixtures.cpython Fixtures.count_digest Fixtures.count_digest (Some 60%Z)
        "test" "compute" func s [PyInt 1] []
      = (Ok (PyInt 42), s1, 1%nat)
      ∧ ∀ func',
          cached Fixtures.cpython Fixtures.count_digest Fixtures.count_digest (Some 60%Z)
            "test" "compute" func' (at_time s1 30000) [PyInt 1] []
          = (Ok (PyInt 42), at_time s1 30000, 0%nat).
Proof.
  intros s func key.
  assert (H1 : up s = true) by reflexivity.
  assert (H2 : expiry_accepted s (default 3600%Z (Some 60%Z)))
    by (vm_compute; intuition congruence).
  assert (H3 : get Fixtures.cpython s key PyNone = Ok PyNone)
    by (vm_compute; reflexivity).
  assert (H4 : func [PyInt 1] [] = Ok (PyInt 42)) by reflexivity.
  assert (H5 : PyInt 42 ≠ PyNone) by discriminate.
  assert (H6 : json_dumps Fixtures.cpython (PyInt 42) = Ok "42"%string)
    by (vm_compute; reflexivity).
  assert (H7 : utf8_decode Fixtures.cpython "42" = Ok "42"%string)
    by (vm_compute; reflexivity).
  assert (H8 : json_loads Fixtures.cpython "42" = Ok (PyInt 42))
    by (vm_compute; reflexivity).
  assert (H9 : (30000 < clock s + 1000 * default 3600 (Some 60))%Z)
    by (cbn; lia).
  split; [by split_and!|].
  exact (cached_memoises Fixtures.cpython Fixtures.count_digest Fixtures.count_digest
           (Some 60%Z) "test" "compute" func s [PyInt 1] [] (PyInt 42) "42"
           30000 H1 H2 H3 H4 H5 H6 H7 H8 H9).
Defined.

(** A function that returns [None]: the entry is there, and the function
    is called again. *)
Lemma cached_None_recomputed_witness :
  let s := Server true 0 ∅ in
  let func : list pyobj → list (string * pyobj) → result pyobj :=
    λ _ _, Ok PyNone in
  let key := wrapper_key Fixtures.count_digest Fixtures.count_digest "test" "lookup"
               [PyInt 1] [] in
  (up s = true ∧ (0 < default 3600 None)%Z
   ∧ get Fixtures.cpython s key PyNone = Ok PyNone
   ∧ func [PyInt 1] [] = Ok PyNone
   ∧ json_dumps Fixtures.cpython PyNone = Ok "null"%string
   ∧ utf8_decode Fixtures.cpython "null" = Ok "null"%string
   ∧ json_loads Fixtures.cpython "null" = Ok PyNone
   ∧ (30000 < clock s + 1000 * default 3600 None)%Z)
  ∧ ∃ s1,
      cached Fixtures.cpython Fixtures.count_digest Fixtures.count_digest None
        "test" "lookup" func s [PyInt 1] []
      = (Ok PyNone, s1, 1%nat)
      ∧ exists_ (at_time s1 30000) key = Ok true
      ∧ snd (cached Fixtures.cpython Fixtures.count_digest Fixtures.count_digest None
               "test" "lookup" func (at_time s1 30000) [PyInt 1] [])
        = 1%nat.
Proof.
  intros s func key.
  assert (H1 : up s = true) by reflexivity.
  assert (H2 : (0 < default 3600 None)%Z) by (cbn; lia).
  assert (H3 : get Fixtures.cpython s key PyNone = Ok PyNone)
    by (vm_compute; reflexivity).
  assert (H4 : func [PyInt 1] [] = Ok PyNone) by reflexivity.
  assert (H5 : json_dumps Fixtures.cpython PyNone = Ok "null"%string)
    by reflexivity.
  assert (H6 : utf8_decode Fixtures.cpython "null" = Ok "null"%string)
    by (vm_compute; reflexivity).
  assert (H7 : json_loads Fixtures.cpython "null" = Ok PyNone)
    by (vm_compute; reflexivity).
  assert (H8 : (30000 < clock s + 1000 * default 3600 None)%Z) by (cbn; lia).
  split; [by split_and!|].
  exact (cached_None_recomputed Fixtures.cpython Fixtures.count_digest Fixtures.count_digest
           None "test" "lookup" func func s [PyInt 1] [] "null" 30000
           H1 H2 H3 H4 H5 H6 H7 H8).
Defined.

(** A function that returns the object of [test_binary_data]. *)
Lemma cached_unencodable_raises_witness :
  let s := Server true 0 ∅ in
  let obj := PyInstance "CustomObject" [("value"%string, PyInt 42)] in
  let func : list pyobj → list (string * pyobj) → result pyobj :=
    λ _ _, Ok obj in
  let key := wrapper_key Fixtures.count_digest Fixtures.count_digest "test" "build" [] [] in
  (get Fixtures.cpython s key PyNone = Ok PyNone
   ∧ func [] [] = Ok obj
   ∧ json_dumps Fixtures.cpython obj = Raise TypeError)
  ∧ cached Fixtures.cpython Fixtures.count_digest Fixtures.count_digest None "test" "build"
      func s [] []
    = (Raise (raise_from TypeError AttributeError), s, 1%nat).
Proof.
  intros s obj func key.
  assert (H1 : get Fixtures.cpython s key PyNone = Ok PyNone)
    by (vm_compute; reflexivity).
  assert (H2 : func [] [] = Ok obj) by reflexivity.
  assert (H3 : json_dumps Fixtures.cpython obj = Raise TypeError)
    by reflexivity.
  split; [by split_and!|].
  exact (cached_unencodable_raises Fixtures.cpython Fixtures.count_digest Fixtures.count_digest
           None "test" "build" func s [] [] obj TypeError H1 H2 H3).
Defined.

Lemma flat_digest_length (x y : pyobj) :
  String.length (Fixtures.flat_digest x) = String.length (Fixtures.flat_digest y).
Proof. by destruct x, y. Qed.

(** The prediction of [test_model_prediction_cache] reduced to an integer,
    beside another model. *)
Lemma predictions_per_model_witness :
  let s := Server true 0 ∅ in
  let stored :=
    snd (set_model_prediction Fixtures.cpython Fixtures.flat_digest 3600 s
           "test_model" (PyInt 5) (PyInt 1)) in
  (up s = true ∧ (0 < 3600)%Z
   ∧ json_dumps Fixtures.cpython (PyInt 1) = Ok "1"%string
   ∧ utf8_decode Fixtures.cpython "1" = Ok "1"%string
   ∧ json_loads Fixtures.cpython "1" = Ok (PyInt 1)
   ∧ (1000 < clock s + 1000 * 3600)%Z
   ∧ (∀ x y, String.length (Fixtures.flat_digest x) = String.length (Fixtures.flat_digest y)))
  ∧ get_model_prediction Fixtures.cpython Fixtures.flat_digest (at_time stored 1000)
      "test_model" (PyInt 5)
    = Ok (PyInt 1)
  ∧ ∀ other input,
      other ≠ "test_model"%string →
      get_model_prediction Fixtures.cpython Fixtures.flat_digest (at_time stored 1000)
        other input
      = get_model_prediction Fixtures.cpython Fixtures.flat_digest (at_time s 1000)
          other input.
Proof.
  intros s stored.
  assert (H1 : up s = true) by reflexivity.
  assert (H2 : (0 < 3600)%Z) by lia.
  assert (H3 : json_dumps Fixtures.cpython (PyInt 1) = Ok "1"%string)
    by (vm_compute; reflexivity).
  assert (H4 : utf8_decode Fixtures.cpython "1" = Ok "1"%string)
    by (vm_compute; reflexivity).
  assert (H5 : json_loads Fixtures.cpython "1" = Ok (PyInt 1))
    by (vm_compute; reflexivity).
  assert (H6 : (1000 < clock s + 1000 * 3600)%Z) by (cbn; lia).
  split; [split_and!; try done; apply flat_digest_length|].
  exact (predictions_per_model Fixtures.cpython Fixtures.flat_digest 3600 s
           "test_model" (PyInt 5) (PyInt 1) "1" 1000 H1 H2 H3 H4 H5 H6
           flat_digest_length).
Defined.

(** A string stored while the store is unreachable. *)
Lemma set_failures_are_AttributeError_witness :
  let s := Server false 0 ∅ in
  fst (set Fixtures.cpython 3600 s "k" (PyInt 1) None)
  = Raise (raise_from ConnectionError AttributeError)
  ∧ snd (set Fixtures.cpython 3600 s "k" (PyInt 1) None) = s
  ∧ ∃ cause,
      raise_from ConnectionError AttributeError
      = raise_from cause AttributeError
      ∧ (json_dumps Fixtures.cpython (PyInt 1) = Raise cause
         ∨ (up s = false ∧ cause = ConnectionError)
         ∨ ((default 3600 None ≤ 0)%Z ∧ cause = ResponseError)).
Proof.
  intros s.
  assert (H : fst (set Fixtures.cpython 3600 s "k" (PyInt 1) None)
              = Raise (raise_from ConnectionError AttributeError))
    by (vm_compute; reflexivity).
  split; [exact H|].
  exact (set_failures_are_AttributeError Fixtures.cpython 3600 s "k" (PyInt 1)
           None (raise_from ConnectionError AttributeError) H).
Defined.

Lemma outage_propagates_witness :
  let s := Server false 0 {[ "a"%string := StringEntry "1" None ]} in
  up s = false
  ∧ get Fixtures.cpython s "a" PyNone = Raise ConnectionError
  ∧ exists_ s "a" = Raise ConnectionError
  ∧ clear s = (Raise ConnectionError, s)
  ∧ delete s "a" = (Raise ConnectionError, s)
  ∧ (["a"%string] ≠ [] →
     get_many Fixtures.cpython s ["a"%string] = Raise ConnectionError)
  ∧ (["a"%string] ≠ [] →
     delete_many s ["a"%string] = (Raise ConnectionError, s))
  ∧ get_many Fixtures.cpython s [] = Ok ∅
  ∧ set_many Fixtures.cpython 3600 s [] None = (Ok (), s)
  ∧ delete_many s [] = (Ok (), s).
Proof.
  intros s.
  assert (H : up s = false) by reflexivity.
  split; [exact H|].
  exact (outage_propagates Fixtures.cpython 3600 s "a" PyNone ["a"%string]
           None H).
Defined.

End CacheApiFacts.


(** * Further properties of the orchestrator *)

Module ServiceFacts.

Import Orchestrator ServiceApi OrchestratorFacts.

(** ** Results served from the cache *)

(** The dictionary of a result builds the result back. *)
Lemma from_kwargs_to_dict (r : AnalysisResult) : from_kwargs (to_dict r) = Ok r.
Proof. by destruct r. Qed.

Section Service.

Context {S : Type}.
Context (hash : string → Z).

(** A call that ran the analyses and returned has stored the dictionary
    of its result under the key of the code. *)
Lemma run_analyses_stores (cache : AsyncCache S) (telemetry : Telemetry)
    (providers : Providers) (E : env) (w w1 : world S) (code : string)
    (context : pyobj) (r : AnalysisResult) :
  run_analyses hash cache telemetry providers E w code context true
  = (Ok r, w1) →
  cache_set cache (store w) (cache_key hash code context) (to_dict r) 3600
  = (Ok (), store w1).
Proof.
  unfold run_analyses. cbv zeta.
  match goal with
  | |- match ?built with _ => _ end = _ → _ =>
      destruct built as [result|e]; [|done]
  end.
  cbn [store emit].
  destruct (cache_set cache (store w) _ (to_dict result) 3600)
    as [[[]|e] s'] eqn:Hset; [|done].
  destruct (py_len (issues result)) as [n|e]; [|done].
  destruct (record_analysis telemetry _ _ _ n) as [u|e]; [|done].
  intros [= <- <-]. done.
Qed.

(** X20.  Over a cache that returns what was last stored under a key, a
    call with [use_cache] that returned a result is repeated from the
    cache: every later call for the same code on the world it left returns
    that result and does nothing but log that the cached result is used,
    whatever the context, the analyses, the telemetry and the clock are
    then. *)
Theorem repeated_call_served_from_cache (cache : AsyncCache S)
    (telemetry : Telemetry) (providers : Providers) (E : env)
    (w w1 : world S) (code : string) (context : pyobj) (r : AnalysisResult) :
  (∀ s k v ttl s',
     cache_set cache s k v ttl = (Ok (), s') → cache_get cache s' k = Ok v) →
  analyze_code hash cache telemetry providers E w code context true
  = (Ok r, w1) →
  ∀ telemetry' providers' E' context',
    analyze_code hash cache telemetry' providers' E' w1 code context' true
    = (Ok r, emit w1 [LoggedInfo "Using cached analysis result"]).
Proof.
  intros Hlaw Hfirst telemetry' providers' E' context'.
  assert (Hhit : ∃ d, cache_get cache (store w1) (cache_key hash code context)
                      = Ok d
                      ∧ truthy d = true ∧ from_kwargs d = Ok r).
  { unfold analyze_code, check_cache in Hfirst.
    destruct (cache_get cache (store w) _) as [d|e] eqn:Hget; cbn in Hfirst;
      [|done].
    destruct (truthy d) eqn:Htruthy.
    - injection Hfirst as Hr <-. by exists d.
    - destruct (run_analyses _ _ _ _ _ _ _ _ _) as [[result|e] w'] eqn:Hrun.
      + injection Hfirst as -> ->.
        apply run_analyses_stores, Hlaw in Hrun.
        exists (to_dict r). split_and!; [done|done|apply from_kwargs_to_dict].
      + by destruct (record_error telemetry _ _). }
  destruct Hhit as (d & Hget & Htruthy & Hr).
  unfold analyze_code, check_cache.
  change (cache_key hash code context') with (cache_key hash code context).
  rewrite Hget. cbn. by rewrite Htruthy, Hr.
Qed.

(** ** Calls that do not use the cache *)

(** X21.  With [use_cache] false the cache is neither read nor written:
    the outcome is the same over any two caches, and the store is left as
    it was.  [warm_up_models] is such a call. *)
Theorem uncached_call_ignores_cache (cache cache' : AsyncCache S)
    (telemetry : Telemetry) (providers : Providers) (E : env) (w : world S)
    (code : string) (context : pyobj) :
  analyze_code hash cache telemetry providers E w code context false
  = analyze_code hash cache' telemetry providers E w code context false
  ∧ store (snd (analyze_code hash cache telemetry providers E w code context
                  false)) = store w
  ∧ warm_up_models hash cache telemetry providers E w
    = warm_up_models hash cache' telemetry providers E w
  ∧ store (snd (warm_up_models hash cache telemetry providers E w)) = store w.
Proof.
  assert (Hstore : ∀ code context,
            store (snd (analyze_code hash cache telemetry providers E w code
                          context false)) = store w).
  { intros code0 context0. unfold analyze_code, check_cache, run_analyses.
    cbv zeta.
    match goal with
    | |- context [match ?built with Ok _ => _ | Raise _ => _ end] =>
        destruct built as [result|e]
    end; cbn.
    - destruct (py_len (issues result)) as [n|e]; cbn.
      + destruct (record_analysis telemetry _ _ _ n); cbn; [done|].
        by destruct (record_error telemetry _ _).
      + by destruct (record_error telemetry _ _).
    - by destruct (record_error telemetry _ _). }
  split_and!; [done|apply Hstore|done|].
  unfold warm_up_models.
  specialize (Hstore "def hello(): return 'world'"%string PyNone).
  by destruct (analyze_code _ _ _ _ _ _ _ _ _) as [[r|e] w'].
Qed.

(** ** Completion order *)

Lemma first_failure_uniform (done_first outs : list (result pyobj)) :
  (∀ o, In o done_first → In o outs) →
  (∀ e1 e2, In (Raise e1) outs → In (Raise e2) outs → e1 = e2) →
  first_failure (done_first ++ outs) = first_failure outs.
Proof.
  intros Hsub Hone. rewrite first_failure_app.
  destruct (first_failure done_first) as [e|] eqn:Hf; [|done].
  apply first_failure_In, Hsub in Hf.
  destruct (first_failure outs) as [e'|] eqn:Hf'.
  - apply first_failure_In in Hf'. f_equal. by apply Hone.
  - by apply (first_failure_None _ e) in Hf'.
Qed.

(** X22.  The order in which the three analyses finish matters only when
    two of them fail differently: if all the failures among their outcomes
    are one and the same exception (so also when at most one fails, or
    none), two calls that differ in the order of completion only have the
    same outcome. *)
Theorem completion_order_irrelevant (cache : AsyncCache S)
    (telemetry : Telemetry) (providers : Providers) (E E' : env)
    (w : world S) (code : string) (context : pyobj) (use_cache : bool) :
  start_time E = start_time E' → end_time E = end_time E' →
  stamp E = stamp E' →
  (∀ e1 e2, In (Raise e1) (provider_outcomes providers code context) →
            In (Raise e2) (provider_outcomes providers code context) →
            e1 = e2) →
  analyze_code hash cache telemetry providers E w code context use_cache
  = analyze_code hash cache telemetry providers E' w code context use_cache.
Proof.
  intros Hs He Ht Hone.
  assert (Hg : gather (completion E) (provider_outcomes providers code context)
               = gather (completion E')
                   (provider_outcomes providers code context)).
  { unfold gather.
    rewrite !first_failure_uniform; try done; intros o; apply completed_In. }
  unfold analyze_code, run_analyses. by rewrite Hg, Hs, He, Ht.
Qed.

(** ** The cache write comes before the telemetry *)

(** The result the analyses come to does not depend on the telemetry. *)
Lemma run_analyses_built (cache : AsyncCache S) (providers : Providers)
    (E : env) (w : world S) (code : string) (context : pyobj) :
  ∃ built : result AnalysisResult,
    ∀ telemetry,
      run_analyses hash cache telemetry providers E w code context true
      = let w := emit w [Started "context"; Started "debug";
                         Started "optimization"] in
        match built with
        | Raise e => (Raise e, w)
        | Ok result =>
            let '(r, s') := cache_set cache (store w)
                              (cache_key hash code context) (to_dict result)
                              3600 in
            match r with
            | Raise e => (Raise e, World s' (trace w))
            | Ok _ =>
                match py_len (issues result) with
                | Raise e => (Raise e, World s' (trace w))
                | Ok issue_count =>
                    let code_size := Z.of_nat (String.length code) in
                    match record_analysis telemetry code_size
                            (execution_time result) (quality_score result)
                            issue_count with
                    | Raise e => (Raise e, World s' (trace w))
                    | Ok _ =>
                        (Ok result,
                         emit (World s' (trace w))
                           [RecordedAnalysis code_size (execution_time result)
                              (quality_score result) issue_count])
                    end
                end
            end
        end.
Proof.
  exists (results ← gather (completion E)
                      (provider_outcomes providers code context);
          match results with
          | [context_result; debug_result; optimization_result] =>
              quality ← py_getitem context_result "code_quality_score";
              related ← py_get context_result "related_patterns" (PyList []);
              Ok {| quality_score := quality;
                    issues := debug_result;
                    optimizations := optimization_result;
                    patterns := related;
                    execution_time := PyFloat (end_time E - start_time E);
                    timestamp := PyStr (stamp E) |}
          | _ => Raise (Exn "ValueError")
          end).
  intros telemetry. unfold run_analyses. cbv zeta.
  destruct (mbind _ _) as [result|e]; [|done].
  by destruct (cache_set cache _ _ _ _) as [[u|e] s'].
Qed.

(** X26.  The result is cached before the telemetry is recorded: if a call
    that misses the cache returns [r] when the telemetry records, then with
    any telemetry at all the call leaves [r] in the cache (one that returns
    what was last stored), so that the next call for the code returns [r],
    also when the call itself raised because [record_analysis] did. *)
Theorem result_cached_before_telemetry (cache : AsyncCache S)
    (telemetry : Telemetry) (providers : Providers) (E : env)
    (w w1 : world S) (code : string) (context : pyobj) (r : AnalysisResult) :
  (∀ s k v ttl s',
     cache_set cache s k v ttl = (Ok (), s') → cache_get cache s' k = Ok v) →
  check_cache hash cache w code context true = Ok None →
  analyze_code hash cache Fixtures.recording providers E w code context true
  = (Ok r, w1) →
  let out :=
    analyze_code hash cache telemetry providers E w code context true in
  ((∀ size seconds quality count,
      ∃ e, record_analysis telemetry size seconds quality count = Raise e) →
   ∃ e, fst out = Raise e)
  ∧ ∀ telemetry' providers' E' context',
      analyze_code hash cache telemetry' providers' E' (snd out) code context'
        true
      = (Ok r, emit (snd out) [LoggedInfo "Using cached analysis result"]).
Proof.
  intros Hlaw Hmiss Hrec out. subst out.
  unfold analyze_code in Hrec |- *. rewrite Hmiss in Hrec |- *.
  destruct (run_analyses_built cache providers E w code context)
    as [built Hbuilt].
  rewrite Hbuilt in Hrec |- *. cbv zeta in Hrec |- *.
  destruct built as [result|e]; [|done].
  cbn [store emit] in Hrec |- *.
  destruct (cache_set cache (store w) _ (to_dict result) 3600)
    as [[[]|e] s'] eqn:Hset; [|done].
  destruct (py_len (issues result)) as [n|e]; [|done].
  cbn in Hrec. injection Hrec as -> _.
  apply Hlaw in Hset.
  assert (Hserved : ∀ tr telemetry' providers' E' context',
            analyze_code hash cache telemetry' providers' E' (World s' tr)
              code context' true
            = (Ok r, emit (World s' tr)
                       [LoggedInfo "Using cached analysis result"])).
  { intros tr telemetry' providers' E' context'.
    unfold analyze_code, check_cache. cbn [store].
    change (cache_key hash code context') with (cache_key hash code context).
    rewrite Hset. unfold mbind, result_bind. cbv beta iota.
    change (truthy (to_dict r)) with true. cbv iota.
    by rewrite from_kwargs_to_dict. }
  destruct (record_analysis telemetry _ _ _ n) as [u|e] eqn:Hta.
  - split; [|apply Hserved].
    intros Hfails. destruct (Hfails (Z.of_nat (String.length code))
                               (execution_time r) (quality_score r) n)
      as [e He]. congruence.
  - destruct (record_error telemetry _ e) as [u|e']; cbn [fst snd];
      (split; [eauto|apply Hserved]).
Qed.

End Service.

(** ** The service as [__init__] wires it *)

(** X23.  With the collaborators [__init__] gives it, a [CacheManager]
    whose methods are not awaitable and a [TelemetryManager] that has
    neither [record_analysis] nor [record_error], [analyze_code] returns no
    result: whatever the code, the context, the flag and the analyses, the
    call raises; and so does [warm_up_models]. *)
Theorem as_wired_never_returns (L : Cache.pylib) (hash : string → Z)
    (providers : Providers) (E : env) (w : world Cache.server)
    (code : string) (context : pyobj) (use_cache : bool) :
  (∃ e, fst (analyze_code hash (manager_cache L) Fixtures.TelemetryManager
               providers E w code context use_cache) = Raise e)
  ∧ (∃ e, fst (warm_up_models hash (manager_cache L)
                 Fixtures.TelemetryManager providers E w) = Raise e).
Proof.
  assert (Hmiss : ∀ code context,
            ∃ e, fst (analyze_code hash (manager_cache L)
                        Fixtures.TelemetryManager providers E w code context
                        false) = Raise e).
  { intros code0 context0. unfold analyze_code, check_cache, run_analyses.
    cbv zeta.
    match goal with
    | |- context [match ?built with Ok _ => _ | Raise _ => _ end] =>
        destruct built as [result|e]
    end; cbn; [|eauto].
    destruct (py_len (issues result)) as [n|e]; cbn; eauto. }
  split.
  - destruct use_cache; [|apply Hmiss].
    unfold analyze_code, check_cache, manager_cache. cbn [cache_get].
    destruct (Cache.get L (store w) _ PyNone) as [v|e]; cbn; eauto.
  - unfold warm_up_models.
    destruct (Hmiss "def hello(): return 'world'"%string PyNone) as [e He].
    destruct (analyze_code _ _ _ _ _ _ _ _ _) as [[r|e'] w']; [done|].
    cbn. eauto.
Qed.

(** ** Instances *)

(** A sample analysed twice over the dictionary cache: the second call,
    with a failing debugger and another context, returns the result of the
    first. *)
Lemma repeated_call_served_from_cache_witness :
  let w := World (∅ : gmap string pyobj) [] in
  let first :=
    analyze_code Fixtures.length_hash Fixtures.dict_cache Fixtures.recording
      Fixtures.healthy Fixtures.calm w "def f(): pass" PyNone true in
  let r := {| quality_score := PyFloat (9 # 10); issues := PyList [];
              optimizations := PyList []; patterns := PyList [];
              execution_time := PyFloat (1 # 2);
              timestamp := PyStr "2024-01-01T00:00:00" |} in
  let w1 := snd first in
  ((∀ s k v ttl s',
      cache_set Fixtures.dict_cache s k v ttl = (Ok (), s') →
      cache_get Fixtures.dict_cache s' k = Ok v)
   ∧ first = (Ok r, w1))
  ∧ ∀ telemetry' providers' E' context',
      analyze_code Fixtures.length_hash Fixtures.dict_cache telemetry'
        providers' E' w1 "def f(): pass" context' true
      = (Ok r, emit w1 [LoggedInfo "Using cached analysis result"]).
Proof.
  intros w first r w1.
  assert (Hlaw : ∀ (s : gmap string pyobj) k v (ttl : Z) s',
            cache_set Fixtures.dict_cache s k v ttl = (Ok (), s') →
            cache_get Fixtures.dict_cache s' k = Ok v).
  { intros s k v ttl s' [= <-]. cbn. by rewrite lookup_insert_eq. }
  assert (Hfirst : first = (Ok r, w1)) by (vm_compute; reflexivity).
  split; [by split|].
  exact (repeated_call_served_from_cache Fixtures.length_hash
           Fixtures.dict_cache Fixtures.recording Fixtures.healthy
           Fixtures.calm w w1 "def f(): pass" PyNone r Hlaw Hfirst).
Defined.

(** The debugger fails alone: the analysis that finishes first does not
    matter. *)
Lemma completion_order_irrelevant_witness :
  let w := World (∅ : gmap string pyobj) [] in
  let E' := {| start_time := start_time Fixtures.calm;
               end_time := end_time Fixtures.calm;
               stamp := stamp Fixtures.calm;
               completion := [2; 1; 0]%nat |} in
  (start_time Fixtures.calm = start_time E'
   ∧ end_time Fixtures.calm = end_time E'
   ∧ stamp Fixtures.calm = stamp E'
   ∧ (∀ e1 e2,
        In (Raise e1)
          (provider_outcomes Fixtures.failing_debugger "def f(): pass" PyNone) →
        In (Raise e2)
          (provider_outcomes Fixtures.failing_debugger "def f(): pass" PyNone) →
        e1 = e2))
  ∧ analyze_code Fixtures.length_hash Fixtures.dict_cache Fixtures.recording
      Fixtures.failing_debugger Fixtures.calm w "def f(): pass" PyNone true
    = analyze_code Fixtures.length_hash Fixtures.dict_cache Fixtures.recording
        Fixtures.failing_debugger E' w "def f(): pass" PyNone true.
Proof.
  intros w E'.
  assert (Hone : ∀ e1 e2,
            In (Raise e1)
              (provider_outcomes Fixtures.failing_debugger "def f(): pass"
                 PyNone) →
            In (Raise e2)
              (provider_outcomes Fixtures.failing_debugger "def f(): pass"
                 PyNone) →
            e1 = e2).
  { intros e1 e2 H1 H2. cbn in H1, H2.
    destruct H1 as [H1|[H1|[H1|[]]]]; try discriminate.
    destruct H2 as [H2|[H2|[H2|[]]]]; try discriminate.
    congruence. }
  split; [by split_and!|].
  exact (completion_order_irrelevant Fixtures.length_hash Fixtures.dict_cache
           Fixtures.recording Fixtures.failing_debugger Fixtures.calm E' w
           "def f(): pass" PyNone true eq_refl eq_refl eq_refl Hone).
Defined.

(** The telemetry of the repository over the dictionary cache: the first
    call raises, the second returns the result. *)
Lemma result_cached_before_telemetry_witness :
  let w := World (∅ : gmap string pyobj) [] in
  let r := {| quality_score := PyFloat (9 # 10); issues := PyList [];
              optimizations := PyList []; patterns := PyList [];
              execution_time := PyFloat (1 # 2);
              timestamp := PyStr "2024-01-01T00:00:00" |} in
  let w1 :=
    snd (analyze_code Fixtures.length_hash Fixtures.dict_cache
           Fixtures.recording Fixtures.healthy Fixtures.calm w
           "def f(): pass" PyNone true) in
  let out :=
    analyze_code Fixtures.length_hash Fixtures.dict_cache
      Fixtures.TelemetryManager Fixtures.healthy Fixtures.calm w
      "def f(): pass" PyNone true in
  ((∀ s k v ttl s',
      cache_set Fixtures.dict_cache s k v ttl = (Ok (), s') →
      cache_get Fixtures.dict_cache s' k = Ok v)
   ∧ check_cache Fixtures.length_hash Fixtures.dict_cache w "def f(): pass"
       PyNone true = Ok None
   ∧ analyze_code Fixtures.length_hash Fixtures.dict_cache Fixtures.recording
       Fixtures.healthy Fixtures.calm w "def f(): pass" PyNone true
     = (Ok r, w1)
   ∧ (∀ size seconds quality count,
        ∃ e, record_analysis Fixtures.TelemetryManager size seconds quality
               count = Raise e))
  ∧ (∃ e, fst out = Raise e)
  ∧ ∀ telemetry' providers' E' context',
      analyze_code Fixtures.length_hash Fixtures.dict_cache telemetry'
        providers' E' (snd out) "def f(): pass" context' true
      = (Ok r, emit (snd out) [LoggedInfo "Using cached analysis result"]).
Proof.
  intros w r w1 out.
  assert (Hlaw : ∀ (s : gmap string pyobj) k v (ttl : Z) s',
            cache_set Fixtures.dict_cache s k v ttl = (Ok (), s') →
            cache_get Fixtures.dict_cache s' k = Ok v).
  { intros s k v ttl s' [= <-]. cbn. by rewrite lookup_insert_eq. }
  assert (Hmiss : check_cache Fixtures.length_hash Fixtures.dict_cache w
                    "def f(): pass" PyNone true = Ok None)
    by (vm_compute; reflexivity).
  assert (Hrec : analyze_code Fixtures.length_hash Fixtures.dict_cache
                   Fixtures.recording Fixtures.healthy Fixtures.calm w
                   "def f(): pass" PyNone true = (Ok r, w1))
    by (vm_compute; reflexivity).
  assert (Hfails : ∀ size seconds quality count,
            ∃ e, record_analysis Fixtures.TelemetryManager size seconds
                   quality count = Raise e)
    by (intros; by eexists).
  destruct (result_cached_before_telemetry Fixtures.length_hash
              Fixtures.dict_cache Fixtures.TelemetryManager Fixtures.healthy
              Fixtures.calm w w1 "def f(): pass" PyNone r Hlaw Hmiss Hrec)
    as [Hraises Hserved].
  split; [by split_and!|]. split; [exact (Hraises Hfails)|exact Hserved].
Defined.

End ServiceFacts.
